(** * TAMV: camera-assisted nozzle alignment

    A shallow embedding of the calibration engine of [TAMV_GUI.py]
    (class [CalibrateNozzles] and the export path of the main window) and the
    properties of its specification.

    Conventions of the embedding.
    - Python floats are read as exact rationals ([Q]); [np.around(x, k)] is
      rounding to the nearest multiple of [10^-k], ties to even.  A binary64
      value differs from the exact one by the rounding errors of the
      operations that gave it, so where the exact value lies half way between
      two multiples of [10^-k] the code can give either of them (1.513 where
      the exact 1.5125 rounds to 1.512).  The properties of the offsets the
      code computes are therefore stated with [Rounded.to3], which both
      satisfy.
    - Pixel positions are integers ([Z]): [analyzeFrame] returns
      [np.uint16(np.around(pt))], [analyzeEndstop] an [int] centroid.
    - The printer client ([DuetWebAPI]), the camera and [cv2] are outside the
      file: every call made on them is recorded as an [Event] of a trace, and
      what they answer is read from an input list.
    - [np.linalg.lstsq] and [np.sqrt] are parameters of the model.
    - Logging, the debug string and the Qt widgets are left out; the
      [message_update] signals of [analyzeFrame] are kept as events.
    - The keypoints of a frame are an input of [analyzeFrame]; the rebuild of
      the detector that precedes their detection is modelled on its own, in
      [Detector]. *)

From Stdlib Require Import ZArith QArith Qround Qabs List String Ascii Bool Lia Lqa.
Import ListNotations.

Open Scope Q_scope.

(** ** Numbers *)

Module Num.

(** [rint]: nearest integer, ties to the even one (what [np.around] uses). *)
Definition rint (q : Q) : Z :=
  let f := Qfloor q in
  match Qcompare (q - inject_Z f) (1 # 2) with
  | Lt => f
  | Gt => (f + 1)%Z
  | Eq => if Z.even f then f else (f + 1)%Z
  end.

(** [np.around(q, 3)] *)
Definition around3 (q : Q) : Q := inject_Z (rint (q * 1000)) / 1000.

(** [np.around(q, 4)] *)
Definition around4 (q : Q) : Q := inject_Z (rint (q * 10000)) / 10000.

(** [abs(q) < 0.05] *)
Definition abs_lt_005 (q : Q) : bool :=
  match Qcompare (Qabs q) (5 # 100) with Lt => true | _ => false end.

(** [q == 0.0] *)
Definition is_zero (q : Q) : bool := Qeq_bool q 0.

End Num.

(** ** Rounded values *)

Module Rounded.

(** [r] is [q] rounded to 3 decimals: a multiple of 0.001 which is at most
    0.0005 away from [q].  A [q] half way between two multiples has two such
    roundings, every other [q] has one. *)
Definition to3 (q r : Q) : Prop :=
  (exists k : Z, r == inject_Z k / 1000) /\
  - (1 # 2000) <= r - q <= 1 # 2000.

End Rounded.

(** ** Detector presets and [createDetector] *)

Module Detector.

(** The [detect_*] attributes of the thread object. *)
Record DetectAttrs := {
  detect_th1 : Q;
  detect_th2 : Q;
  detect_thstep : Q;
  detect_filterByArea : bool;
  detect_minArea : Q;
  detect_maxArea : Q;
  detect_filterByCircularity : bool;
  detect_minCircularity : Q;
  detect_maxCircularity : Q;
  detect_filterByConvexity : bool;
  detect_minConvexity : Q;
  detect_maxConvexity : Q;
  detect_filterByInertia : bool;
  detect_minInertiaRatio : Q
}.

(** [detectParamsStandard] *)
Definition detectParamsStandard : DetectAttrs := {|
  detect_th1 := 1;
  detect_th2 := 50;
  detect_thstep := 1;
  detect_filterByArea := true;
  detect_minArea := 400;
  detect_maxArea := 900;
  detect_filterByCircularity := true;
  detect_minCircularity := 8 # 10;
  detect_maxCircularity := 1;
  detect_filterByConvexity := true;
  detect_minConvexity := 3 # 10;
  detect_maxConvexity := 1;
  detect_filterByInertia := true;
  detect_minInertiaRatio := 3 # 10
|}.

(** [detectParamsLoose] *)
Definition detectParamsLoose : DetectAttrs := {|
  detect_th1 := 1;
  detect_th2 := 50;
  detect_thstep := 1;
  detect_filterByArea := true;
  detect_minArea := 600;
  detect_maxArea := 15000;
  detect_filterByCircularity := true;
  detect_minCircularity := 6 # 10;
  detect_maxCircularity := 1;
  detect_filterByConvexity := true;
  detect_minConvexity := 1 # 10;
  detect_maxConvexity := 1;
  detect_filterByInertia := true;
  detect_minInertiaRatio := 3 # 10
|}.

(** [cv2.SimpleBlobDetector_Params], the fields [createDetector] sets. *)
Record BlobParams := {
  minThreshold : Q;
  maxThreshold : Q;
  thresholdStep : Q;
  filterByArea : bool;
  minArea : Q;
  maxArea : Q;
  filterByCircularity : bool;
  minCircularity : Q;
  maxCircularity : Q;
  filterByConvexity : bool;
  minConvexity : Q;
  maxConvexity : Q;
  filterByInertia : bool;
  minInertiaRatio : Q
}.

(** The part of the thread object the preset switch touches. *)
Record DetState := {
  attrs : DetectAttrs;
  loose : bool;
  detector_changed : bool;
  detector : option BlobParams
}.

(** [__init__]: standard preset, no detector yet. *)
Definition init : DetState := {|
  attrs := detectParamsStandard;
  loose := false;
  detector_changed := false;
  detector := None
|}.

(** [toggleLoose] *)
Definition toggleLoose (s : DetState) : DetState :=
  if loose s
  then {| attrs := detectParamsStandard; loose := false;
          detector_changed := true; detector := detector s |}
  else {| attrs := detectParamsLoose; loose := true;
          detector_changed := true; detector := detector s |}.

(** The parameters [createDetector] hands to
    [cv2.SimpleBlobDetector_create]. *)
Definition createDetector_params (a : DetectAttrs) : BlobParams := {|
  minThreshold := detect_th1 a;
  maxThreshold := detect_th2 a;
  thresholdStep := detect_thstep a;
  filterByArea := true;
  minArea := detect_minArea a;
  maxArea := detect_maxArea a;
  filterByCircularity := true;
  minCircularity := detect_minCircularity a;
  maxCircularity := 1;
  filterByConvexity := true;
  minConvexity := 3 # 10;
  maxConvexity := 1;
  filterByInertia := true;
  minInertiaRatio := 3 # 10
|}.

(** [createDetector] *)
Definition createDetector (s : DetState) : DetState :=
  {| attrs := attrs s; loose := loose s;
     detector_changed := detector_changed s;
     detector := Some (createDetector_params (attrs s)) |}.

(** The rebuild the polling loops do:
    [if self.detector_changed: self.createDetector(); self.detector_changed = False] *)
Definition rebuild_if_changed (s : DetState) : DetState :=
  if detector_changed s
  then let s' := createDetector s in
       {| attrs := attrs s'; loose := loose s';
          detector_changed := false; detector := detector s' |}
  else s.

(** The preset that is active, by the [loose] flag [toggleLoose] keeps. *)
Definition active_preset (s : DetState) : DetectAttrs :=
  if loose s then detectParamsLoose else detectParamsStandard.

(** The constructed detector has the values of attribute set [a] in every
    parameter the claim lists. *)
Definition params_match (p : BlobParams) (a : DetectAttrs) : bool :=
  Qeq_bool (minThreshold p) (detect_th1 a) &&
  Qeq_bool (maxThreshold p) (detect_th2 a) &&
  Qeq_bool (thresholdStep p) (detect_thstep a) &&
  Qeq_bool (minArea p) (detect_minArea a) &&
  Qeq_bool (maxArea p) (detect_maxArea a) &&
  Qeq_bool (minCircularity p) (detect_minCircularity a) &&
  Qeq_bool (maxCircularity p) (detect_maxCircularity a) &&
  Qeq_bool (minConvexity p) (detect_minConvexity a) &&
  Qeq_bool (maxConvexity p) (detect_maxConvexity a) &&
  Qeq_bool (minInertiaRatio p) (detect_minInertiaRatio a).

End Detector.

(** ** Python values shared by the models *)

Module Py.

(** The exceptions the modelled code can raise. *)
Inductive Exn :=
| TypeError
| UnboundLocalError
| AttributeError
| IndexError
| ValueError.

(** What a call does: return a value, raise, or never return (its polling
    loop has used up the input it was given). *)
Inductive Outcome (A : Type) :=
| Return (a : A)
| Raise (e : Exn)
| Pending.

Arguments Return {A} a.
Arguments Raise {A} e.
Arguments Pending {A}.

(** The dictionary [getCoordinates] answers with. *)
Record Coords := { cX : Q; cY : Q; cZ : Q }.

(** [needle in hay] on strings. *)
Fixpoint str_in (needle hay : string) : bool :=
  String.prefix needle hay ||
  match hay with
  | EmptyString => false
  | String _ t => str_in needle t
  end.

(** Reading a local variable that may not have been assigned yet. *)
Definition local {A : Type} (v : option A) : Exn + A :=
  match v with
  | None => inl UnboundLocalError
  | Some a => inr a
  end.

End Py.

(** ** [analyzeFrame] *)

Module Frame.
Import Py Num.

(** A keypoint of the blob detector. *)
Record KeyPoint := { pt : Q * Q; size : Q }.

(** What one pass of the [while] loop reads from outside: the detection flag
    at the loop test, the camera, the printer, the detector, the clock. *)
Record FrameEvent := {
  fe_on : bool;                 (* [self.detection_on] at the loop test *)
  fe_ret : bool;                (* [self.ret] of [cap.read()] *)
  fe_coords : option Coords;    (* [getCoordinates()], [None] when it raised *)
  fe_width : Z;                 (* [frame.shape[1]] *)
  fe_height : Z;                (* [frame.shape[0]] *)
  fe_keypoints : list KeyPoint; (* [self.detector.detect(self.frame)] *)
  fe_now : Z                    (* [int(round(time.time() * 1000))] *)
}.

(** The signals [analyzeFrame] emits. *)
Inductive Signal :=
| Pixmap
| Crosshair (b : bool)
| Message (s : string)
| FoundMessage (u v : Z) (r : Q).

(** The tuple [analyzeFrame] returns. *)
Record Detection := {
  d_xy : Z * Z;
  d_target : Z * Z;
  d_coords : option Coords;
  d_radius : Q
}.

(** The locals of [analyzeFrame]. *)
Record Locals := {
  xy : Z * Z;
  nocircle : nat;
  rd : Z;
  target : option (Z * Z);
  toolCoordinates : option (option Coords);
  r : option Q
}.

(** The locals at entry; [rd0] is the clock at that moment. *)
Definition entry (rd0 : Z) : Locals := {|
  xy := (0, 0)%Z;
  nocircle := 0;
  rd := rd0;
  target := None;
  toolCoordinates := None;
  r := None
|}.

Definition msg_error : string := "Error in detecting nozzle.".
Definition msg_none : string := "No circles found.".
Definition msg_many : string :=
  "Too many circles found. Please stop and clean the nozzle.".

(** What one pass of the loop does next. *)
Inductive Pass :=
| Exit (l : Locals)              (* the loop test failed *)
| Continue (l : Locals)          (* [continue] *)
| Break (l : Locals).            (* [break]: one circle *)

(** [np.uint16(np.around(x))] *)
Definition uint16_around (x : Q) : Z := (rint x mod 65536)%Z.

(** One pass of [while True and self.detection_on: ...]. *)
Definition pass (l : Locals) (e : FrameEvent) : Pass * list Signal :=
  if negb (fe_on e) then (Exit l, [])
  else if negb (fe_ret e) then (Continue l, [])
  else
    let l1 := {| xy := xy l; nocircle := nocircle l; rd := rd l;
                 target := Some (rint (inject_Z (fe_width e) / 2),
                                 rint (inject_Z (fe_height e) / 2));
                 toolCoordinates := Some (fe_coords e);
                 r := r l |} in
    if (25 <? nocircle l1)%nat then
      (Continue {| xy := xy l1; nocircle := 0; rd := rd l1;
                   target := target l1;
                   toolCoordinates := toolCoordinates l1; r := r l1 |},
       [Pixmap; Message msg_error])
    else
      match fe_keypoints e with
      | [] =>
          if (25 <? fe_now e - rd l1)%Z then
            (Continue {| xy := xy l1; nocircle := S (nocircle l1);
                         rd := rd l1; target := target l1;
                         toolCoordinates := toolCoordinates l1;
                         r := r l1 |},
             [Pixmap; Message msg_none; Crosshair false; Pixmap])
          else (Continue l1, [Pixmap])
      | _ :: _ :: _ =>
          if (25 <? fe_now e - rd l1)%Z then
            (Continue l1,
             [Pixmap; Message msg_many; Crosshair false; Pixmap])
          else (Continue l1, [Pixmap])
      | [k] =>
          let u := uint16_around (fst (pt k)) in
          let v := uint16_around (snd (pt k)) in
          let rad := inject_Z (rint (size k / 2)) in
          (Break {| xy := (u, v); nocircle := 0; rd := fe_now e;
                    target := target l1;
                    toolCoordinates := toolCoordinates l1;
                    r := Some rad |},
           [Pixmap; Crosshair true;
            FoundMessage (rint (fst (pt k))) (rint (snd (pt k))) rad;
            Pixmap])
      end.

(** The code after the loop: [if self.detection_on: return (xy, target,
    toolCoordinates, r) else: return]; [final_on] is the flag at that test. *)
Definition after_loop (l : Locals) (final_on : bool)
  : Outcome (option Detection) :=
  if final_on then
    match local (target l), local (toolCoordinates l), local (r l) with
    | inr t, inr c, inr rad =>
        Return (Some {| d_xy := xy l; d_target := t; d_coords := c;
                        d_radius := rad |})
    | inl e, _, _ => Raise e
    | _, inl e, _ => Raise e
    | _, _, inl e => Raise e
    end
  else Return None.

(** The loop, on the passes the input provides. *)
Fixpoint loop (l : Locals) (evs : list FrameEvent) (final_on : bool)
  : Outcome (option Detection) * list Signal :=
  match evs with
  | [] => (Pending, [])
  | e :: rest =>
      match pass l e with
      | (Exit l', sg) => (after_loop l' final_on, sg)
      | (Break l', sg) => (after_loop l' final_on, sg)
      | (Continue l', sg) =>
          let '(o, sg') := loop l' rest final_on in (o, sg ++ sg')
      end
  end.

(** [analyzeFrame] *)
Definition analyzeFrame (rd0 : Z) (evs : list FrameEvent) (final_on : bool)
  : Outcome (option Detection) * list Signal :=
  loop (entry rd0) evs final_on.

(** The pass on which the call left its loop, when it did. *)
Fixpoint last_pass (l : Locals) (evs : list FrameEvent)
  : option (Locals * FrameEvent) :=
  match evs with
  | [] => None
  | e :: rest =>
      match fst (pass l e) with
      | Continue l' => last_pass l' rest
      | _ => Some (l, e)
      end
  end.

End Frame.

(** ** [calibrateTool] *)

Module Calib.
Import Py Num.

(** The [ctool] argument: a tool number, or the string ['endstop'].  The code
    tests [str(ctool) in "endstop"]; the decimal text of a number is never a
    substring of that word, so the test tells the two constructors apart. *)
Inductive Tool :=
| ToolNumber (n : Z)
| Endstop.

Definition is_endstop (t : Tool) : bool :=
  match t with Endstop => true | ToolNumber _ => false end.

(** A float that may be [inf] (a division by a zero [np.float64]). *)
Inductive Float :=
| Finite (q : Q)
| Infinite.

(** What [calibrateTool] keeps of a detection: the pixel position and the
    machine coordinates ([self.target] and [self.radius] are stored and never
    read). *)
Record Reading := { r_xy : Z * Z; r_coords : option Coords }.

(** From the tuple of [analyzeFrame]. *)
Definition reading_of_detection (d : Frame.Detection) : Reading :=
  {| r_xy := Frame.d_xy d; r_coords := Frame.d_coords d |}.

(** From the pair of [analyzeEndstop]. *)
Definition reading_of_endstop (p : (Z * Z) * Coords) : Reading :=
  {| r_xy := fst p; r_coords := Some (snd p) |}.

(** The outcome of one [analyzeFrame()] call as [calibrateTool] sees it. *)
Definition sensed (o : Outcome (option Frame.Detection))
  : Outcome (option Reading) :=
  match o with
  | Return v => Return (option_map reading_of_detection v)
  | Raise e => Raise e
  | Pending => Pending
  end.

(** The calls made on the printer and on the fit, and the result signal. *)
Inductive Event :=
| Analyze
| LoadTool (n : Z)
| UnloadTools
| GetStatus (s : string)
| MoveAbsolute (speed : Z) (x y z : option Q)
| MoveRelative (speed : Z) (x y : Q)
| LimitAxes
| GetToolOffset (n : Z)
| SetToolOffsets (n : Z) (x y : Q)
| Fit (input : list ((Q * Q) * (Q * Q)))
| ResultUpdate (tool : Z) (cycle : nat) (m : Float) (x y : Q).

(** The attributes of the thread object [calibrateTool] works on. *)
Record Self := {
  transform_matrix : list (Q * Q);
  transform_residual : option Q;
  mpp : option Float;
  state : nat;
  detect_count : nat;
  average_location : Q * Q;
  xy : Z * Z;
  oldxy : Z * Z;
  tool_coordinates : option Coords;
  space_coordinates : list (Q * Q);
  camera_coordinates : list (Z * Z);
  offsetX : Q;
  offsetY : Q;
  calibration_moves : nat;
  cp_coordinates : Coords
}.

Definition set_transform_matrix (v : list (Q * Q)) (s : Self) : Self :=
  {| transform_matrix := v; transform_residual := transform_residual s; mpp
     := mpp s; state := state s; detect_count := detect_count s;
     average_location := average_location s; xy := xy s; oldxy := oldxy s;
     tool_coordinates := tool_coordinates s; space_coordinates :=
     space_coordinates s; camera_coordinates := camera_coordinates s;
     offsetX := offsetX s; offsetY := offsetY s; calibration_moves :=
     calibration_moves s; cp_coordinates := cp_coordinates s |}.

Definition set_transform_residual (v : option Q) (s : Self) : Self :=
  {| transform_matrix := transform_matrix s; transform_residual := v; mpp :=
     mpp s; state := state s; detect_count := detect_count s;
     average_location := average_location s; xy := xy s; oldxy := oldxy s;
     tool_coordinates := tool_coordinates s; space_coordinates :=
     space_coordinates s; camera_coordinates := camera_coordinates s;
     offsetX := offsetX s; offsetY := offsetY s; calibration_moves :=
     calibration_moves s; cp_coordinates := cp_coordinates s |}.

Definition set_mpp (v : option Float) (s : Self) : Self :=
  {| transform_matrix := transform_matrix s; transform_residual :=
     transform_residual s; mpp := v; state := state s; detect_count :=
     detect_count s; average_location := average_location s; xy := xy s;
     oldxy := oldxy s; tool_coordinates := tool_coordinates s;
     space_coordinates := space_coordinates s; camera_coordinates :=
     camera_coordinates s; offsetX := offsetX s; offsetY := offsetY s;
     calibration_moves := calibration_moves s; cp_coordinates :=
     cp_coordinates s |}.

Definition set_state (v : nat) (s : Self) : Self :=
  {| transform_matrix := transform_matrix s; transform_residual :=
     transform_residual s; mpp := mpp s; state := v; detect_count :=
     detect_count s; average_location := average_location s; xy := xy s;
     oldxy := oldxy s; tool_coordinates := tool_coordinates s;
     space_coordinates := space_coordinates s; camera_coordinates :=
     camera_coordinates s; offsetX := offsetX s; offsetY := offsetY s;
     calibration_moves := calibration_moves s; cp_coordinates :=
     cp_coordinates s |}.

Definition set_detect_count (v : nat) (s : Self) : Self :=
  {| transform_matrix := transform_matrix s; transform_residual :=
     transform_residual s; mpp := mpp s; state := state s; detect_count :=
     v; average_location := average_location s; xy := xy s; oldxy := oldxy
     s; tool_coordinates := tool_coordinates s; space_coordinates :=
     space_coordinates s; camera_coordinates := camera_coordinates s;
     offsetX := offsetX s; offsetY := offsetY s; calibration_moves :=
     calibration_moves s; cp_coordinates := cp_coordinates s |}.

Definition set_average_location (v : Q * Q) (s : Self) : Self :=
  {| transform_matrix := transform_matrix s; transform_residual :=
     transform_residual s; mpp := mpp s; state := state s; detect_count :=
     detect_count s; average_location := v; xy := xy s; oldxy := oldxy s;
     tool_coordinates := tool_coordinates s; space_coordinates :=
     space_coordinates s; camera_coordinates := camera_coordinates s;
     offsetX := offsetX s; offsetY := offsetY s; calibration_moves :=
     calibration_moves s; cp_coordinates := cp_coordinates s |}.

Definition set_xy (v : Z * Z) (s : Self) : Self :=
  {| transform_matrix := transform_matrix s; transform_residual :=
     transform_residual s; mpp := mpp s; state := state s; detect_count :=
     detect_count s; average_location := average_location s; xy := v; oldxy
     := oldxy s; tool_coordinates := tool_coordinates s; space_coordinates
     := space_coordinates s; camera_coordinates := camera_coordinates s;
     offsetX := offsetX s; offsetY := offsetY s; calibration_moves :=
     calibration_moves s; cp_coordinates := cp_coordinates s |}.

Definition set_oldxy (v : Z * Z) (s : Self) : Self :=
  {| transform_matrix := transform_matrix s; transform_residual :=
     transform_residual s; mpp := mpp s; state := state s; detect_count :=
     detect_count s; average_location := average_location s; xy := xy s;
     oldxy := v; tool_coordinates := tool_coordinates s; space_coordinates
     := space_coordinates s; camera_coordinates := camera_coordinates s;
     offsetX := offsetX s; offsetY := offsetY s; calibration_moves :=
     calibration_moves s; cp_coordinates := cp_coordinates s |}.

Definition set_tool_coordinates (v : option Coords) (s : Self) : Self :=
  {| transform_matrix := transform_matrix s; transform_residual :=
     transform_residual s; mpp := mpp s; state := state s; detect_count :=
     detect_count s; average_location := average_location s; xy := xy s;
     oldxy := oldxy s; tool_coordinates := v; space_coordinates :=
     space_coordinates s; camera_coordinates := camera_coordinates s;
     offsetX := offsetX s; offsetY := offsetY s; calibration_moves :=
     calibration_moves s; cp_coordinates := cp_coordinates s |}.

Definition set_space_coordinates (v : list (Q * Q)) (s : Self) : Self :=
  {| transform_matrix := transform_matrix s; transform_residual :=
     transform_residual s; mpp := mpp s; state := state s; detect_count :=
     detect_count s; average_location := average_location s; xy := xy s;
     oldxy := oldxy s; tool_coordinates := tool_coordinates s;
     space_coordinates := v; camera_coordinates := camera_coordinates s;
     offsetX := offsetX s; offsetY := offsetY s; calibration_moves :=
     calibration_moves s; cp_coordinates := cp_coordinates s |}.

Definition set_camera_coordinates (v : list (Z * Z)) (s : Self) : Self :=
  {| transform_matrix := transform_matrix s; transform_residual :=
     transform_residual s; mpp := mpp s; state := state s; detect_count :=
     detect_count s; average_location := average_location s; xy := xy s;
     oldxy := oldxy s; tool_coordinates := tool_coordinates s;
     space_coordinates := space_coordinates s; camera_coordinates := v;
     offsetX := offsetX s; offsetY := offsetY s; calibration_moves :=
     calibration_moves s; cp_coordinates := cp_coordinates s |}.

Definition set_offsetX (v : Q) (s : Self) : Self :=
  {| transform_matrix := transform_matrix s; transform_residual :=
     transform_residual s; mpp := mpp s; state := state s; detect_count :=
     detect_count s; average_location := average_location s; xy := xy s;
     oldxy := oldxy s; tool_coordinates := tool_coordinates s;
     space_coordinates := space_coordinates s; camera_coordinates :=
     camera_coordinates s; offsetX := v; offsetY := offsetY s;
     calibration_moves := calibration_moves s; cp_coordinates :=
     cp_coordinates s |}.

Definition set_offsetY (v : Q) (s : Self) : Self :=
  {| transform_matrix := transform_matrix s; transform_residual :=
     transform_residual s; mpp := mpp s; state := state s; detect_count :=
     detect_count s; average_location := average_location s; xy := xy s;
     oldxy := oldxy s; tool_coordinates := tool_coordinates s;
     space_coordinates := space_coordinates s; camera_coordinates :=
     camera_coordinates s; offsetX := offsetX s; offsetY := v;
     calibration_moves := calibration_moves s; cp_coordinates :=
     cp_coordinates s |}.

Definition set_calibration_moves (v : nat) (s : Self) : Self :=
  {| transform_matrix := transform_matrix s; transform_residual :=
     transform_residual s; mpp := mpp s; state := state s; detect_count :=
     detect_count s; average_location := average_location s; xy := xy s;
     oldxy := oldxy s; tool_coordinates := tool_coordinates s;
     space_coordinates := space_coordinates s; camera_coordinates :=
     camera_coordinates s; offsetX := offsetX s; offsetY := offsetY s;
     calibration_moves := v; cp_coordinates := cp_coordinates s |}.

Definition set_cp_coordinates (v : Coords) (s : Self) : Self :=
  {| transform_matrix := transform_matrix s; transform_residual :=
     transform_residual s; mpp := mpp s; state := state s; detect_count :=
     detect_count s; average_location := average_location s; xy := xy s;
     oldxy := oldxy s; tool_coordinates := tool_coordinates s;
     space_coordinates := space_coordinates s; camera_coordinates :=
     camera_coordinates s; offsetX := offsetX s; offsetY := offsetY s;
     calibration_moves := calibration_moves s; cp_coordinates := v |}.

(** [self.position_iterations] *)
Definition position_iterations : nat := 5.

(** [self.calibrationCoordinates] *)
Definition calibrationCoordinates : list (Q * Q) :=
  [ (0, -(5 # 10)); (294 # 1000, -(405 # 1000)); (476 # 1000, -(155 # 1000));
    (476 # 1000, 155 # 1000); (294 # 1000, 405 # 1000); (0, 5 # 10);
    (-(294 # 1000), 405 # 1000); (-(476 # 1000), 155 # 1000);
    (-(476 # 1000), -(155 # 1000)); (-(294 # 1000), -(405 # 1000)) ].

(** The value [calibrateTool] returns for a tool ([time] left out). *)
Record CalResult := {
  res_X : Q;
  res_Y : Q;
  res_MPP : Float;
  res_transform : list (Q * Q)
}.

(** Where the [while True] loop stands: before the detection at its top, or
    before the second detection taken once the counter has reached
    [position_iterations]. *)
Inductive Phase := AtTop | AtValidate.

Inductive Config :=
| Running (ph : Phase) (s : Self)
| Returned (v : option CalResult) (s : Self)
| Failed (e : Exn) (s : Self)
| Hung (s : Self).

(** Dot product and [T.T @ v] for a matrix given by its rows; numpy refuses
    operands whose sizes differ. *)
Fixpoint dot (a b : list Q) : Q :=
  match a, b with
  | x :: a', y :: b' => x * y + dot a' b'
  | _, _ => 0
  end.

Definition matT_vec (T : list (Q * Q)) (v : list Q) : Exn + (Q * Q) :=
  if Nat.eqb (List.length T) (List.length v)
  then inr (dot (map fst T) v, dot (map snd T) v)
  else inl ValueError.

(** [k * T] *)
Definition scale (k : Q) (T : list (Q * Q)) : list (Q * Q) :=
  map (fun row => (k * fst row, k * snd row)) T.

Section Camera.

(** The globals [camera_width], [camera_height]; [np.sqrt];
    [np.linalg.lstsq(A, b, rcond=None)], of which the code reads the solution
    and the residuals. *)
Variables camera_width camera_height : Z.
Variable np_sqrt : Q -> Q.
Variable lstsq : list (list Q) -> list (Q * Q) -> list (Q * Q) * list Q.

(** [normalize_coords] *)
Definition normalize_coords (coords : Z * Z) : Q * Q :=
  (inject_Z (fst coords) / inject_Z camera_width - (1 # 2),
   inject_Z (snd coords) / inject_Z camera_height - (1 # 2)).

(** [.mean()] of the residuals; [None] is the [nan] of an empty array. *)
Definition mean (l : list Q) : option Q :=
  match l with
  | [] => None
  | _ => Some (fold_right Qplus 0 l / inject_Z (Z.of_nat (List.length l)))
  end.

(** The rows of the matrix [A] of [least_square_mapping]. *)
Definition feature_row (p : Q * Q) : list Q :=
  let x := fst p in let y := snd p in [x * x; y * y; x * y; x; y; 1].

(** [least_square_mapping] *)
Definition least_square_mapping (calibration_points : list ((Q * Q) * (Q * Q)))
  : list (Q * Q) * option Q :=
  let real_coords := map fst calibration_points in
  let pixel_coords := map snd calibration_points in
  let A := map feature_row pixel_coords in
  let transform := lstsq A real_coords in
  (fst transform, mean (snd transform)).

(** [getDistance] *)
Definition getDistance (x1 y1 x0 y0 : Z) : Q :=
  let x_dist := inject_Z (x1 - x0) * inject_Z (x1 - x0) in
  let y_dist := inject_Z (y1 - y0) * inject_Z (y1 - y0) in
  around3 (np_sqrt (x_dist + y_dist)).

(** [np.around(0.5 / getDistance(...), 4)] *)
Definition mpp_of (old new : Z * Z) : Float :=
  let d := getDistance (fst old) (snd old) (fst new) (snd new) in
  if Qeq_bool d 0 then Infinite else Finite (around4 ((5 # 10) / d)).

(** The locals [calibrateTool] resets when it is entered, and the state it
    starts in: 200 when a transform is already held. *)
Definition enter (self : Self) (cp : Coords) : Self :=
  {| transform_matrix := transform_matrix self;
     transform_residual := transform_residual self;
     mpp := mpp self;
     state := if (1 <? List.length (transform_matrix self))%nat then 200%nat
              else 0%nat;
     detect_count := 0;
     average_location := (0, 0);
     xy := (0, 0)%Z;
     oldxy := (0, 0)%Z;
     tool_coordinates := tool_coordinates self;
     space_coordinates := [];
     camera_coordinates := [];
     offsetX := offsetX self;
     offsetY := offsetY self;
     calibration_moves := 0;
     cp_coordinates := cp |}.

(** The thread object as [__init__] leaves it. *)
Definition fresh : Self :=
  {| transform_matrix := [];
     transform_residual := None;
     mpp := None;
     state := 0;
     detect_count := 0;
     average_location := (0, 0);
     xy := (0, 0)%Z;
     oldxy := (0, 0)%Z;
     tool_coordinates := None;
     space_coordinates := [];
     camera_coordinates := [];
     offsetX := 0;
     offsetY := 0;
     calibration_moves := 0;
     cp_coordinates := {| cX := 0; cY := 0; cZ := 0 |} |}.

(** Unpacking the value of [analyzeFrame()] / [analyzeEndstop()]. *)
Definition unpack (o : Outcome (option Reading)) : Outcome Reading :=
  match o with
  | Return (Some rd) => Return rd
  | Return None => Raise TypeError
  | Raise e => Raise e
  | Pending => Pending
  end.

(** [(self.tool_coordinates['X'], self.tool_coordinates['Y'])] *)
Definition machine_xy (s : Self) : Exn + (Q * Q) :=
  match tool_coordinates s with
  | None => inl TypeError
  | Some c => inr (cX c, cY c)
  end.

(** The top of the loop: one detection, accumulated; the average is taken
    once [detect_count] has reached [position_iterations]. *)
Definition at_top (s : Self) (o : Outcome (option Reading))
  : Config * list Event :=
  match unpack o with
  | Raise e => (Failed e s, [Analyze])
  | Pending => (Hung s, [Analyze])
  | Return rd =>
      let s := set_tool_coordinates (r_coords rd) (set_xy (r_xy rd) s) in
      let a := average_location s in
      let a := (fst a + inject_Z (fst (xy s)), snd a + inject_Z (snd (xy s))) in
      let n := S (detect_count s) in
      let s := set_detect_count n (set_average_location a s) in
      if (position_iterations <=? n)%nat then
        let k := inject_Z (Z.of_nat n) in
        let a := (around3 (fst a / k), around3 (snd a / k)) in
        (Running AtValidate (set_average_location a s), [Analyze])
      else (Running AtTop s, [Analyze])
  end.

(** [[(self.space_coordinates[i], self.normalize_coords(camera))
     for i, camera in enumerate(self.camera_coordinates)]] *)
Fixpoint transform_input_from (i : nat) (space : list (Q * Q))
  (camera : list (Z * Z)) : Exn + list ((Q * Q) * (Q * Q)) :=
  match camera with
  | [] => inr []
  | c :: rest =>
      match nth_error space i with
      | None => inl IndexError
      | Some m =>
          match transform_input_from (S i) space rest with
          | inl e => inl e
          | inr l => inr ((m, normalize_coords c) :: l)
          end
      end
  end.

(** The offsets of the alignment stage, lines 1611 to 1615:
    [-1*(0.55*T.T @ v)], each component rounded to 3 decimals (in exact
    arithmetic: see the conventions on values half way between two
    thousandths). *)
Definition compute_offsets (T : list (Q * Q)) (pixel : Z * Z)
  : Exn + (Q * Q) :=
  let c := normalize_coords pixel in
  let cx := fst c in let cy := snd c in
  let v := [cx * cx; cy * cy; cx * cy; cx; cy; 0] in
  match matT_vec (scale (55 # 100) T) v with
  | inl e => inl e
  | inr o => inr (around3 (-(1) * fst o), around3 (-(1) * snd o))
  end.

(** State 0 *)
Definition calib_init (s : Self) : Config * list Event :=
  let s := set_oldxy (xy s) s in
  let s := set_camera_coordinates [] (set_space_coordinates [] s) in
  match machine_xy s with
  | inl e => (Failed e s, [])
  | inr m =>
      let s := set_space_coordinates (space_coordinates s ++ [m]) s in
      let s := set_camera_coordinates (camera_coordinates s ++ [xy s]) s in
      let o := nth 0 calibrationCoordinates (0, 0) in
      let s := set_offsetY (snd o) (set_offsetX (fst o) s) in
      (Running AtTop (set_state 1 s),
       [MoveRelative 3000 (offsetX s) (offsetY s)])
  end.

(** States 1 to 9 *)
Definition calib_step (s : Self) : Config * list Event :=
  let s := if Nat.eqb (state s) 1
           then set_mpp (Some (mpp_of (oldxy s) (xy s))) s else s in
  let s := set_oldxy (xy s) s in
  match machine_xy s with
  | inl e => (Failed e s, [])
  | inr m =>
      let s := set_space_coordinates (space_coordinates s ++ [m]) s in
      let s := set_camera_coordinates (camera_coordinates s ++ [xy s]) s in
      let s := set_offsetY (-(1) * offsetY s)
                 (set_offsetX (-(1) * offsetX s) s) in
      let back := MoveRelative 3000 (offsetX s) (offsetY s) in
      let o := nth (state s) calibrationCoordinates (0, 0) in
      let s := set_offsetY (snd o) (set_offsetX (fst o) s) in
      (Running AtTop (set_state (S (state s)) s),
       [back; MoveRelative 3000 (offsetX s) (offsetY s)])
  end.

(** State 10: the fit *)
Definition calib_finalize (s : Self) : Config * list Event :=
  let s := set_oldxy (xy s) s in
  match machine_xy s with
  | inl e => (Failed e s, [])
  | inr m =>
      let s := set_space_coordinates (space_coordinates s ++ [m]) s in
      let s := set_camera_coordinates (camera_coordinates s ++ [xy s]) s in
      match transform_input_from 0 (space_coordinates s)
              (camera_coordinates s) with
      | inl e => (Failed e s, [])
      | inr transform_input =>
          let fit := least_square_mapping transform_input in
          let s := set_transform_residual (snd fit)
                     (set_transform_matrix (fst fit) s) in
          match matT_vec (transform_matrix s) [0; 0; 0; 0; 0; 1] with
          | inl e => (Failed e s, [Fit transform_input])
          | inr newCenter =>
              let gx := around3 (fst newCenter) in
              let gy := around3 (snd newCenter) in
              (Running AtTop (set_state 200 s),
               [Fit transform_input;
                MoveAbsolute 1000 (Some gx) (Some gy) None])
          end
      end
  end.

(** The end of a run, once both offsets are zero.  [final_x] and [final_y]
    are rounded in exact arithmetic, as the offsets are. *)
Definition finish (ctool : Tool) (rep : nat) (tool_offsets : Coords)
  (s : Self) : Config * list Event :=
  match ctool with
  | Endstop =>
      (Returned None s,
       [MoveAbsolute 13200 None None None; MoveAbsolute 13200 None None None])
  | ToolNumber n =>
      let pre := [MoveAbsolute 13200 None None None; GetToolOffset n] in
      match tool_coordinates s with
      | None => (Failed TypeError s, pre)
      | Some tc =>
          let final_x :=
            around3 ((cX (cp_coordinates s) + cX tool_offsets) - cX tc) in
          let final_y :=
            around3 ((cY (cp_coordinates s) + cY tool_offsets) - cY tc) in
          match mpp s with
          | None => (Failed AttributeError s, pre)
          | Some m =>
              (Returned (Some {| res_X := final_x; res_Y := final_y;
                                 res_MPP := m;
                                 res_transform := transform_matrix s |}) s,
               pre ++ [MoveAbsolute 13200 None None None;
                       ResultUpdate n rep m final_x final_y])
          end
      end
  end.

(** State 200: one pass of the alignment stage *)
Definition centering (ctool : Tool) (rep : nat) (tool_offsets : Coords)
  (s : Self) : Config * list Event :=
  let s := set_calibration_moves (S (calibration_moves s)) s in
  match compute_offsets (transform_matrix s) (xy s) with
  | inl e => (Failed e s, [])
  | inr offsets =>
      let offsets :=
        if is_endstop ctool then
          if abs_lt_005 (fst offsets) && abs_lt_005 (snd offsets)
          then (0, 0) else offsets
        else offsets in
      let moves :=
        if is_endstop ctool then []
        else [LimitAxes; MoveRelative 1000 (fst offsets) (snd offsets)] in
      let s := set_oldxy (xy s) s in
      if is_zero (fst offsets) && is_zero (snd offsets) then
        let '(c, ev) := finish ctool rep tool_offsets s in (c, moves ++ ev)
      else (Running AtTop (set_state 200 s), moves)
  end.

(** The [if] / [elif] chain on [self.state]. *)
Definition on_state (ctool : Tool) (rep : nat) (tool_offsets : Coords)
  (s : Self) : Config * list Event :=
  if Nat.eqb (state s) 0 then calib_init s
  else if (1 <=? state s)%nat
          && (state s <? List.length calibrationCoordinates)%nat
  then calib_step s
  else if Nat.eqb (state s) (List.length calibrationCoordinates)
  then calib_finalize s
  else if Nat.eqb (state s) 200
  then centering ctool rep tool_offsets s
  else (Running AtTop s, []).

(** The second detection of a pass and the state machine it feeds. *)
Definition at_validate (ctool : Tool) (rep : nat) (tool_offsets : Coords)
  (s : Self) (o : Outcome (option Reading)) : Config * list Event :=
  match unpack o with
  | Raise e => (Failed e s, [Analyze])
  | Pending => (Hung s, [Analyze])
  | Return rd =>
      let s := set_tool_coordinates (r_coords rd) (set_xy (r_xy rd) s) in
      let '(c, ev) := on_state ctool rep tool_offsets s in
      (c, Analyze :: ev)
  end.

(** One detection's worth of the loop. *)
Definition step (ctool : Tool) (rep : nat) (tool_offsets : Coords)
  (ph : Phase) (s : Self) (o : Outcome (option Reading))
  : Config * list Event :=
  match ph with
  | AtTop => at_top s o
  | AtValidate => at_validate ctool rep tool_offsets s o
  end.

(** The loop on the detections the input provides; what is left of the input
    is handed back. *)
Fixpoint drive (ctool : Tool) (rep : nat) (tool_offsets : Coords)
  (c : Config) (inp : list (Outcome (option Reading)))
  : Config * list Event * list (Outcome (option Reading)) :=
  match c, inp with
  | Running ph s, o :: rest =>
      let '(c', ev) := step ctool rep tool_offsets ph s o in
      let '(c'', evs, unread) := drive ctool rep tool_offsets c' rest in
      (c'', ev ++ evs, unread)
  | _, _ => (c, [], inp)
  end.

(** [calibrateTool(ctool, rep)]; [cp] is [self.parent().cp_coords] and
    [tool_offsets] what [getToolOffset] answers. *)
Definition calibrateTool (self : Self) (cp : Coords) (ctool : Tool)
  (rep : nat) (tool_offsets : Coords) (inp : list (Outcome (option Reading)))
  : Config * list Event * list (Outcome (option Reading)) :=
  drive ctool rep tool_offsets (Running AtTop (enter self cp)) inp.

End Camera.

End Calib.

(** ** The alignment branch of [run] *)

Module Session.
Import Py Calib.

(** The global [_moveSpeed]. *)
Definition _moveSpeed : Z := 6000.

(** [while self.parent().printer.getStatus() not in 'idle': ...]; the list
    holds what [getStatus] answers, call after call.  [None]: the answers ran
    out before one was a substring of ['idle']. *)
Fixpoint wait_idle (answers : list string)
  : option (list Event * list string) :=
  match answers with
  | [] => None
  | a :: rest =>
      if str_in a "idle" then Some ([GetStatus a], rest)
      else
        match wait_idle rest with
        | None => None
        | Some (ev, unread) => Some (GetStatus a :: ev, unread)
        end
  end.

(** What the body of the two [for] loops comes to for one tool. *)
Inductive Job :=
| JobDone (self : Self) (statuses : list string)
    (inp : list (Outcome (option Reading)))
| JobError (e : Exn) (self : Self)
| JobHung.

(** How [run] ends. *)
Inductive End :=
| Complete (self : Self)
| Aborted (e : Exn) (self : Self)
| Stalled.

Section Camera.

Variables camera_width camera_height : Z.
Variable np_sqrt : Q -> Q.
Variable lstsq : list (list Q) -> list (Q * Q) -> list (Q * Q) * list Q.

(** [cp]: [self.parent().cp_coords]; [firmware rep n]: what [getToolOffset]
    answers for tool [n] in cycle [rep]. *)
Variable cp : Coords.
Variable firmware : nat -> Z -> Coords.

(** The moves to the control point, axis by axis. *)
Definition to_control_point : list Event :=
  [ MoveAbsolute _moveSpeed (Some (cX cp)) None None;
    MoveAbsolute _moveSpeed None (Some (cY cp)) None;
    MoveAbsolute _moveSpeed None None (Some (cZ cp)) ].

(** The body of [for ptool in ...]: load the tool, go to the control point,
    wait for idle, calibrate, apply the offsets. *)
Definition job (self : Self) (rep : nat) (n : Z) (statuses : list string)
  (inp : list (Outcome (option Reading))) : Job * list Event :=
  let pre := LoadTool n :: to_control_point in
  match wait_idle statuses with
  | None => (JobHung, pre ++ map GetStatus statuses)
  | Some (polled, statuses') =>
      match calibrateTool camera_width camera_height np_sqrt lstsq
              self cp (ToolNumber n) rep (firmware rep n) inp with
      | (Returned (Some c) self', ev, inp') =>
          (JobDone self' statuses' inp',
           pre ++ polled ++ ev ++ [SetToolOffsets n (res_X c) (res_Y c)])
      | (Returned None self', ev, _) =>
          (JobError TypeError self', pre ++ polled ++ ev)
      | (Failed e self', ev, _) => (JobError e self', pre ++ polled ++ ev)
      | (Hung _, ev, _) => (JobHung, pre ++ polled ++ ev)
      | (Running _ _, ev, _) => (JobHung, pre ++ polled ++ ev)
      end
  end.

(** The jobs of [for rep in range(cycles): for ptool in tools], in order. *)
Definition jobs (cycles : nat) (tools : list Z) : list (nat * Z) :=
  flat_map (fun rep => map (fun n => (rep, n)) tools) (seq 0 cycles).

Fixpoint run_jobs (js : list (nat * Z)) (self : Self)
  (statuses : list string) (inp : list (Outcome (option Reading)))
  : End * list Event :=
  match js with
  | [] => (Complete self, UnloadTools :: to_control_point)
  | (rep, n) :: rest =>
      match job self rep n statuses inp with
      | (JobDone self' statuses' inp', ev) =>
          let '(e, evs) := run_jobs rest self' statuses' inp' in
          (e, ev ++ evs)
      | (JobError e self', ev) => (Aborted e self', ev)
      | (JobHung, ev) => (Stalled, ev)
      end
  end.

(** The alignment branch of [run]. *)
Definition run (self : Self) (cycles : nat) (tools : list Z)
  (statuses : list string) (inp : list (Outcome (option Reading)))
  : End * list Event :=
  run_jobs (jobs cycles tools) self statuses inp.

End Camera.

Definition is_complete (e : End) : bool :=
  match e with Complete _ => true | _ => false end.

(** The fits of a trace, in order. *)
Definition fits (tr : list Event) : list (list ((Q * Q) * (Q * Q))) :=
  flat_map (fun e => match e with Fit i => [i] | _ => [] end) tr.

Definition is_status (e : Event) : bool :=
  match e with GetStatus _ => true | _ => false end.

(** An event that is no status query. *)
Definition quiet (e : Event) : Prop := is_status e = false.

(** A fit on 11 samples. *)
Definition eleven (i : list ((Q * Q) * (Q * Q))) : Prop :=
  List.length i = 11%nat.

Definition is_relative_move (e : Event) : bool :=
  match e with MoveRelative _ _ _ => true | _ => false end.

Definition is_move (e : Event) : bool :=
  match e with
  | MoveRelative _ _ _ | MoveAbsolute _ _ _ _ => true
  | _ => false
  end.

(** Every relative move of a trace has, since the move before it, a
    [getStatus] answer that is a substring of ['idle'].  [seen] tells whether
    such an answer came since the last move. *)
Fixpoint idle_before_moves (seen : bool) (tr : list Event) : bool :=
  match tr with
  | [] => true
  | GetStatus a :: rest => idle_before_moves (seen || str_in a "idle") rest
  | MoveRelative _ _ _ :: rest => seen && idle_before_moves false rest
  | MoveAbsolute _ _ _ _ :: rest => idle_before_moves false rest
  | _ :: rest => idle_before_moves seen rest
  end.

End Session.

(** ** The export of the results *)

Module Results.
Import Py.

Set Warnings "-register-all".

(** The values the export handles: JSON values, and the [datetime] object,
    which [json] cannot encode. *)
Inductive Value :=
| VStr (s : string)
| VDatetime (stamp : Z)
| VDict (items : list (string * Value))
| VList (items : list Value).

(** The names the module [datetime] defines (the code has
    [import datetime], line 64). *)
Definition datetime_module : list string :=
  [ "MAXYEAR"; "MINYEAR"; "UTC"; "date"; "datetime"; "datetime_CAPI";
    "time"; "timedelta"; "timezone"; "tzinfo" ]%string.

(** [getattr(module, name)] *)
Definition getattr (module : list string) (name : string) : Exn + string :=
  if existsb (String.eqb name) module then inr name else inl AttributeError.

(** [json.dumps] for the values above, with the default separators; a
    value [json] cannot encode raises [TypeError].  Strings are assumed to
    need no escaping. *)
Definition quote : string := String (ascii_of_nat 34) EmptyString.

Fixpoint dumps (v : Value) : Exn + string :=
  let fix items (l : list Value) : Exn + string :=
    match l with
    | [] => inr EmptyString
    | [x] => dumps x
    | x :: l' =>
        match dumps x, items l' with
        | inr a, inr b => inr (a ++ ", " ++ b)%string
        | inl e, _ => inl e
        | _, inl e => inl e
        end
    end in
  let fix pairs (l : list (string * Value)) : Exn + string :=
    match l with
    | [] => inr EmptyString
    | (k, x) :: l' =>
        match dumps x, pairs l' with
        | inr a, inr b =>
            let sep := match l' with [] => EmptyString | _ => ", "%string end in
            inr (quote ++ k ++ quote ++ ": " ++ a ++ sep ++ b)%string
        | inl e, _ => inl e
        | _, inl e => inl e
        end
    end in
  match v with
  | VStr s => inr (quote ++ s ++ quote)%string
  | VDatetime _ => inl TypeError
  | VDict l =>
      match pairs l with
      | inr a => inr ("{" ++ a ++ "}")%string
      | inl e => inl e
      end
  | VList l =>
      match items l with
      | inr a => inr ("[" ++ a ++ "]")%string
      | inl e => inl e
      end
  end.

(** The main window's part in the export: the result list and the file
    [output.json] ([None]: not written). *)
Record Window := {
  calibrationResults : list Value;
  printerURL : string;
  output_json : option string;
  errors : list Exn
}.

(** The [if export:] block of [analyzeResults], lines 3223 to 3231:
    [[
      try:
          self.calibrationResults.append(
              { "printer": self.printerURL, "datetime": datetime.now() })
          with open('output.json', 'w') as outputfile:
              json.dump(self.calibrationResults, outputfile)
      except Exception as e1: ...
    ]]
    [now] is the clock.  The name [datetime] is the module, so the attribute
    [now] is looked up in it before anything is appended.  [open(..., 'w')]
    empties the file; what [json.dump] had written of it when it raises is
    not modelled. *)
Definition analyzeResults_export (w : Window) (now : Z) : Window :=
  match getattr datetime_module "now" with
  | inl e =>
      {| calibrationResults := calibrationResults w;
         printerURL := printerURL w;
         output_json := output_json w;
         errors := errors w ++ [e] |}
  | inr _ =>
      let marker := VDict [ ("printer", VStr (printerURL w));
                            ("datetime", VDatetime now) ]%string in
      let results := calibrationResults w ++ [marker] in
      match dumps (VList results) with
      | inl e =>
          {| calibrationResults := results;
             printerURL := printerURL w;
             output_json := Some EmptyString;
             errors := errors w ++ [e] |}
      | inr text =>
          {| calibrationResults := results;
             printerURL := printerURL w;
             output_json := Some text;
             errors := errors w |}
      end
  end.

(** One result record, as [result_update] emits it. *)
Definition result_record (tool cycle mpp X Y : string) : Value :=
  VDict [ ("tool", VStr tool); ("cycle", VStr cycle); ("mpp", VStr mpp);
          ("X", VStr X); ("Y", VStr Y) ]%string.

(** [addCalibrationResult] *)
Definition addCalibrationResult (w : Window) (result : Value) : Window :=
  {| calibrationResults := calibrationResults w ++ [result];
     printerURL := printerURL w;
     output_json := output_json w;
     errors := errors w |}.

End Results.

(** ** The stages of [calibrateTool], as predicates on the thread object *)

Module Stage.
Import Py Calib.

Definition self_of (c : Config) : Self :=
  match c with
  | Running _ s | Returned _ s | Failed _ s | Hung s => s
  end.

(** Camera calibration: state 0, or state [k] from 1 to 10 with [k] samples
    taken. *)
Definition sampling (s : Self) : Prop :=
  state s = 0%nat \/
  ((1 <= state s <= 10)%nat /\
   List.length (space_coordinates s) = state s /\
   List.length (camera_coordinates s) = state s).

(** Alignment: state 200 and a transform that [calibrateTool] takes as
    defined. *)
Definition aligning (s : Self) : Prop :=
  state s = 200%nat /\ (1 < List.length (transform_matrix s))%nat.

Definition is_running (c : Config) : bool :=
  match c with Running _ _ => true | _ => false end.

Definition is_returned (c : Config) : bool :=
  match c with Returned _ _ => true | _ => false end.

End Stage.

(** ** Inputs used by the examples below *)

Module Inputs.
Import Py.

(** A transform of six rows: 10 machine units per normalized unit on each
    axis, camera centre at (100, 50). *)
Definition T0 : list (Q * Q) :=
  [ (0, 0); (0, 0); (0, 0); (10, 0); (0, 10); (100, 50) ].

(** A least-squares routine that answers [T0] whatever it is given. *)
Definition fit0 (A : list (list Q)) (b : list (Q * Q))
  : list (Q * Q) * list Q := (T0, [0; 0]).

(** A square root that is exact where the examples need it. *)
Definition sqrt0 (q : Q) : Q := inject_Z (Z.sqrt (Qfloor q)).

Definition at_machine : Coords := {| cX := 100; cY := 50; cZ := 10 |}.
Definition control_point : Coords := {| cX := 100; cY := 50; cZ := 10 |}.
Definition no_offset : Coords := {| cX := 0; cY := 0; cZ := 0 |}.

(** A detection at pixel [(x, y)]. *)
Definition seen (x y : Z) : Outcome (option Calib.Reading) :=
  Return (Some {| Calib.r_xy := (x, y); Calib.r_coords := Some at_machine |}).

(** A thread object that already holds the transform [T0]. *)
Definition calibrated : Calib.Self :=
  Calib.set_mpp (Some (Calib.Finite (1 # 100)))
    (Calib.set_transform_matrix T0 Calib.fresh).

(** A frame with two circles, 10 ms after the call began. *)
Definition two_circles_early : Frame.FrameEvent :=
  {| Frame.fe_on := true; Frame.fe_ret := true;
     Frame.fe_coords := Some at_machine;
     Frame.fe_width := 640; Frame.fe_height := 480;
     Frame.fe_keypoints :=
       [ {| Frame.pt := (100, 100); Frame.size := 20 |};
         {| Frame.pt := (300, 200); Frame.size := 24 |} ];
     Frame.fe_now := 10 |}.

(** A frame with one circle at the centre. *)
Definition one_circle : Frame.FrameEvent :=
  {| Frame.fe_on := true; Frame.fe_ret := true;
     Frame.fe_coords := Some at_machine;
     Frame.fe_width := 640; Frame.fe_height := 480;
     Frame.fe_keypoints := [ {| Frame.pt := (320, 240); Frame.size := 20 |} ];
     Frame.fe_now := 40 |}.

(** A frame with no circle, 30 ms after the call began. *)
Definition no_circle_late : Frame.FrameEvent :=
  {| Frame.fe_on := true; Frame.fe_ret := true;
     Frame.fe_coords := Some at_machine;
     Frame.fe_width := 640; Frame.fe_height := 480;
     Frame.fe_keypoints := [];
     Frame.fe_now := 30 |}.

(** The loop test finds the detection flag off. *)
Definition flag_off : Frame.FrameEvent :=
  {| Frame.fe_on := false; Frame.fe_ret := true;
     Frame.fe_coords := Some at_machine;
     Frame.fe_width := 640; Frame.fe_height := 480;
     Frame.fe_keypoints := [];
     Frame.fe_now := 50 |}.

(** Detections for a whole first calibration and alignment, all at the
    centre of the frame. *)
Definition at_centre (n : nat) : list (Outcome (option Calib.Reading)) :=
  repeat (seen 320 240) n.

(** Five detections at pixel (100, 100), then one at the centre. *)
Definition five_off_then_centre : list (Outcome (option Calib.Reading)) :=
  repeat (seen 100 100) 5 ++ [seen 320 240].

(** Six detections at pixel (100, 100), then two at the centre. *)
Definition six_off_then_centre : list (Outcome (option Calib.Reading)) :=
  repeat (seen 100 100) 6 ++ repeat (seen 320 240) 2.

(** The printer's stored offsets: none. *)
Definition firmware0 (rep : nat) (n : Z) : Coords := no_offset.

(** The alignment stage with the transform [T0]. *)
Definition aligning_T0 (s : Calib.Self) : Prop :=
  Calib.state s = 200%nat /\ Calib.transform_matrix s = T0.

End Inputs.

(** ** Counting the messages of [analyzeFrame] *)

Module FrameAux.
Import Frame.

Definition is_msg (m : string) (s : Signal) : bool :=
  match s with
  | Message x => String.eqb x m
  | _ => false
  end.

(** How many times message [m] was sent. *)
Definition count_msg (m : string) (sg : list Signal) : nat :=
  List.length (filter (is_msg m) sg).

End FrameAux.

(** ** [analyzeEndstop] *)

Module Endstop.
Import Py Num.

(** A contour of the second [cv2.findContours] call, with what the code reads
    of it: the index of its parent in the hierarchy (-1: none), its area
    ([cv2.contourArea]), its number of points ([len]) and its moments. *)
Record Contour := {
  parent : Z;
  area : Q;
  npoints : nat;
  m00 : Q;
  m10 : Q;
  m01 : Q
}.

(** What one pass of the [while True] loop reads from outside. *)
Record EndstopEvent := {
  ee_ret : bool;                 (* [self.ret] of [cap.read()] *)
  ee_contours : list Contour;    (* [cnt2] with [hierarchy2] *)
  ee_coords : option Coords      (* [getCoordinates()], [None] when it raised *)
}.

(** What the function shows: a frame, or a text in the status bar. *)
Inductive Note :=
| Shown
| StatusBar (s : string).

Inductive Result :=
| Found (centre : Z * Z) (c : Coords)   (* [return (center, coords)] *)
| NoCoordinates                         (* [return None] *)
| ZeroDivisionError                     (* [M["m00"]] is zero *)
| Polling.                              (* the input is used up *)

Definition msg_lost : string := "Cannot find endstop! Cancel.".

(** [hierarchy2[0][k][3] > -1] *)
Definition has_parent (c : Contour) : bool := (-1 <? parent c)%Z.

(** [max(myContours, key=cv2.contourArea)]: the first contour of largest
    area. *)
Fixpoint max_area_from (best : Contour) (cs : list Contour) : Contour :=
  match cs with
  | [] => best
  | c :: rest =>
      max_area_from (if Qle_bool (area c) (area best) then best else c) rest
  end.

(** [int(x)] on a float: truncation toward zero. *)
Definition trunc (q : Q) : Z := Z.quot (Qnum q) (Z.pos (Qden q)).

(** [analyzeEndstop], on the passes the input provides. *)
Fixpoint analyzeEndstop (evs : list EndstopEvent) : Result * list Note :=
  match evs with
  | [] => (Polling, [])
  | e :: rest =>
      if negb (ee_ret e) then analyzeEndstop rest
      else
        match ee_contours e with
        | [] =>
            let '(o, n) := analyzeEndstop rest in
            (o, StatusBar msg_lost :: Shown :: n)
        | _ :: _ =>
            match filter has_parent (ee_contours e) with
            | [] => analyzeEndstop rest
            | c0 :: cs =>
                let blob := max_area_from c0 cs in
                if (0 <? npoints blob)%nat then
                  if Qeq_bool (m00 blob) 0 then (ZeroDivisionError, [])
                  else
                    let center := (trunc (m10 blob / m00 blob),
                                   trunc (m01 blob / m00 blob)) in
                    match ee_coords e with
                    | Some c => (Found center c, [Shown])
                    | None => (NoCoordinates, [Shown])
                    end
                else analyzeEndstop rest
            end
        end
  end.

(** The value [calibrateTool] unpacks, when the call returned one. *)
Definition returned (res : Result) : option (option Calib.Reading) :=
  match res with
  | Found centre c => Some (Some (Calib.reading_of_endstop (centre, c)))
  | NoCoordinates => Some None
  | ZeroDivisionError | Polling => None
  end.

End Endstop.

(** ** Reading a trace *)

Module Trace.
Import Py Calib.

(** The tools loaded, in order. *)
Definition loads (tr : list Event) : list Z :=
  flat_map (fun e => match e with LoadTool n => [n] | _ => [] end) tr.

(** The results sent by [result_update], in order: tool, cycle, X, Y. *)
Definition results (tr : list Event) : list (Z * nat * Q * Q) :=
  flat_map (fun e => match e with
                     | ResultUpdate n rep _ x y => [(n, rep, x, y)]
                     | _ => []
                     end) tr.

(** The offsets written to the printer, in order: tool, X, Y. *)
Definition applied (tr : list Event) : list (Z * Q * Q) :=
  flat_map (fun e => match e with
                     | SetToolOffsets n x y => [(n, x, y)]
                     | _ => []
                     end) tr.

(** The status texts that are a substring of ['idle']. *)
Definition idle_words : list string :=
  [ EmptyString; "i"; "d"; "l"; "e"; "id"; "dl"; "le"; "idl"; "dle";
    "idle" ]%string.

(** The cycle and the tool of a result. *)
Definition key_of (r : Z * nat * Q * Q) : nat * Z :=
  match r with (n, rep, _, _) => (rep, n) end.

(** The tool and the values of a result. *)
Definition written_of (r : Z * nat * Q * Q) : Z * Q * Q :=
  match r with (n, _, x, y) => (n, x, y) end.

Definition is_unload (e : Event) : bool :=
  match e with UnloadTools => true | _ => false end.

(** The events [calibrateTool] can produce. *)
Definition of_calibrate (e : Event) : bool :=
  match e with
  | Analyze | MoveAbsolute _ _ _ _ | MoveRelative _ _ _ | LimitAxes
  | GetToolOffset _ | Fit _ | ResultUpdate _ _ _ _ _ => true
  | LoadTool _ | UnloadTools | GetStatus _ | SetToolOffsets _ _ _ => false
  end.

Definition is_analyze (e : Event) : bool :=
  match e with Analyze => true | _ => false end.

(** The sum of the relative moves issued before the first fit; [None] when
    the trace holds no fit. *)
Fixpoint net_before_fit (tr : list Event) : option (Q * Q) :=
  match tr with
  | [] => None
  | Fit _ :: _ => Some (0, 0)
  | MoveRelative _ x y :: rest =>
      match net_before_fit rest with
      | Some d => Some (x + fst d, y + snd d)
      | None => None
      end
  | _ :: rest => net_before_fit rest
  end.

(** The sum of the relative moves of a trace. *)
Fixpoint net (tr : list Event) : Q * Q :=
  match tr with
  | [] => (0, 0)
  | MoveRelative _ x y :: rest => (x + fst (net rest), y + snd (net rest))
  | _ :: rest => net rest
  end.

End Trace.


(** ** What a finished run hands back *)

Module Handback.
Import Py Num Calib Trace.

(** The value returned by a run that ended in state [s'], and the results its
    trace [tr] holds: for a tool, the offset computed from the control point
    [cp], the firmware offset [off] and the machine position of the last
    detection; for the endstop, nothing. *)
Definition result_of (ctool : Tool) (rep : nat) (off cp : Coords)
  (s' : Self) (v : option CalResult) (tr : list Event) : Prop :=
  match ctool with
  | ToolNumber n =>
      exists tc m,
        tool_coordinates s' = Some tc /\
        v = Some {| res_X := around3 ((cX cp + cX off) - cX tc);
                    res_Y := around3 ((cY cp + cY off) - cY tc);
                    res_MPP := m;
                    res_transform := transform_matrix s' |} /\
        results tr = [(n, rep, around3 ((cX cp + cX off) - cX tc),
                       around3 ((cY cp + cY off) - cY tc))]
  | Endstop => v = None /\ results tr = []
  end.

End Handback.

(** ** The calibration pattern *)

Module Pattern.
Import Py Calib.

(** The [k]-th move of the pattern. *)
Definition pattern_at (k : nat) : Q * Q :=
  nth k calibrationCoordinates (0, 0).

(** Where the carriage stands, relative to where the call began, in state
    [k] of the camera calibration: on the pattern point reached last. *)
Definition displacement (s : Self) : Q * Q :=
  match state s with
  | O => (0, 0)
  | S k => pattern_at k
  end.

(** Camera calibration, with [offsetX] and [offsetY] holding the pattern
    move made last. *)
Definition displaced (s : Self) : Prop :=
  state s = 0%nat \/
  ((1 <= state s <= 10)%nat /\
   (offsetX s, offsetY s) = pattern_at (state s - 1)).

End Pattern.

(** ** [parseData] *)

Module Stats.
Import Num.

(** A line of the raw data, as [parseData] reads it: [int(line['tool'])],
    [int(line['cycle'])], [float(line['X'])], [float(line['Y'])]. *)
Record Line := { tool : Z; cycle : Z; lineX : Q; lineY : Q }.

(** [np.max] of a list of integers; [None]: [ValueError], the list is
    empty. *)
Definition np_max (l : list Z) : option Z :=
  match l with
  | [] => None
  | x :: rest => Some (fold_left Z.max rest x)
  end.

(** [np.mean] of a list that is not empty. *)
Definition np_mean (l : list Q) : Q :=
  fold_right Qplus 0 l / inject_Z (Z.of_nat (List.length l)).

(** [[float(line[...]) for line in rawData if int(line['tool']) == i]] *)
Definition column (f : Line -> Q) (i : Z) (rawData : list Line) : list Q :=
  map f (filter (fun l => Z.eqb (tool l) i) rawData).

(** [range(n)] *)
Definition range (n : Z) : list Z := map Z.of_nat (seq 0 (Z.to_nat n)).

(** The body of the loop for tool [i].  The median, the range and the
    standard deviation are computed and not used; they matter by the
    [ValueError] that [np.max(x)] raises when tool [i] has no line ([None]
    here).  Otherwise each column is shifted by its mean rounded to 3
    decimals. *)
Definition per_tool (rawData : list Line) (i : Z)
  : option (list Q * list Q) :=
  let x := column lineX i rawData in
  let y := column lineY i rawData in
  match x with
  | [] => None
  | _ :: _ =>
      let x_mean := around3 (np_mean x) in
      let y_mean := around3 (np_mean y) in
      Some (map (fun v => v - x_mean) x, map (fun v => v - y_mean) y)
  end.

(** The loop over the tools, stopped by the first error. *)
Fixpoint all_tools (rawData : list Line) (tools : list Z)
  : option (list (list Q * list Q)) :=
  match tools with
  | [] => Some []
  | i :: rest =>
      match per_tool rawData i with
      | None => None
      | Some p =>
          match all_tools rawData rest with
          | None => None
          | Some d => Some (p :: d)
          end
      end
  end.

(** [parseData]; [None]: [ValueError]. *)
Definition parseData (rawData : list Line)
  : option (Z * Z * list (list Q * list Q)) :=
  match np_max (map tool rawData), np_max (map cycle rawData) with
  | Some max_tool, Some _cycles =>
      let _numTools := (max_tool + 1)%Z in
      match all_tools rawData (range _numTools) with
      | Some toolDataResult => Some (_numTools, _cycles, toolDataResult)
      | None => None
      end
  | _, _ => None
  end.

(** The number of lines of tool [i]. *)
Definition lines_of (i : Z) (rawData : list Line) : nat :=
  List.length (filter (fun l => Z.eqb (tool l) i) rawData).

(** What [parseData] returns for one tool: as many values on each axis as
    the tool has lines, at least one, and a mean within 0.0005 of zero. *)
Definition centred (rawData : list Line) (i : Z) (p : list Q * list Q)
  : Prop :=
  (1 <= lines_of i rawData)%nat /\
  List.length (fst p) = lines_of i rawData /\
  List.length (snd p) = lines_of i rawData /\
  - (1 # 2000) <= np_mean (fst p) <= 1 # 2000 /\
  - (1 # 2000) <= np_mean (snd p) <= 1 # 2000.

End Stats.

(** ** [sanitizeURL] *)

Module Url.

(** [str.lower] on the letters A to Z (the scheme of a URL holds ASCII
    only). *)
Definition lower_ascii (c : ascii) : ascii :=
  let n := nat_of_ascii c in
  if (65 <=? n)%nat && (n <=? 90)%nat then ascii_of_nat (n + 32) else c.

Fixpoint lower (s : string) : string :=
  match s with
  | EmptyString => EmptyString
  | String c rest => String (lower_ascii c) (lower rest)
  end.

(** [s in [...]] *)
Definition in_list (s : string) (l : list string) : bool :=
  existsb (String.eqb s) l.

Definition msg_scheme : string :=
  "Invalid scheme. Please only use http connections.".
Definition msg_address : string := "Invalid IP/network address.".
Definition msg_https : string :=
  "Cannot use https connections for Duet controllers".

(** [sanitizeURL], on the scheme and the network location [urlparse] found
    in the input: error code, message, URL. *)
Definition sanitizeURL (scheme netlocation : string)
  : nat * string * string :=
  if (String.length scheme <? 4)%nat
     || negb (in_list (lower scheme) ["http"%string])
  then (1%nat, msg_scheme, "http://localhost"%string)
  else if (String.length netlocation <? 1)%nat
  then (2%nat, msg_address, "http://localhost"%string)
  else if in_list (lower scheme) ["https"%string]
  then (3%nat, msg_https, "http://localhost"%string)
  else (0%nat, EmptyString, (scheme ++ "://" ++ netlocation)%string).

End Url.

(** ** Further inputs for the examples *)

Module MoreInputs.
Import Py.

(** A frame with an outer contour and one hole of area 20 whose centroid is
    (100, 50). *)
Definition hole_frame : Endstop.EndstopEvent :=
  {| Endstop.ee_ret := true;
     Endstop.ee_contours :=
       [ {| Endstop.parent := -1; Endstop.area := 50; Endstop.npoints := 12;
            Endstop.m00 := 50; Endstop.m10 := 5000; Endstop.m01 := 2500 |};
         {| Endstop.parent := 0; Endstop.area := 20; Endstop.npoints := 8;
            Endstop.m00 := 20; Endstop.m10 := 2000; Endstop.m01 := 1000 |} ];
     Endstop.ee_coords := Some Inputs.at_machine |}.

(** Results of two cycles for tools 0 and 1. *)
Definition two_tools : list Stats.Line :=
  [ {| Stats.tool := 0; Stats.cycle := 0;
       Stats.lineX := 100 # 1000; Stats.lineY := 200 # 1000 |};
    {| Stats.tool := 1; Stats.cycle := 0;
       Stats.lineX := 300 # 1000; Stats.lineY := - (100 # 1000) |};
    {| Stats.tool := 0; Stats.cycle := 1;
       Stats.lineX := 103 # 1000; Stats.lineY := 198 # 1000 |};
    {| Stats.tool := 1; Stats.cycle := 1;
       Stats.lineX := 298 # 1000; Stats.lineY := - (100 # 1000) |} ].

(** Results for tools 0 and 2 only. *)
Definition tools_0_and_2 : list Stats.Line :=
  [ {| Stats.tool := 0; Stats.cycle := 0;
       Stats.lineX := 100 # 1000; Stats.lineY := 200 # 1000 |};
    {| Stats.tool := 2; Stats.cycle := 0;
       Stats.lineX := 300 # 1000; Stats.lineY := - (100 # 1000) |} ].

(** A thread object in the alignment stage with [T0], the nozzle last seen
    at pixel (100, 100). *)
Definition off_centre : Calib.Self :=
  Calib.set_state 200 (Calib.set_xy (100, 100)%Z Inputs.calibrated).

End MoreInputs.

(** * Properties *)

(** ** Rounding *)

Module NumFacts.
Import Num.




End NumFacts.

(** ** Rounding, error bounds *)

Module RoundFacts.
Import Num.

Lemma rint_near (q : Q) :
  - (1 # 2) <= inject_Z (rint q) - q <= 1 # 2.
Proof.
  unfold rint. cbv zeta.
  pose proof (Qfloor_le q) as Lo.
  pose proof (Qlt_floor q) as Hi.
  rewrite inject_Z_plus in Hi. change (inject_Z 1) with 1 in Hi.
  destruct (Qcompare_spec (q - inject_Z (Qfloor q)) (1 # 2)) as [E|L|G].
  - destruct (Z.even (Qfloor q)).
    + split; lra.
    + rewrite inject_Z_plus. change (inject_Z 1) with 1. split; lra.
  - split; lra.
  - rewrite inject_Z_plus. change (inject_Z 1) with 1. split; lra.
Qed.

(** [np.around(q, 3)] is within half a thousandth of [q]. *)
Lemma around3_near (q : Q) :
  - (1 # 2000) <= around3 q - q <= 1 # 2000.
Proof.
  unfold around3. pose proof (rint_near (q * 1000)) as B.
  set (z := inject_Z (rint (q * 1000))) in *.
  unfold Qdiv. change (/ 1000) with (1 # 1000). split; lra.
Qed.



(** Away from a tie the rounding is unique. *)
Lemma to3_unique (q r r' : Q) :
  Rounded.to3 q r -> Rounded.to3 q r' ->
  r == r' \/ (r - q == 1 # 2000 /\ r' - q == - (1 # 2000))
  \/ (r - q == - (1 # 2000) /\ r' - q == 1 # 2000).
Proof.
  intros ((k & K) & B) ((k' & K') & B').
  assert (D : - (1) <= inject_Z (k - k') <= 1).
  { unfold Zminus. rewrite inject_Z_plus, inject_Z_opp.
    unfold Qdiv in K, K'. change (/ 1000) with (1 # 1000) in K, K'.
    split; lra. }
  destruct D as [D1 D2].
  change (- (1)) with (inject_Z (-1)) in D1.
  change 1 with (inject_Z 1) in D2.
  rewrite <- Zle_Qle in D1, D2.
  assert (C : (k = k' \/ k = k' + 1 \/ k = k' - 1)%Z) by lia.
  unfold Qdiv in K, K'. change (/ 1000) with (1 # 1000) in K, K'.
  destruct C as [-> | [-> | ->]].
  - left. lra.
  - right; left. rewrite inject_Z_plus in K.
    change (inject_Z 1) with 1 in K. split; apply Qle_antisym; lra.
  - right; right. unfold Zminus in K.
    rewrite inject_Z_plus, inject_Z_opp in K.
    change (inject_Z 1) with 1 in K. split; apply Qle_antisym; lra.
Qed.

(** At a tie both neighbours are roundings: 0.0005 rounds to 0 and to
    0.001, 1.5125 to 1.512 and to 1.513. *)
Example to3_tie_low :
  Rounded.to3 (5 # 10000) 0 /\ Rounded.to3 (5 # 10000) (1 # 1000).
Proof.
  split; (split; [|split; vm_compute; discriminate]).
  - exists 0%Z. reflexivity.
  - exists 1%Z. reflexivity.
Qed.

Example to3_tie :
  Rounded.to3 (15125 # 10000) (1512 # 1000) /\
  Rounded.to3 (15125 # 10000) (1513 # 1000).
Proof.
  split; (split; [|split; vm_compute; discriminate]).
  - exists 1512%Z. reflexivity.
  - exists 1513%Z. reflexivity.
Qed.

End RoundFacts.

(** ** The detector presets *)

Module DetectorFacts.
Import Detector.

(** With the standard preset the rebuilt detector carries the preset in every
    parameter. *)
Lemma standard_rebuild_matches :
  params_match (createDetector_params detectParamsStandard)
    detectParamsStandard = true.
Proof. reflexivity. Qed.

(** Whatever the attributes, [createDetector] copies the thresholds, the area
    bounds and the minimum circularity. *)
Lemma createDetector_copies (s : DetState) :
  exists p, detector (createDetector s) = Some p /\
    minThreshold p = detect_th1 (attrs s) /\
    maxThreshold p = detect_th2 (attrs s) /\
    thresholdStep p = detect_thstep (attrs s) /\
    minArea p = detect_minArea (attrs s) /\
    maxArea p = detect_maxArea (attrs s) /\
    minCircularity p = detect_minCircularity (attrs s).
Proof.
  eexists; split; [reflexivity|]. cbn. repeat split.
Qed.

(** C9, at the failing input: after a switch to the relaxed preset and the
    rebuild that follows it, the detector's minimum convexity is the constant
    0.3 written in [createDetector], not the 0.1 of the relaxed preset; the
    detector does not carry the active preset. *)
Theorem relaxed_rebuild_keeps_convexity_03 :
  let s := rebuild_if_changed (toggleLoose init) in
  loose s = true /\
  attrs s = detectParamsLoose /\
  detect_minConvexity (active_preset s) = 1 # 10 /\
  exists p, detector s = Some p /\
    minConvexity p = 3 # 10 /\
    params_match p (active_preset s) = false.
Proof.
  cbn. repeat split. eexists. repeat split.
Qed.

End DetectorFacts.

(** ** The export *)

Module ResultsFacts.
Import Py Results.

(** C8, on every input: the export block raises [AttributeError] at
    [datetime.now()] before the marker is appended; the result list is left
    as it was and [output.json] is not written. *)
Theorem export_writes_nothing (w : Window) (now : Z) :
  calibrationResults (analyzeResults_export w now) = calibrationResults w /\
  output_json (analyzeResults_export w now) = output_json w /\
  errors (analyzeResults_export w now) = errors w ++ [AttributeError].
Proof.
  unfold analyzeResults_export. cbn. repeat split.
Qed.

(** The encoder on one record and a marker whose time stamp were a string. *)
Example dumps_record :
  dumps (VList [ result_record "0" "0" "0.01" "0.100" "-0.200" ]) =
  inr (String.concat EmptyString
         [ "[{"; quote; "tool"; quote; ": "; quote; "0"; quote; ", ";
           quote; "cycle"; quote; ": "; quote; "0"; quote; ", ";
           quote; "mpp"; quote; ": "; quote; "0.01"; quote; ", ";
           quote; "X"; quote; ": "; quote; "0.100"; quote; ", ";
           quote; "Y"; quote; ": "; quote; "-0.200"; quote; "}]" ])%string.
Proof. reflexivity. Qed.

End ResultsFacts.

(** ** [analyzeFrame] *)

Module FrameFacts.
Import Py Num Frame.

Ltac pass_cases l e :=
  unfold pass;
  destruct (fe_on e) eqn:?On; cbn [negb];
  [ destruct (fe_ret e) eqn:?Ret; cbn [negb];
    [ cbn [nocircle rd xy target toolCoordinates r];
      destruct (25 <? nocircle l)%nat eqn:?Cnt;
      [ | destruct (fe_keypoints e) as [|?k [|?k2 ?ks]] eqn:?Kp;
          [ destruct (25 <? fe_now e - rd l)%Z eqn:?Late
          |
          | destruct (25 <? fe_now e - rd l)%Z eqn:?Late ] ]
    | ]
  | ].

(** [r] is assigned on the one-circle path only. *)
Lemma pass_continue_keeps_r (l : Locals) (e : FrameEvent) (l' : Locals) :
  fst (pass l e) = Continue l' -> r l' = r l.
Proof.
  pass_cases l e; cbn; intros E; inversion E; subst; reflexivity.
Qed.

Lemma pass_exit_same (l : Locals) (e : FrameEvent) (l' : Locals) :
  fst (pass l e) = Exit l' -> l' = l /\ fe_on e = false.
Proof.
  pass_cases l e; cbn; intros E; inversion E; subst; auto.
Qed.

Lemma pass_break_single (l : Locals) (e : FrameEvent) (l' : Locals) :
  fst (pass l e) = Break l' ->
  fe_on e = true /\ fe_ret e = true /\ (nocircle l <= 25)%nat /\
  exists k, fe_keypoints e = [k] /\
    xy l' = (uint16_around (fst (pt k)), uint16_around (snd (pt k))) /\
    r l' = Some (inject_Z (rint (size k / 2))) /\
    toolCoordinates l' = Some (fe_coords e) /\
    target l' = Some (rint (inject_Z (fe_width e) / 2),
                      rint (inject_Z (fe_height e) / 2)).
Proof.
  pass_cases l e; cbn; intros E; inversion E; subst; cbn.
  apply Nat.ltb_ge in Cnt.
  repeat split; auto. eexists; repeat split.
Qed.

Lemma after_loop_some (l : Locals) (final_on : bool) (d : Detection) :
  after_loop l final_on = Return (Some d) ->
  final_on = true /\ d_xy d = xy l /\ r l = Some (d_radius d) /\
  toolCoordinates l = Some (d_coords d) /\ target l = Some (d_target d).
Proof.
  unfold after_loop. destruct final_on; [|discriminate].
  destruct (target l), (toolCoordinates l), (r l); cbn; try discriminate.
  intros E; inversion E; subst; cbn; auto.
Qed.

Lemma loop_cons (l : Locals) (e : FrameEvent) (rest : list FrameEvent)
  (final_on : bool) :
  loop l (e :: rest) final_on =
  match fst (pass l e) with
  | Continue l' => (fst (loop l' rest final_on),
                    snd (pass l e) ++ snd (loop l' rest final_on))
  | Exit l' | Break l' => (after_loop l' final_on, snd (pass l e))
  end.
Proof.
  cbn [loop]. destruct (pass l e) as [[l'|l'|l'] sg]; cbn [fst snd]; auto.
  destruct (loop l' rest final_on); reflexivity.
Qed.

(** A result comes from the pass that left the loop, and that pass saw one
    circle. *)
Lemma loop_found (evs : list FrameEvent) :
  forall (l : Locals) (final_on : bool) (d : Detection),
    r l = None ->
    fst (loop l evs final_on) = Return (Some d) ->
    exists l0 e k,
      last_pass l evs = Some (l0, e) /\
      fe_on e = true /\ fe_ret e = true /\ fe_keypoints e = [k] /\
      final_on = true /\
      d_xy d = (uint16_around (fst (pt k)), uint16_around (snd (pt k))) /\
      d_coords d = fe_coords e.
Proof.
  induction evs as [|e rest IH]; intros l final_on d Hr H.
  - cbn in H. discriminate.
  - rewrite loop_cons in H. cbn [last_pass].
    destruct (fst (pass l e)) as [l'|l'|l'] eqn:P; cbn [fst] in H.
    + apply pass_exit_same in P. destruct P as [-> _].
      apply after_loop_some in H. destruct H as (_ & _ & Hr' & _).
      congruence.
    + apply (IH l' final_on d); [|exact H].
      rewrite (pass_continue_keeps_r l e l' P). exact Hr.
    + apply pass_break_single in P.
      destruct P as (On & Ret & _ & k & Kp & Hxy & _ & Hc & _).
      apply after_loop_some in H. destruct H as (F & Dxy & _ & Dc & _).
      exists l, e, k. repeat split; auto; congruence.
Qed.

(** With the flag off at the test after the loop, a call that leaves its
    loop returns [None]. *)
Lemma loop_flag_off (evs : list FrameEvent) :
  forall (l l0 : Locals) (e0 : FrameEvent),
    last_pass l evs = Some (l0, e0) ->
    fst (loop l evs false) = Return None.
Proof.
  induction evs as [|e rest IH]; intros l l0 e0 H; [discriminate|].
  rewrite loop_cons. cbn [last_pass] in H.
  destruct (fst (pass l e)) as [l'|l'|l'] eqn:P; cbn [fst]; try reflexivity.
  apply (IH l' l0 e0 H).
Qed.

(** What a pass does with a frame that does not show exactly one circle. *)
Lemma pass_other (l : Locals) (e : FrameEvent) :
  fe_on e = true -> fe_ret e = true ->
  List.length (fe_keypoints e) <> 1%nat ->
  exists l',
    fst (pass l e) = Continue l' /\
    ( ((25 < nocircle l)%nat /\
       snd (pass l e) = [Pixmap; Message msg_error])
      \/ ((nocircle l <= 25)%nat /\ (25 < fe_now e - rd l)%Z /\
          fe_keypoints e = [] /\
          snd (pass l e) = [Pixmap; Message msg_none; Crosshair false; Pixmap])
      \/ ((nocircle l <= 25)%nat /\ (25 < fe_now e - rd l)%Z /\
          (2 <= List.length (fe_keypoints e))%nat /\
          snd (pass l e) = [Pixmap; Message msg_many; Crosshair false; Pixmap])
      \/ ((nocircle l <= 25)%nat /\ (fe_now e - rd l <= 25)%Z /\
          snd (pass l e) = [Pixmap]) ).
Proof.
  intros Hon Hret Hn. unfold pass. rewrite Hon, Hret. cbn [negb].
  cbn [nocircle rd xy target toolCoordinates r].
  destruct (25 <? nocircle l)%nat eqn:Cnt.
  - apply Nat.ltb_lt in Cnt. eexists; split; [reflexivity|]. left. auto.
  - apply Nat.ltb_ge in Cnt.
    destruct (fe_keypoints e) as [|k [|k2 ks]] eqn:Kp.
    + destruct (25 <? fe_now e - rd l)%Z eqn:Late.
      * apply Z.ltb_lt in Late. eexists; split; [reflexivity|].
        right; left. auto.
      * apply Z.ltb_ge in Late. eexists; split; [reflexivity|].
        right; right; right. auto.
    + cbn in Hn. congruence.
    + destruct (25 <? fe_now e - rd l)%Z eqn:Late.
      * apply Z.ltb_lt in Late. eexists; split; [reflexivity|].
        right; right; left. cbn. repeat split; auto; lia.
      * apply Z.ltb_ge in Late. eexists; split; [reflexivity|].
        right; right; right. auto.
Qed.

(** C6, as amended: a call returns a detection only from a pass whose frame
    shows exactly one circle; a frame with none or several never ends the
    call with a result, the polling goes on with the frames that follow, and
    the status sent for it is: the detection-error message when the
    no-circle counter has passed 25; otherwise, and only when more than
    25 ms have passed since the last find or the start of the call, the
    no-circle message for no circle and the clean-the-nozzle message for
    several. *)
Theorem analyzeFrame_single_circle_only :
  (forall (rd0 : Z) (evs : list FrameEvent) (final_on : bool)
          (d : Detection),
     fst (analyzeFrame rd0 evs final_on) = Return (Some d) ->
     exists l e k,
       last_pass (entry rd0) evs = Some (l, e) /\
       fe_on e = true /\ fe_ret e = true /\ fe_keypoints e = [k] /\
       d_xy d = (uint16_around (fst (pt k)), uint16_around (snd (pt k))) /\
       d_coords d = fe_coords e)
  /\
  (forall (l : Locals) (e : FrameEvent),
     fe_on e = true -> fe_ret e = true ->
     List.length (fe_keypoints e) <> 1%nat ->
     exists l',
       fst (pass l e) = Continue l' /\
       (forall rest final_on,
          loop l (e :: rest) final_on =
          (fst (loop l' rest final_on),
           snd (pass l e) ++ snd (loop l' rest final_on))) /\
       (In (Message msg_none) (snd (pass l e)) <->
        (nocircle l <= 25)%nat /\ fe_keypoints e = [] /\
        (25 < fe_now e - rd l)%Z) /\
       (In (Message msg_many) (snd (pass l e)) <->
        (nocircle l <= 25)%nat /\
        (2 <= List.length (fe_keypoints e))%nat /\
        (25 < fe_now e - rd l)%Z) /\
       (In (Message msg_error) (snd (pass l e)) <-> (25 < nocircle l)%nat)).
Proof.
  split.
  - intros rd0 evs final_on d H.
    destruct (loop_found evs (entry rd0) final_on d eq_refl H)
      as (l & e & k & L & On & Ret & Kp & _ & Dxy & Dc).
    exists l, e, k. repeat split; assumption.
  - intros l e Hon Hret Hn.
    destruct (pass_other l e Hon Hret Hn) as (l' & P & Hs).
    exists l'. split; [exact P|]. split.
    { intros rest final_on. rewrite loop_cons, P. reflexivity. }
    destruct Hs as [(C & S)|[(C & T & K & S)|[(C & T & K & S)|(C & T & S)]]];
      rewrite S; cbn [In]; unfold msg_none, msg_many, msg_error;
      repeat split; intros;
      repeat match goal with
             | H : _ \/ _ |- _ => destruct H
             | H : _ /\ _ |- _ => destruct H
             | H : False |- _ => destruct H
             | H : _ = _ :> Signal |- _ => discriminate H
             end;
      try lia; try (rewrite K in *; cbn in *; lia); auto; try congruence;
      try (exfalso;
           match goal with
           | H : fe_keypoints _ = [] |- _ => rewrite H in *; cbn in *; lia
           end).
Qed.

(** The theorem at a call that sees no circle, then one circle. *)
Lemma analyzeFrame_single_circle_only_witness :
  (exists l e k,
     last_pass (entry 0) [Inputs.no_circle_late; Inputs.one_circle]
       = Some (l, e) /\
     fe_keypoints e = [k]) /\
  (exists l', fst (pass (entry 0) Inputs.no_circle_late) = Continue l').
Proof.
  destruct analyzeFrame_single_circle_only as [Found Other].
  split.
  - destruct (Found 0%Z [Inputs.no_circle_late; Inputs.one_circle] true
                {| d_xy := (320, 240)%Z; d_target := (320, 240)%Z;
                   d_coords := Some Inputs.at_machine; d_radius := 10 |}
                eq_refl)
      as (l & e & k & L & _ & _ & Kp & _).
    exists l, e, k. auto.
  - destruct (Other (entry 0) Inputs.no_circle_late eq_refl eq_refl)
      as (l' & P & _).
    + cbn. discriminate.
    + exists l'. exact P.
Defined.

(** C6, the claim as written fails: a frame with two circles taken 10 ms
    after the call began gets no status at all. *)
Lemma two_circles_early_no_status :
  fe_on Inputs.two_circles_early = true /\
  fe_ret Inputs.two_circles_early = true /\
  List.length (fe_keypoints Inputs.two_circles_early) = 2%nat /\
  snd (pass (entry 0) Inputs.two_circles_early) = [Pixmap] /\
  ~ In (Message msg_many) (snd (pass (entry 0) Inputs.two_circles_early)).
Proof.
  repeat split. cbn. intros [H|[]]. discriminate H.
Qed.

End FrameFacts.

(** ** [calibrateTool] *)

Module CalibFacts.
Import Py Num Calib Stage Session.

Lemma fits_app (a b : list Event) : fits (a ++ b) = fits a ++ fits b.
Proof. unfold fits. apply flat_map_app. Qed.

Lemma transform_input_length (W H : Z) (space : list (Q * Q)) :
  forall (camera : list (Z * Z)) (i : nat),
    (i + List.length camera <= List.length space)%nat ->
    exists l, transform_input_from W H i space camera = inr l /\
              List.length l = List.length camera.
Proof.
  induction camera as [|c rest IH]; intros i Hi; cbn [transform_input_from].
  - exists []. auto.
  - cbn [List.length] in Hi.
    destruct (nth_error space i) as [m|] eqn:N.
    + destruct (IH (S i)) as (l & -> & L); [lia|].
      eexists; split; [reflexivity|]. cbn. congruence.
    + apply nth_error_None in N. lia.
Qed.

Section Camera.

Variables W H : Z.
Variable sq : Q -> Q.
Variable ls : list (list Q) -> list (Q * Q) -> list (Q * Q) * list Q.

(** The top of the loop touches neither the state, nor the samples, nor the
    transform, and calls nothing but the detection. *)
Lemma at_top_spec (s : Self) (o : Outcome (option Reading)) :
  snd (at_top s o) = [Analyze] /\
  is_returned (fst (at_top s o)) = false /\
  state (self_of (fst (at_top s o))) = state s /\
  space_coordinates (self_of (fst (at_top s o))) = space_coordinates s /\
  camera_coordinates (self_of (fst (at_top s o))) = camera_coordinates s /\
  transform_matrix (self_of (fst (at_top s o))) = transform_matrix s.
Proof.
  unfold at_top.
  destruct (unpack o) as [rd|e|];
    [destruct (position_iterations <=? _)%nat| |]; cbn; auto 10.
Qed.

Lemma calib_init_spec (s : Self) :
  fits (snd (calib_init s)) = [] /\
  is_returned (fst (calib_init s)) = false /\
  (is_running (fst (calib_init s)) = true ->
   sampling (self_of (fst (calib_init s)))).
Proof.
  unfold calib_init, machine_xy. cbn.
  destruct (tool_coordinates s); cbn; repeat split; try discriminate.
  intros _. right. cbn. repeat split; lia.
Qed.

Lemma calib_step_spec (s : Self) :
  (1 <= state s)%nat -> (state s < 10)%nat ->
  List.length (space_coordinates s) = state s ->
  List.length (camera_coordinates s) = state s ->
  fits (snd (calib_step sq s)) = [] /\
  is_returned (fst (calib_step sq s)) = false /\
  (is_running (fst (calib_step sq s)) = true ->
   sampling (self_of (fst (calib_step sq s)))).
Proof.
  intros H1 H2 Ls Lc. unfold calib_step, machine_xy.
  destruct (Nat.eqb (state s) 1); cbn;
    destruct (tool_coordinates s); cbn; repeat split; try discriminate;
    intros _; right; cbn; rewrite !length_app; cbn; repeat split; lia.
Qed.

Lemma calib_finalize_spec (s : Self) :
  state s = 10%nat ->
  List.length (space_coordinates s) = 10%nat ->
  List.length (camera_coordinates s) = 10%nat ->
  Forall (fun i => List.length i = 11%nat)
    (fits (snd (calib_finalize W H ls s))) /\
  (List.length (fits (snd (calib_finalize W H ls s))) <= 1)%nat /\
  is_returned (fst (calib_finalize W H ls s)) = false /\
  (is_running (fst (calib_finalize W H ls s)) = true ->
   aligning (self_of (fst (calib_finalize W H ls s))) /\
   List.length (fits (snd (calib_finalize W H ls s))) = 1%nat).
Proof.
  intros St Ls Lc. unfold calib_finalize, machine_xy. cbn.
  destruct (tool_coordinates s) as [tc|]; cbn;
    [|repeat split; try discriminate; auto].
  destruct (transform_input_length W H
              (space_coordinates s ++ [(cX tc, cY tc)])
              (camera_coordinates s ++ [xy s]) 0)
    as (l & E & L).
  { rewrite !length_app. cbn. lia. }
  rewrite E. rewrite length_app in L. cbn in L.
  unfold matT_vec.
  destruct (Nat.eqb _ _) eqn:Len; cbn.
  - apply Nat.eqb_eq in Len. cbn in Len.
    repeat split; auto; try (constructor; [lia|constructor]).
    cbn. lia.
  - repeat split; auto; try discriminate.
    constructor; [lia|constructor].
Qed.

Lemma finish_spec (ctool : Tool) (rep : nat) (off : Coords) (s : Self) :
  fits (snd (finish ctool rep off s)) = [] /\
  is_running (fst (finish ctool rep off s)) = false /\
  self_of (fst (finish ctool rep off s)) = s.
Proof.
  unfold finish. destruct ctool; cbn; auto.
  destruct (tool_coordinates s); cbn; auto.
  destruct (mpp s); cbn; auto.
Qed.

Lemma centering_spec (ctool : Tool) (rep : nat) (off : Coords) (s : Self) :
  fits (snd (centering W H ctool rep off s)) = [] /\
  transform_matrix (self_of (fst (centering W H ctool rep off s)))
    = transform_matrix s /\
  (is_running (fst (centering W H ctool rep off s)) = true ->
   state (self_of (fst (centering W H ctool rep off s))) = 200%nat).
Proof.
  unfold centering. cbv zeta.
  destruct (compute_offsets _ _ _ _) as [e|offsets];
    [cbn; repeat split; auto; discriminate|].
  set (offs := if is_endstop ctool then _ else offsets).
  destruct (is_zero (fst offs) && is_zero (snd offs)).
  - match goal with
    | |- context [finish ?t ?r ?o ?x] =>
        destruct (finish_spec t r o x) as (F & R & S);
        destruct (finish t r o x) as [c ev]
    end.
    cbn [fst snd] in *. rewrite fits_app, F, S, R.
    destruct (is_endstop ctool); cbn; repeat split; auto; discriminate.
  - destruct (is_endstop ctool); cbn; auto.
Qed.

Ltac quiet_tac :=
  cbn [fst snd app]; repeat (constructor; try reflexivity).

Lemma finish_quiet (ctool : Tool) (rep : nat) (off : Coords) (s : Self) :
  Forall quiet (snd (finish ctool rep off s)).
Proof.
  unfold finish. destruct ctool; [|quiet_tac].
  destruct (tool_coordinates s); [|quiet_tac].
  destruct (mpp s); quiet_tac.
Qed.

Lemma centering_quiet (ctool : Tool) (rep : nat) (off : Coords) (s : Self) :
  Forall quiet (snd (centering W H ctool rep off s)).
Proof.
  unfold centering. cbv zeta.
  destruct (compute_offsets _ _ _ _) as [e|offsets]; [quiet_tac|].
  set (offs := if is_endstop ctool then _ else offsets).
  destruct (is_zero (fst offs) && is_zero (snd offs)).
  - match goal with
    | |- context [finish ?t ?r ?o ?x] =>
        pose proof (finish_quiet t r o x) as F;
        destruct (finish t r o x) as [c ev]
    end.
    cbn [fst snd] in *. apply Forall_app. split; [|exact F].
    destruct (is_endstop ctool); quiet_tac.
  - destruct (is_endstop ctool); quiet_tac.
Qed.

Lemma on_state_quiet (ctool : Tool) (rep : nat) (off : Coords) (s : Self) :
  Forall quiet (snd (on_state W H sq ls ctool rep off s)).
Proof.
  unfold on_state.
  destruct (Nat.eqb (state s) 0).
  { unfold calib_init. cbv zeta. destruct (machine_xy _); quiet_tac. }
  destruct (_ && _).
  { unfold calib_step. cbv zeta. destruct (machine_xy _); quiet_tac. }
  destruct (Nat.eqb (state s) _).
  { unfold calib_finalize. cbv zeta. destruct (machine_xy _); [quiet_tac|].
    destruct (transform_input_from _ _ _ _ _); [quiet_tac|].
    destruct (matT_vec _ _); quiet_tac. }
  destruct (Nat.eqb (state s) 200); [apply centering_quiet|quiet_tac].
Qed.

(** [calibrateTool] never asks the printer for its status. *)
Lemma step_quiet (ctool : Tool) (rep : nat) (off : Coords) (ph : Phase)
  (s : Self) (o : Outcome (option Reading)) :
  Forall quiet (snd (step W H sq ls ctool rep off ph s o)).
Proof.
  destruct ph; cbn [step].
  - rewrite (proj1 (at_top_spec s o)). quiet_tac.
  - unfold at_validate. destruct (unpack o) as [rd|e|]; try quiet_tac.
    cbv zeta.
    match goal with
    | |- context [on_state _ _ _ _ ?t ?r ?f ?x] =>
        pose proof (on_state_quiet t r f x) as Q;
        destruct (on_state W H sq ls t r f x) as [c ev]
    end.
    cbn [fst snd] in *. constructor; [reflexivity|exact Q].
Qed.

Lemma on_state_aligning (ctool : Tool) (rep : nat) (off : Coords)
  (s : Self) :
  state s = 200%nat ->
  on_state W H sq ls ctool rep off s = centering W H ctool rep off s.
Proof.
  intros St. unfold on_state. rewrite St. reflexivity.
Qed.

Lemma on_state_sampling (ctool : Tool) (rep : nat) (off : Coords)
  (s : Self) :
  sampling s ->
  Forall eleven (fits (snd (on_state W H sq ls ctool rep off s))) /\
  (List.length (fits (snd (on_state W H sq ls ctool rep off s))) <= 1)%nat /\
  is_returned (fst (on_state W H sq ls ctool rep off s)) = false /\
  (is_running (fst (on_state W H sq ls ctool rep off s)) = true ->
   (sampling (self_of (fst (on_state W H sq ls ctool rep off s))) /\
    fits (snd (on_state W H sq ls ctool rep off s)) = [])
   \/
   (aligning (self_of (fst (on_state W H sq ls ctool rep off s))) /\
    List.length (fits (snd (on_state W H sq ls ctool rep off s))) = 1%nat)).
Proof.
  intros [S0|(R & Ls & Lc)].
  - assert (E : on_state W H sq ls ctool rep off s = calib_init s)
      by (unfold on_state; rewrite S0; reflexivity).
    rewrite E. destruct (calib_init_spec s) as (F & Rt & Run).
    rewrite F. repeat split; auto; cbn; lia.
  - destruct (Nat.eq_dec (state s) 10) as [T|T].
    + assert (E : on_state W H sq ls ctool rep off s
                  = calib_finalize W H ls s)
        by (unfold on_state; rewrite T; reflexivity).
      rewrite E.
      destruct (calib_finalize_spec s T) as (F & L & Rt & Run);
        try congruence.
      repeat split; auto.
    + assert (E : on_state W H sq ls ctool rep off s = calib_step sq s).
      { unfold on_state.
        destruct (Nat.eqb_spec (state s) 0) as [Z0|_]; [lia|].
        assert (C : ((1 <=? state s)%nat
                     && (state s <? List.length calibrationCoordinates)%nat)
                    = true).
        { apply andb_true_iff. split.
          - apply Nat.leb_le. lia.
          - apply Nat.ltb_lt. cbn. lia. }
        rewrite C. reflexivity. }
      rewrite E.
      destruct (calib_step_spec s) as (F & Rt & Run); try lia; auto.
      rewrite F. repeat split; auto; cbn; lia.
Qed.

(** A pass of the loop during camera calibration: at most one fit, on 11
    samples, and with it the move to the alignment stage. *)
Lemma step_sampling (ctool : Tool) (rep : nat) (off : Coords) (ph : Phase)
  (s : Self) (o : Outcome (option Reading)) :
  sampling s ->
  Forall eleven (fits (snd (step W H sq ls ctool rep off ph s o))) /\
  (List.length (fits (snd (step W H sq ls ctool rep off ph s o))) <= 1)%nat /\
  is_returned (fst (step W H sq ls ctool rep off ph s o)) = false /\
  (is_running (fst (step W H sq ls ctool rep off ph s o)) = true ->
   (sampling (self_of (fst (step W H sq ls ctool rep off ph s o))) /\
    fits (snd (step W H sq ls ctool rep off ph s o)) = [])
   \/
   (aligning (self_of (fst (step W H sq ls ctool rep off ph s o))) /\
    List.length (fits (snd (step W H sq ls ctool rep off ph s o))) = 1%nat)).
Proof.
  intros Sm. destruct ph; cbn [step].
  - destruct (at_top_spec s o) as (E & Rt & St & Sp & Cm & _).
    rewrite E. cbn. repeat split; auto.
    intros _. left. split; [|reflexivity].
    unfold sampling in *. rewrite St, Sp, Cm. exact Sm.
  - unfold at_validate.
    destruct (unpack o) as [rd|e|];
      try (cbn; repeat split; auto; discriminate).
    cbv zeta.
    match goal with
    | |- context [on_state _ _ _ _ ?t ?r ?f ?x] =>
        assert (Sx : sampling x) by exact Sm;
        pose proof (on_state_sampling t r f x Sx) as Q;
        destruct (on_state W H sq ls t r f x) as [c ev]
    end.
    cbn [fst snd] in *. exact Q.
Qed.

(** A pass of the loop during alignment: no fit, the transform kept. *)
Lemma step_aligning (ctool : Tool) (rep : nat) (off : Coords) (ph : Phase)
  (s : Self) (o : Outcome (option Reading)) :
  aligning s ->
  fits (snd (step W H sq ls ctool rep off ph s o)) = [] /\
  transform_matrix (self_of (fst (step W H sq ls ctool rep off ph s o)))
    = transform_matrix s /\
  (is_running (fst (step W H sq ls ctool rep off ph s o)) = true ->
   aligning (self_of (fst (step W H sq ls ctool rep off ph s o)))).
Proof.
  intros [St Ln]. destruct ph; cbn [step].
  - destruct (at_top_spec s o) as (E & Rt & St' & _ & _ & Tm).
    rewrite E. split; [reflexivity|]. split; [exact Tm|].
    intros _. unfold aligning. rewrite St', Tm. auto.
  - unfold at_validate.
    destruct (unpack o) as [rd|e|];
      try (cbn; repeat split; auto; discriminate).
    cbv zeta.
    match goal with
    | |- context [on_state _ _ _ _ ?t ?r ?f ?x] =>
        rewrite (on_state_aligning t r f x St);
        destruct (centering_spec t r f x) as (F & Tm & Run);
        destruct (centering W H t r f x) as [c ev]
    end.
    cbn [fst snd] in *. split; [exact F|]. split; [exact Tm|].
    intros Rn. split; [auto|]. rewrite Tm. exact Ln.
Qed.

Lemma drive_stop (ctool : Tool) (rep : nat) (off : Coords) (c : Config)
  (inp : list (Outcome (option Reading))) :
  is_running c = false ->
  drive W H sq ls ctool rep off c inp = (c, [], inp).
Proof.
  destruct c; cbn; try discriminate; destruct inp; reflexivity.
Qed.

Lemma drive_cons (ctool : Tool) (rep : nat) (off : Coords) (ph : Phase)
  (s : Self) (o : Outcome (option Reading))
  (rest : list (Outcome (option Reading))) :
  drive W H sq ls ctool rep off (Running ph s) (o :: rest) =
  let r := drive W H sq ls ctool rep off
             (fst (step W H sq ls ctool rep off ph s o)) rest in
  (fst (fst r),
   snd (step W H sq ls ctool rep off ph s o) ++ snd (fst r),
   snd r).
Proof.
  cbn [drive].
  destruct (step W H sq ls ctool rep off ph s o) as [c ev]. cbn [fst snd].
  destruct (drive W H sq ls ctool rep off c rest) as [[c' evs] unread].
  reflexivity.
Qed.

(** From the alignment stage on, no fit is made and the transform stays. *)
Lemma drive_aligning (ctool : Tool) (rep : nat) (off : Coords)
  (inp : list (Outcome (option Reading))) :
  forall (ph : Phase) (s : Self),
    aligning s ->
    fits (snd (fst (drive W H sq ls ctool rep off (Running ph s) inp))) = []
    /\
    transform_matrix
      (self_of (fst (fst (drive W H sq ls ctool rep off (Running ph s) inp))))
    = transform_matrix s.
Proof.
  induction inp as [|o rest IH]; intros ph s Al; [cbn; auto|].
  rewrite drive_cons. cbv zeta. cbn [fst snd].
  destruct (step_aligning ctool rep off ph s o Al) as (F & Tm & Run).
  rewrite fits_app, F. cbn [app].
  destruct (fst (step W H sq ls ctool rep off ph s o)) as [ph' s'|v s'|e s'|s']
    eqn:C.
  - cbn in Tm, Run. destruct (IH ph' s' (Run eq_refl)) as (F' & Tm').
    rewrite F', Tm'. auto.
  - rewrite drive_stop by reflexivity. cbn in *. auto.
  - rewrite drive_stop by reflexivity. cbn in *. auto.
  - rewrite drive_stop by reflexivity. cbn in *. auto.
Qed.

(** From camera calibration on: at most one fit, on 11 samples; a run that
    returns has made exactly one and holds a transform of more than one
    row. *)
Lemma drive_sampling (ctool : Tool) (rep : nat) (off : Coords)
  (inp : list (Outcome (option Reading))) :
  forall (ph : Phase) (s : Self),
    sampling s ->
    let r := drive W H sq ls ctool rep off (Running ph s) inp in
    Forall eleven (fits (snd (fst r))) /\
    (List.length (fits (snd (fst r))) <= 1)%nat /\
    (is_returned (fst (fst r)) = true ->
     List.length (fits (snd (fst r))) = 1%nat /\
     (1 < List.length (transform_matrix (self_of (fst (fst r)))))%nat).
Proof.
  induction inp as [|o rest IH]; intros ph s Sm; cbv zeta.
  { cbn. repeat split; auto; try discriminate; try constructor. }
  rewrite drive_cons. cbv zeta. cbn [fst snd].
  destruct (step_sampling ctool rep off ph s o Sm) as (F & L & Rt & Run).
  rewrite fits_app, length_app.
  destruct (fst (step W H sq ls ctool rep off ph s o)) as [ph' s'|v s'|e s'|s']
    eqn:C.
  - destruct (Run eq_refl) as [(Sm' & F0)|(Al' & F1)]; cbn [self_of] in *.
    + specialize (IH ph' s' Sm'). cbv zeta in IH.
      destruct IH as (A & B & D). rewrite F0. cbn [app List.length].
      repeat split; auto; apply D; auto.
    + destruct (drive_aligning ctool rep off rest ph' s' Al') as (F' & Tm').
      rewrite F'. rewrite app_nil_r. cbn [List.length].
      rewrite Tm'. destruct Al' as (_ & Ln).
      repeat split; auto; lia.
  - cbn in Rt. discriminate.
  - rewrite drive_stop by reflexivity. cbn [fst snd fits flat_map].
    rewrite app_nil_r. cbn [List.length is_returned].
    repeat split; auto; try lia; discriminate.
  - rewrite drive_stop by reflexivity. cbn [fst snd fits flat_map].
    rewrite app_nil_r. cbn [List.length is_returned].
    repeat split; auto; try lia; discriminate.
Qed.

Lemma drive_quiet (ctool : Tool) (rep : nat) (off : Coords)
  (inp : list (Outcome (option Reading))) :
  forall (c : Config),
    Forall quiet (snd (fst (drive W H sq ls ctool rep off c inp))).
Proof.
  induction inp as [|o rest IH]; intros c.
  - destruct c; cbn; constructor.
  - destruct c as [ph s|v s|e s|s]; try (cbn; constructor).
    rewrite drive_cons. cbv zeta. cbn [fst snd].
    apply Forall_app. split; [apply step_quiet|apply IH].
Qed.

Lemma enter_stage (self : Self) (cp : Coords) :
  ((1 < List.length (transform_matrix self))%nat /\
   aligning (enter self cp) /\
   transform_matrix (enter self cp) = transform_matrix self)
  \/
  ((List.length (transform_matrix self) <= 1)%nat /\
   sampling (enter self cp)).
Proof.
  unfold enter, aligning, sampling.
  destruct (Nat.ltb_spec 1 (List.length (transform_matrix self))); cbn.
  - left. auto.
  - right. auto.
Qed.

(** The fits of a call: at most one, on 11 samples. *)
Lemma calibrateTool_fits (self : Self) (cp : Coords) (ctool : Tool)
  (rep : nat) (off : Coords) (inp : list (Outcome (option Reading))) :
  Forall eleven
    (fits (snd (fst (calibrateTool W H sq ls self cp ctool rep off inp))))
  /\
  (List.length
     (fits (snd (fst (calibrateTool W H sq ls self cp ctool rep off inp))))
   <= 1)%nat.
Proof.
  unfold calibrateTool.
  destruct (enter_stage self cp) as [(_ & Al & _)|(_ & Sm)].
  - destruct (drive_aligning ctool rep off inp AtTop _ Al) as (F & _).
    rewrite F. split; [constructor|cbn; lia].
  - destruct (drive_sampling ctool rep off inp AtTop _ Sm) as (F & L & _).
    split; [exact F|exact L].
Qed.

(** A call that starts with a transform held makes no fit and keeps it. *)
Lemma calibrateTool_held (self : Self) (cp : Coords) (ctool : Tool)
  (rep : nat) (off : Coords) (inp : list (Outcome (option Reading))) :
  (1 < List.length (transform_matrix self))%nat ->
  fits (snd (fst (calibrateTool W H sq ls self cp ctool rep off inp))) = []
  /\
  transform_matrix
    (self_of (fst (fst (calibrateTool W H sq ls self cp ctool rep off inp))))
  = transform_matrix self.
Proof.
  intros Ln. unfold calibrateTool.
  destruct (enter_stage self cp) as [(_ & Al & Tm)|(Ln' & _)]; [|lia].
  destruct (drive_aligning ctool rep off inp AtTop _ Al) as (F & T).
  rewrite F, T, Tm. auto.
Qed.

(** A call that starts with no transform and returns has made one fit and
    holds a transform. *)
Lemma calibrateTool_fresh (self : Self) (cp : Coords) (ctool : Tool)
  (rep : nat) (off : Coords) (inp : list (Outcome (option Reading))) :
  (List.length (transform_matrix self) <= 1)%nat ->
  is_returned (fst (fst (calibrateTool W H sq ls self cp ctool rep off inp)))
  = true ->
  List.length
    (fits (snd (fst (calibrateTool W H sq ls self cp ctool rep off inp))))
  = 1%nat /\
  (1 < List.length
         (transform_matrix
            (self_of (fst (fst (calibrateTool W H sq ls self cp ctool rep
                                  off inp))))))%nat.
Proof.
  intros Ln Rt. unfold calibrateTool in *.
  destruct (enter_stage self cp) as [(Ln' & _)|(_ & Sm)]; [lia|].
  destruct (drive_sampling ctool rep off inp AtTop _ Sm) as (_ & _ & D).
  apply D. exact Rt.
Qed.

(** C1, as amended: whenever [calibrateTool] reaches the fit, the list it
    passes to [least_square_mapping] has 11 pairs: the sample of state 0 and
    one for each of the states 1 to 10. *)
Theorem fit_takes_eleven_samples (self : Self) (cp : Coords) (ctool : Tool)
  (rep : nat) (off : Coords) (inp : list (Outcome (option Reading))) :
  Forall eleven
    (fits (snd (fst (calibrateTool W H sq ls self cp ctool rep off inp)))).
Proof. apply calibrateTool_fits. Qed.

(** C2, as amended: a call that starts with a transform held makes no fit
    and keeps that transform; a call that starts with none and returns has
    made exactly one fit and leaves a transform held for the calls that
    follow. *)
Theorem transform_fitted_once_then_reused (self : Self) (cp : Coords)
  (ctool : Tool) (rep : nat) (off : Coords)
  (inp : list (Outcome (option Reading))) :
  let r := calibrateTool W H sq ls self cp ctool rep off inp in
  ((1 < List.length (transform_matrix self))%nat ->
   fits (snd (fst r)) = [] /\
   transform_matrix (self_of (fst (fst r))) = transform_matrix self)
  /\
  ((List.length (transform_matrix self) <= 1)%nat ->
   is_returned (fst (fst r)) = true ->
   List.length (fits (snd (fst r))) = 1%nat /\
   (1 < List.length (transform_matrix (self_of (fst (fst r)))))%nat).
Proof.
  cbv zeta. split.
  - apply calibrateTool_held.
  - apply calibrateTool_fresh.
Qed.

(** Nothing in [calibrateTool] asks for the printer's status. *)
Lemma calibrateTool_quiet (self : Self) (cp : Coords) (ctool : Tool)
  (rep : nat) (off : Coords) (inp : list (Outcome (option Reading))) :
  Forall quiet
    (snd (fst (calibrateTool W H sq ls self cp ctool rep off inp))).
Proof. unfold calibrateTool. apply drive_quiet. Qed.

(** Whatever the stage, a [None] from the detection ends the run in a
    [TypeError]. *)
Lemma step_on_None (ctool : Tool) (rep : nat) (off : Coords) (ph : Phase)
  (s : Self) :
  step W H sq ls ctool rep off ph s (Return None)
  = (Failed TypeError s, [Analyze]).
Proof. destruct ph; reflexivity. Qed.

(** In the alignment stage the endstop branch issues no relative move. *)
Lemma centering_endstop_silent (rep : nat) (off : Coords) (s : Self) :
  Forall (fun e => is_relative_move e = false)
    (snd (centering W H Endstop rep off s)).
Proof.
  unfold centering. cbv zeta.
  destruct (compute_offsets _ _ _ _) as [e|offsets]; [constructor|].
  set (offs := if is_endstop Endstop then _ else offsets).
  destruct (is_zero (fst offs) && is_zero (snd offs)); cbn;
    repeat (constructor; try reflexivity).
Qed.

(** The end of a run makes no relative move. *)
Lemma finish_no_relative_move (ctool : Tool) (rep : nat) (off : Coords)
  (s : Self) :
  Forall (fun e => is_relative_move e = false)
    (snd (finish ctool rep off s)).
Proof.
  unfold finish. destruct ctool as [n|]; [|repeat constructor].
  destruct (tool_coordinates s); [|repeat constructor].
  destruct (mpp s); repeat constructor.
Qed.

(** The calls that end a run depend on the machine position, the scale, the
    control point and the transform held, and on nothing else of the thread
    object. *)
Lemma finish_events_of (ctool : Tool) (rep : nat) (off : Coords)
  (s s' : Self) :
  tool_coordinates s' = tool_coordinates s -> mpp s' = mpp s ->
  cp_coordinates s' = cp_coordinates s ->
  transform_matrix s' = transform_matrix s ->
  snd (finish ctool rep off s') = snd (finish ctool rep off s).
Proof.
  intros Tc M Cp Tm. unfold finish. rewrite Tc, M, Cp.
  destruct ctool as [n|]; [|reflexivity].
  destruct (tool_coordinates s); [|reflexivity].
  destruct (mpp s); reflexivity.
Qed.

(** X1: for a tool every pass of the alignment stage calls [limitAxes] and
    then makes one relative move, by the two offsets computed in the pass,
    and no other relative move.  Where one of the offsets is not zero the
    pass makes no other call and the run goes on; where both are zero the
    calls that end the run follow, and the run stops. *)
Lemma centering_tool_moves (n : Z) (rep : nat) (off : Coords) (s : Self)
  (dx dy : Q) :
  compute_offsets W H (transform_matrix s) (xy s) = inr (dx, dy) ->
  (exists ev,
     snd (centering W H (ToolNumber n) rep off s)
     = LimitAxes :: MoveRelative 1000 dx dy :: ev /\
     Forall (fun e => is_relative_move e = false) ev /\
     ev = if is_zero dx && is_zero dy
          then snd (finish (ToolNumber n) rep off s) else []) /\
  is_running (fst (centering W H (ToolNumber n) rep off s))
  = negb (is_zero dx && is_zero dy).
Proof.
  intros E. unfold centering. cbv zeta.
  change (transform_matrix (set_calibration_moves _ s))
    with (transform_matrix s).
  change (xy (set_calibration_moves (S (calibration_moves s)) s))
    with (xy s).
  rewrite E. cbn [is_endstop fst snd].
  destruct (is_zero dx && is_zero dy); cbn [negb].
  - match goal with
    | |- context [finish ?t ?r ?o ?x] =>
        destruct (finish_spec t r o x) as (_ & R & _);
        pose proof (finish_no_relative_move t r o x) as Q;
        pose proof (finish_events_of t r o s x eq_refl eq_refl eq_refl
                      eq_refl) as F;
        destruct (finish t r o x) as [c ev]
    end.
    cbn [fst snd app] in *. split; [|exact R].
    exists ev. split; [reflexivity|]. split; [exact Q|exact F].
  - cbn. split; [|reflexivity].
    exists []. split; [reflexivity|]. split; [constructor|reflexivity].
Qed.

Lemma is_zero_small (q : Q) : is_zero q = true -> abs_lt_005 q = true.
Proof.
  unfold is_zero, abs_lt_005. intros Z0. apply Qeq_bool_eq in Z0.
  assert (A : Qabs q == 0) by (rewrite Z0; reflexivity).
  rewrite (Qcompare_comp _ _ A (5 # 100) (5 # 100) (Qeq_refl _)).
  reflexivity.
Qed.

(** X2: for the endstop the run goes on unless both rounded offsets are within
    0.05 of zero. *)
Lemma centering_endstop_stops (rep : nat) (off : Coords) (s : Self)
  (dx dy : Q) :
  compute_offsets W H (transform_matrix s) (xy s) = inr (dx, dy) ->
  is_running (fst (centering W H Endstop rep off s))
  = negb (abs_lt_005 dx && abs_lt_005 dy).
Proof.
  intros E. unfold centering. cbv zeta.
  change (transform_matrix (set_calibration_moves _ s))
    with (transform_matrix s).
  change (xy (set_calibration_moves (S (calibration_moves s)) s))
    with (xy s).
  rewrite E. cbn [is_endstop fst snd].
  destruct (abs_lt_005 dx && abs_lt_005 dy) eqn:Sm; cbn [negb fst snd].
  - reflexivity.
  - destruct (is_zero dx && is_zero dy) eqn:Zr; [|reflexivity].
    apply andb_true_iff in Zr. destruct Zr as [Zx Zy].
    rewrite (is_zero_small dx Zx), (is_zero_small dy Zy) in Sm.
    discriminate.
Qed.


(** The events of a pass of the alignment stage do not depend on
    [average_location]. *)
Lemma centering_ignores_average (ctool : Tool) (rep : nat) (off : Coords)
  (a : Q * Q) (s : Self) :
  snd (centering W H ctool rep off (set_average_location a s))
  = snd (centering W H ctool rep off s).
Proof.
  unfold centering. cbv zeta.
  change (transform_matrix
            (set_calibration_moves _ (set_average_location a s)))
    with (transform_matrix s).
  change (xy (set_calibration_moves _ (set_average_location a s)))
    with (xy s).
  change (transform_matrix (set_calibration_moves _ s))
    with (transform_matrix s).
  change (xy (set_calibration_moves (S (calibration_moves s)) s))
    with (xy s).
  destruct (compute_offsets _ _ _ _) as [e|offsets]; [reflexivity|].
  set (offs := if is_endstop ctool then _ else offsets).
  destruct (is_zero (fst offs) && is_zero (snd offs)); [|reflexivity].
  unfold finish. destruct ctool as [n|]; cbn; [|reflexivity].
  destruct (tool_coordinates s); cbn; [|reflexivity].
  destruct (mpp s); reflexivity.
Qed.

(** A call that returns leaves a transform held. *)
Lemma calibrateTool_returns_held (self : Self) (cp : Coords) (ctool : Tool)
  (rep : nat) (off : Coords) (inp : list (Outcome (option Reading))) :
  is_returned (fst (fst (calibrateTool W H sq ls self cp ctool rep off inp)))
  = true ->
  (1 < List.length
         (transform_matrix
            (self_of (fst (fst (calibrateTool W H sq ls self cp ctool rep
                                  off inp))))))%nat.
Proof.
  intros Rt.
  destruct (Nat.ltb_spec 1 (List.length (transform_matrix self))) as [L|L].
  - destruct (calibrateTool_held self cp ctool rep off inp L) as (_ & ->).
    exact L.
  - apply (calibrateTool_fresh self cp ctool rep off inp L Rt).
Qed.

End Camera.

End CalibFacts.

(** ** The offsets of the alignment stage *)

Module OffsetFacts.
Import Py Num Calib Stage Session NumFacts RoundFacts CalibFacts.



(** Off the centre the offsets follow the formula: pixel (100, 100). *)
Example offsets_off_centre :
  compute_offsets 640 480 Inputs.T0 (100, 100)%Z
  = inr (around3 (1891 # 1000), around3 (1604 # 1000)).
Proof. vm_compute. reflexivity. Qed.

End OffsetFacts.

(** ** The alignment branch of [run] *)

Module SessionFacts.
Import Py Num Calib Stage Session CalibFacts.

Lemma wait_idle_spec (answers : list string) :
  forall (polled : list Event) (unread : list string),
    wait_idle answers = Some (polled, unread) ->
    exists busy a,
      answers = busy ++ a :: unread /\
      polled = map GetStatus busy ++ [GetStatus a] /\
      str_in a "idle" = true /\
      Forall (fun b => str_in b "idle" = false) busy.
Proof.
  induction answers as [|a rest IH]; intros polled unread E; [discriminate|].
  cbn [wait_idle] in E. destruct (str_in a "idle") eqn:I.
  - inversion E; subst. exists [], a. auto.
  - destruct (wait_idle rest) as [[ev u]|] eqn:Wt; [|discriminate].
    inversion E; subst.
    destruct (IH _ _ eq_refl) as (busy & b & -> & -> & Ib & Fb).
    exists (a :: busy), b. cbn. auto.
Qed.

Section Camera.

Variables W H : Z.
Variable sq : Q -> Q.
Variable ls : list (list Q) -> list (Q * Q) -> list (Q * Q) * list Q.
Variable cp : Coords.
Variable firmware : nat -> Z -> Coords.

(** C5, as amended: the idle status is observed once for each tool and
    cycle, by [run]: after the moves to the control point it polls
    [getStatus] until the answer is within ['idle'], and only then calls
    [calibrateTool]; [calibrateTool] itself never queries the status, nor
    does what follows it in the loop body, so that no idle report lies
    between the moves it issues. *)
Theorem idle_polled_once_per_tool (self : Self) (rep : nat) (n : Z)
  (statuses : list string) (inp : list (Outcome (option Reading)))
  (polled : list Event) (unread : list string) :
  wait_idle statuses = Some (polled, unread) ->
  exists busy a after,
    snd (job W H sq ls cp firmware self rep n statuses inp) =
      (LoadTool n :: to_control_point cp)
      ++ (map GetStatus busy ++ [GetStatus a])
      ++ snd (fst (calibrateTool W H sq ls self cp (ToolNumber n) rep
                     (firmware rep n) inp))
      ++ after /\
    str_in a "idle" = true /\
    Forall (fun b => str_in b "idle" = false) busy /\
    Forall quiet
      (snd (fst (calibrateTool W H sq ls self cp (ToolNumber n) rep
                   (firmware rep n) inp))) /\
    Forall quiet after.
Proof.
  intros Wt.
  destruct (wait_idle_spec statuses polled unread Wt)
    as (busy & a & _ & -> & Ia & Fb).
  pose proof (calibrateTool_quiet W H sq ls self cp (ToolNumber n) rep
                (firmware rep n) inp) as Q.
  unfold job. rewrite Wt.
  destruct (calibrateTool W H sq ls self cp (ToolNumber n) rep
              (firmware rep n) inp) as [[c ev] inp'].
  cbn [fst snd] in *.
  destruct c as [ph s|[v|] s|e s|s]; cbn [snd].
  2: { exists busy, a, [SetToolOffsets n (res_X v) (res_Y v)].
       repeat split; auto. repeat constructor. }
  all: exists busy, a, []; rewrite app_nil_r; repeat split; auto.
Qed.

Lemma fits_statuses (l : list string) : fits (map GetStatus l) = [].
Proof. induction l; cbn; auto. Qed.

Lemma fits_to_control_point : fits (to_control_point cp) = [].
Proof. reflexivity. Qed.

(** The body of the loop for one tool: at most one fit, none when a
    transform is held, and a transform held when it is done. *)
Lemma job_fits (self : Self) (rep : nat) (n : Z) (statuses : list string)
  (inp : list (Outcome (option Reading))) :
  let r := job W H sq ls cp firmware self rep n statuses inp in
  Forall eleven (fits (snd r)) /\
  (List.length (fits (snd r)) <= 1)%nat /\
  ((1 < List.length (transform_matrix self))%nat -> fits (snd r) = []) /\
  (forall self' st' inp',
     fst r = JobDone self' st' inp' ->
     (1 < List.length (transform_matrix self'))%nat).
Proof.
  cbv zeta. unfold job.
  destruct (wait_idle statuses) as [[polled unread]|] eqn:Wt.
  2: { cbn [fst snd]. rewrite fits_app, fits_statuses. cbn.
       repeat split; auto; try constructor; try lia; discriminate. }
  destruct (wait_idle_spec statuses polled unread Wt)
    as (busy & a & _ & -> & _ & _).
  destruct (calibrateTool_fits W H sq ls self cp (ToolNumber n) rep
              (firmware rep n) inp) as (F11 & F1).
  pose proof (calibrateTool_returns_held W H sq ls self cp (ToolNumber n) rep
                (firmware rep n) inp) as Hd.
  pose proof (calibrateTool_held W H sq ls self cp (ToolNumber n) rep
                (firmware rep n) inp) as Held.
  destruct (calibrateTool W H sq ls self cp (ToolNumber n) rep
              (firmware rep n) inp) as [[c ev] inp0].
  cbn [fst snd] in *.
  assert (E : forall tail, fits tail = [] ->
            fits ((LoadTool n :: to_control_point cp)
                  ++ (map GetStatus busy ++ [GetStatus a]) ++ ev ++ tail)
            = fits ev).
  { intros tail T. rewrite !fits_app, fits_statuses, T. cbn.
    apply app_nil_r. }
  destruct c as [ph s|[v|] s|e s|s]; cbn [fst snd].
  2: { rewrite (E [SetToolOffsets n (res_X v) (res_Y v)] eq_refl).
       repeat split; auto.
       - intros L. apply (Held L).
       - intros self' st' inp' J. inversion J; subst. apply Hd. reflexivity. }
  all: rewrite <- (app_nil_r ev), (E [] eq_refl);
    repeat split; auto; try (intros L; apply (Held L)); discriminate.
Qed.

(** Once a transform is held, the rest of the session fits nothing. *)
Lemma run_jobs_held (js : list (nat * Z)) :
  forall (self : Self) (statuses : list string)
         (inp : list (Outcome (option Reading))),
    (1 < List.length (transform_matrix self))%nat ->
    fits (snd (run_jobs W H sq ls cp firmware js self statuses inp)) = [].
Proof.
  induction js as [|[rep n] rest IH]; intros self statuses inp L;
    [reflexivity|].
  cbn [run_jobs].
  destruct (job_fits self rep n statuses inp) as (_ & _ & Hn & Hd).
  destruct (job W H sq ls cp firmware self rep n statuses inp) as [j ev].
  cbn [fst snd] in *.
  destruct j as [self' st' inp'|e self'|]; cbn [snd]; auto.
  specialize (IH self' st' inp' (Hd _ _ _ eq_refl)).
  destruct (run_jobs W H sq ls cp firmware rest self' st' inp') as [e evs].
  cbn [snd] in *. rewrite fits_app, (Hn L), IH. reflexivity.
Qed.

(** X3: a session fits at most one transform, on 11 samples. *)
Lemma run_fits_at_most_once (self : Self) (cycles : nat) (tools : list Z)
  (statuses : list string) (inp : list (Outcome (option Reading))) :
  (List.length
     (fits (snd (run W H sq ls cp firmware self cycles tools statuses inp)))
   <= 1)%nat.
Proof.
  unfold run. generalize (jobs cycles tools) as js.
  intros js. revert self statuses inp.
  induction js as [|[rep n] rest IH]; intros self statuses inp;
    [cbn; lia|].
  cbn [run_jobs].
  destruct (job_fits self rep n statuses inp) as (_ & L1 & _ & Hd).
  destruct (job W H sq ls cp firmware self rep n statuses inp) as [j ev]
    eqn:J.
  cbn [fst snd] in *.
  destruct j as [self' st' inp'|e self'|]; cbn [snd]; auto.
  pose proof (run_jobs_held rest self' st' inp' (Hd _ _ _ eq_refl)) as Hr.
  destruct (run_jobs W H sq ls cp firmware rest self' st' inp') as [e evs].
  cbn [snd] in *. rewrite fits_app, Hr, app_nil_r. exact L1.
Qed.

End Camera.

End SessionFacts.

(** ** The detection flag and the calibration loop *)

Module FlagFacts.
Import Py Frame Calib.

(** C10: when the detection flag is off at the test that follows the loop,
    a call of [analyzeFrame] that leaves its loop returns [None]; handed to
    the loop of [calibrateTool] for a tool, at either of its two detections
    and in whatever state, that value ends the run in a [TypeError]. *)
Theorem flag_off_breaks_calibration (rd0 : Z) (evs : list FrameEvent)
  (l0 : Locals) (e0 : FrameEvent) :
  last_pass (entry rd0) evs = Some (l0, e0) ->
  fst (analyzeFrame rd0 evs false) = Return None /\
  (forall W H sq ls n rep off ph s,
     step W H sq ls (ToolNumber n) rep off ph s
       (sensed (fst (analyzeFrame rd0 evs false)))
     = (Failed TypeError s, [Analyze])) /\
  (forall W H sq ls self cp n rep off rest,
     calibrateTool W H sq ls self cp (ToolNumber n) rep off
       (sensed (fst (analyzeFrame rd0 evs false)) :: rest)
     = (Failed TypeError (enter self cp), [Analyze], rest)).
Proof.
  intros L.
  assert (E : fst (analyzeFrame rd0 evs false) = Return None)
    by (apply (FrameFacts.loop_flag_off evs (entry rd0) l0 e0 L)).
  split; [exact E|]. rewrite E. split.
  - intros. apply CalibFacts.step_on_None.
  - intros. unfold calibrateTool. cbn [sensed option_map drive].
    rewrite CalibFacts.step_on_None. destruct rest; reflexivity.
Qed.

(** The theorem at a call whose first loop test finds the flag off. *)
Lemma flag_off_breaks_calibration_witness :
  last_pass (entry 0) [Inputs.flag_off]
    = Some (entry 0, Inputs.flag_off) /\
  fst (analyzeFrame 0 [Inputs.flag_off] false) = Return None /\
  calibrateTool 640 480 Inputs.sqrt0 Inputs.fit0 fresh
    Inputs.control_point (ToolNumber 0) 0 Inputs.no_offset
    [sensed (fst (analyzeFrame 0 [Inputs.flag_off] false))]
  = (Failed TypeError (enter fresh Inputs.control_point), [Analyze], []).
Proof.
  destruct (flag_off_breaks_calibration 0 [Inputs.flag_off]
              (entry 0) Inputs.flag_off eq_refl) as (E & _ & C).
  split; [reflexivity|]. split; [exact E|]. apply C.
Defined.

End FlagFacts.

(** ** Runs on concrete inputs *)

Module Scenarios.
Import Py Num Calib Stage Session Inputs.

(** C1, the claim as written fails: a first calibration of tool 0, every
    detection at the centre of a 640 by 480 frame, reaches the fit once and
    hands it 11 pairs, not 10. *)
Lemma fit_on_eleven_pairs_not_ten :
  map (fun i => List.length i)
    (fits (snd (fst (calibrateTool 640 480 sqrt0 fit0 fresh control_point
                       (ToolNumber 0) 0 no_offset (at_centre 28)))))
  = [11%nat] /\
  is_returned (fst (fst (calibrateTool 640 480 sqrt0 fit0 fresh control_point
                           (ToolNumber 0) 0 no_offset (at_centre 28))))
  = true /\
  11%nat <> 10%nat.
Proof. vm_compute. repeat split. discriminate. Qed.

(** C2, the claim as written fails: in a session of one cycle over tools 0
    and 1 that runs to completion, the transform is fitted once, in the
    calibration of tool 0; the calibration of tool 1 goes straight to the
    alignment moves. *)
Lemma second_tool_fits_no_transform :
  let r := run 640 480 sqrt0 fit0 control_point firmware0 fresh 1 [0; 1]%Z
             ["idle"; "idle"]%string (at_centre 34) in
  is_complete (fst r) = true /\
  List.length (jobs 1 [0; 1]%Z) = 2%nat /\
  List.length (fits (snd r)) = 1%nat /\
  fits (snd (fst (calibrateTool 640 480 sqrt0 fit0 calibrated control_point
                    (ToolNumber 1) 0 no_offset (at_centre 6)))) = [] /\
  is_returned (fst (fst (calibrateTool 640 480 sqrt0 fit0 calibrated
                           control_point (ToolNumber 1) 0 no_offset
                           (at_centre 6)))) = true.
Proof. vm_compute. repeat split. Qed.

(** The theorem on a thread that holds [T0] and on a fresh one. *)
Lemma transform_fitted_once_then_reused_witness :
  fits (snd (fst (calibrateTool 640 480 sqrt0 fit0 calibrated control_point
                    (ToolNumber 1) 0 no_offset (at_centre 6)))) = [] /\
  List.length
    (fits (snd (fst (calibrateTool 640 480 sqrt0 fit0 fresh control_point
                       (ToolNumber 0) 0 no_offset (at_centre 28)))))
  = 1%nat.
Proof.
  split.
  - apply (CalibFacts.transform_fitted_once_then_reused 640 480 sqrt0 fit0
             calibrated control_point (ToolNumber 1) 0 no_offset
             (at_centre 6)).
    vm_compute. lia.
  - apply (CalibFacts.transform_fitted_once_then_reused 640 480 sqrt0 fit0
             fresh control_point (ToolNumber 0) 0 no_offset (at_centre 28)).
    + vm_compute. lia.
    + vm_compute. reflexivity.
Defined.

(** C5, the claim as written fails: tool 0 is calibrated on a thread that
    holds [T0]; the nozzle is seen at pixel (100, 100), then, after the first
    alignment move, at the centre.  The second alignment move is issued two
    detections after the first, and no status was asked for in between. *)
Lemma second_move_without_idle_report :
  snd (run 640 480 sqrt0 fit0 control_point firmware0 calibrated 1 [0]%Z
         ["busy"; "idle"]%string six_off_then_centre)
  = [ LoadTool 0;
      MoveAbsolute 6000 (Some 100) None None;
      MoveAbsolute 6000 None (Some 50) None;
      MoveAbsolute 6000 None None (Some 10);
      GetStatus "busy"; GetStatus "idle";
      Analyze; Analyze; Analyze; Analyze; Analyze; Analyze;
      LimitAxes;
      MoveRelative 1000 (around3 (1891 # 1000)) (around3 (1604 # 1000));
      Analyze; Analyze;
      LimitAxes; MoveRelative 1000 (around3 0) (around3 0);
      MoveAbsolute 13200 None None None; GetToolOffset 0;
      MoveAbsolute 13200 None None None;
      ResultUpdate 0 0 (Finite (1 # 100)) (around3 0) (around3 0);
      SetToolOffsets 0 (around3 0) (around3 0);
      UnloadTools;
      MoveAbsolute 6000 (Some 100) None None;
      MoveAbsolute 6000 None (Some 50) None;
      MoveAbsolute 6000 None None (Some 10) ] /\
  idle_before_moves false
    (snd (run 640 480 sqrt0 fit0 control_point firmware0 calibrated 1 [0]%Z
            ["busy"; "idle"]%string six_off_then_centre)) = false.
Proof. vm_compute. split; reflexivity. Qed.

(** The theorem on the same run: one busy answer, then idle. *)
Lemma idle_polled_once_per_tool_witness :
  wait_idle ["busy"; "idle"]%string
    = Some ([GetStatus "busy"; GetStatus "idle"], []) /\
  exists busy a after,
    snd (job 640 480 sqrt0 fit0 control_point firmware0 calibrated 0 0
           ["busy"; "idle"]%string six_off_then_centre) =
      (LoadTool 0 :: to_control_point control_point)
      ++ (map GetStatus busy ++ [GetStatus a])
      ++ snd (fst (calibrateTool 640 480 sqrt0 fit0 calibrated control_point
                     (ToolNumber 0) 0 (firmware0 0%nat 0%Z)
                     six_off_then_centre))
      ++ after /\
    str_in a "idle" = true.
Proof.
  split; [reflexivity|].
  destruct (SessionFacts.idle_polled_once_per_tool 640 480 sqrt0 fit0
              control_point firmware0 calibrated 0 0
              ["busy"; "idle"]%string six_off_then_centre
              [GetStatus "busy"; GetStatus "idle"] [] eq_refl)
    as (busy & a & after & E & I & _).
  exists busy, a, after. split; [exact E|exact I].
Defined.

(** With [T0], an endstop seen at pixel (100, 100) is 1.891 and 1.604 machine
    units off: the pass of the alignment stage sends nothing to the printer
    and stays in state 200. *)
Lemma endstop_off_centre_pass (rep : nat) (off : Coords) (s : Self) :
  transform_matrix s = T0 -> xy s = (100, 100)%Z ->
  exists s',
    centering 640 480 Endstop rep off s = (Running AtTop s', []) /\
    aligning_T0 s'.
Proof.
  intros HT Hxy. unfold centering. cbv zeta.
  change (transform_matrix (set_calibration_moves _ s))
    with (transform_matrix s).
  change (xy (set_calibration_moves (S (calibration_moves s)) s))
    with (xy s).
  rewrite HT, Hxy, OffsetFacts.offsets_off_centre.
  eexists. split; [reflexivity|]. split; [reflexivity|exact HT].
Qed.

Lemma endstop_stuck_step (rep : nat) (off : Coords) (ph : Phase) (s : Self) :
  aligning_T0 s ->
  exists ph' s',
    step 640 480 sqrt0 fit0 Endstop rep off ph s (seen 100 100)
    = (Running ph' s', [Analyze]) /\
    aligning_T0 s'.
Proof.
  intros [St HT]. destruct ph; cbn [step].
  - unfold at_top, seen. cbn [unpack]. cbv zeta.
    destruct (position_iterations <=? _)%nat;
      eexists _, _; (split; [reflexivity|split; [exact St|exact HT]]).
  - unfold at_validate, seen. cbn [unpack]. cbv zeta.
    rewrite CalibFacts.on_state_aligning by exact St.
    destruct (endstop_off_centre_pass rep off
                (set_tool_coordinates (Some at_machine)
                   (set_xy (100, 100)%Z s)) HT eq_refl)
      as (s' & E & A).
    cbn [r_xy r_coords]. rewrite E. eexists _, _. split; [reflexivity|exact A].
Qed.

Lemma endstop_stuck_drive (rep : nat) (off : Coords) (n : nat) :
  forall (ph : Phase) (s : Self),
    aligning_T0 s ->
    exists ph' s',
      drive 640 480 sqrt0 fit0 Endstop rep off (Running ph s)
        (repeat (seen 100 100) n)
      = (Running ph' s', repeat Analyze n, []).
Proof.
  induction n as [|n IH]; intros ph s A.
  - exists ph, s. reflexivity.
  - cbn [repeat]. rewrite CalibFacts.drive_cons. cbv zeta.
    destruct (endstop_stuck_step rep off ph s A) as (ph1 & s1 & E & A1).
    rewrite E. cbn [fst snd].
    destruct (IH ph1 s1 A1) as (ph2 & s2 & D). rewrite D.
    exists ph2, s2. reflexivity.
Qed.

(** C3, at the failing input: in the alignment stage the endstop branch
    never issues the relative move.  On a thread that holds [T0], with the
    endstop seen at pixel (100, 100) of a 640 by 480 frame, the offsets are
    1.891 and 1.604; however many detections follow, the run sends nothing to
    the printer and does not end. *)
Theorem endstop_alignment_never_moves :
  (forall W H rep off s,
     Forall (fun e => is_relative_move e = false)
       (snd (centering W H Endstop rep off s))) /\
  compute_offsets 640 480 T0 (100, 100)%Z
    = inr (around3 (1891 # 1000), around3 (1604 # 1000)) /\
  (forall n,
     snd (fst (calibrateTool 640 480 sqrt0 fit0 calibrated control_point
                 Endstop 1 no_offset (repeat (seen 100 100) n)))
     = repeat Analyze n /\
     is_running
       (fst (fst (calibrateTool 640 480 sqrt0 fit0 calibrated control_point
                    Endstop 1 no_offset (repeat (seen 100 100) n))))
     = true).
Proof.
  split; [intros; apply CalibFacts.centering_endstop_silent|].
  split; [exact OffsetFacts.offsets_off_centre|].
  intros n. unfold calibrateTool.
  destruct (endstop_stuck_drive 1 no_offset n AtTop
              (enter calibrated control_point))
    as (ph & s & D); [split; reflexivity|].
  rewrite D. split; reflexivity.
Qed.

(** The same detections, for a tool: the move is issued at once. *)
Example tool_alignment_moves :
  filter is_relative_move
    (snd (fst (calibrateTool 640 480 sqrt0 fit0 calibrated control_point
                 (ToolNumber 0) 0 no_offset (repeat (seen 100 100) 6))))
  = [MoveRelative 1000 (around3 (1891 # 1000)) (around3 (1604 # 1000))].
Proof. vm_compute. reflexivity. Qed.

(** C4, at the failing input: on a thread that holds [T0], five detections
    at pixel (100, 100) and a sixth at the centre.  The average kept in
    [average_location] is (100, 100), for which the offsets would be 1.891
    and 1.604; the move issued is (0, 0), the offsets of the sixth detection
    alone, and the run ends.  No pass of the alignment stage reads
    [average_location]; and since [detect_count] is not reset, the pass
    after a move takes two detections, not five. *)
Theorem alignment_offsets_ignore_the_average :
  (forall W H ctool rep off a s,
     snd (centering W H ctool rep off (set_average_location a s))
     = snd (centering W H ctool rep off s)) /\
  (let r := calibrateTool 640 480 sqrt0 fit0 calibrated control_point
              (ToolNumber 0) 0 no_offset five_off_then_centre in
   average_location (self_of (fst (fst r))) = (around3 100, around3 100) /\
   compute_offsets 640 480 T0 (100, 100)%Z
     = inr (around3 (1891 # 1000), around3 (1604 # 1000)) /\
   filter is_relative_move (snd (fst r))
     = [MoveRelative 1000 (around3 0) (around3 0)] /\
   is_returned (fst (fst r)) = true) /\
  (let r := calibrateTool 640 480 sqrt0 fit0 calibrated control_point
              (ToolNumber 0) 0 no_offset six_off_then_centre in
   snd (fst r)
   = [ Analyze; Analyze; Analyze; Analyze; Analyze; Analyze;
       LimitAxes;
       MoveRelative 1000 (around3 (1891 # 1000)) (around3 (1604 # 1000));
       Analyze; Analyze;
       LimitAxes; MoveRelative 1000 (around3 0) (around3 0);
       MoveAbsolute 13200 None None None; GetToolOffset 0;
       MoveAbsolute 13200 None None None;
       ResultUpdate 0 0 (Finite (1 # 100)) (around3 0) (around3 0) ]).
Proof.
  split; [intros; apply CalibFacts.centering_ignores_average|].
  split; vm_compute; repeat split.
Qed.


End Scenarios.

(** ** [analyzeFrame], further properties *)

Module FrameMore.
Import Py Num Frame FrameAux FrameFacts.

(** A pass whose camera read fails changes nothing and sends nothing. *)
Lemma pass_failed_read (l : Locals) (e : FrameEvent) :
  fe_on e = true -> fe_ret e = false -> pass l e = (Continue l, []).
Proof. intros On Ret. unfold pass. rewrite On, Ret. reflexivity. Qed.

(** X15: a failed camera read is invisible to the caller: dropping such a
    frame from the input changes neither the outcome nor the signals of the
    call. *)
Theorem failed_read_is_invisible (pre : list FrameEvent) :
  forall (l : Locals) (bad : FrameEvent) (post : list FrameEvent)
         (final_on : bool),
    fe_on bad = true -> fe_ret bad = false ->
    loop l (pre ++ bad :: post) final_on = loop l (pre ++ post) final_on.
Proof.
  induction pre as [|e pre IH]; intros l bad post final_on On Ret.
  - cbn [app]. rewrite loop_cons, (pass_failed_read l bad On Ret).
    cbn [fst snd app]. destruct (loop l post final_on); reflexivity.
  - cbn [app]. rewrite !loop_cons.
    destruct (fst (pass l e)) as [l'|l'|l']; try reflexivity.
    rewrite (IH l' bad post final_on On Ret). reflexivity.
Qed.

Lemma failed_read_is_invisible_witness :
  loop (entry 0)
    ([Inputs.no_circle_late]
     ++ {| fe_on := true; fe_ret := false; fe_coords := None;
           fe_width := 0; fe_height := 0; fe_keypoints := [];
           fe_now := 35 |} :: [Inputs.one_circle]) true
  = loop (entry 0) ([Inputs.no_circle_late] ++ [Inputs.one_circle]) true.
Proof.
  apply (failed_read_is_invisible [Inputs.no_circle_late] (entry 0));
    reflexivity.
Defined.

Lemma loop_exit_unbound (evs : list FrameEvent) :
  forall (l l0 : Locals) (e0 : FrameEvent),
    r l = None ->
    last_pass l evs = Some (l0, e0) -> fe_on e0 = false ->
    fst (loop l evs true) = Raise UnboundLocalError.
Proof.
  induction evs as [|e rest IH]; intros l l0 e0 Hr L Off; [discriminate|].
  rewrite loop_cons. cbn [last_pass] in L.
  destruct (fst (pass l e)) as [l'|l'|l'] eqn:P; cbn [fst].
  - apply pass_exit_same in P. destruct P as [-> _].
    unfold after_loop. rewrite Hr.
    destruct (target l), (toolCoordinates l); reflexivity.
  - apply (IH l' l0 e0); auto.
    rewrite (pass_continue_keeps_r l e l' P). exact Hr.
  - inversion L; subst. apply pass_break_single in P.
    destruct P as (On & _). congruence.
Qed.

(** X16: when the loop is left because the detection flag is off and the flag
    is on again at the test that follows, the call raises
    [UnboundLocalError]: the placeholder position (0, 0) is never
    returned. *)
Theorem flag_flicker_raises (rd0 : Z) (evs : list FrameEvent)
  (l0 : Locals) (e0 : FrameEvent) :
  last_pass (entry rd0) evs = Some (l0, e0) -> fe_on e0 = false ->
  fst (analyzeFrame rd0 evs true) = Raise UnboundLocalError.
Proof.
  intros L Off. apply (loop_exit_unbound evs (entry rd0) l0 e0 eq_refl L Off).
Qed.

Lemma flag_flicker_raises_witness :
  fst (analyzeFrame 0 [Inputs.no_circle_late; Inputs.flag_off] true)
  = Raise UnboundLocalError.
Proof.
  apply (flag_flicker_raises 0 [Inputs.no_circle_late; Inputs.flag_off]
           {| xy := (0, 0)%Z; nocircle := 1; rd := 0;
              target := Some (320, 240)%Z;
              toolCoordinates := Some (Some Inputs.at_machine);
              r := None |} Inputs.flag_off); reflexivity.
Defined.

Lemma count_msg_app (m : string) (a b : list Signal) :
  count_msg m (a ++ b) = (count_msg m a + count_msg m b)%nat.
Proof. unfold count_msg. rewrite filter_app, length_app. reflexivity. Qed.

(** What one pass adds to the two counts and does to the counter. *)
Lemma pass_counts (l : Locals) (e : FrameEvent) :
  (26 * count_msg msg_error (snd (pass l e))
   + match fst (pass l e) with
     | Continue l' => nocircle l'
     | _ => 0
     end
   <= count_msg msg_none (snd (pass l e)) + nocircle l)%nat.
Proof.
  pass_cases l e; cbn; try lia.
  apply Nat.ltb_lt in Cnt. lia.
Qed.

Lemma loop_counts (evs : list FrameEvent) :
  forall (l : Locals) (final_on : bool),
    (26 * count_msg msg_error (snd (loop l evs final_on))
     <= count_msg msg_none (snd (loop l evs final_on)) + nocircle l)%nat.
Proof.
  induction evs as [|e rest IH]; intros l final_on; [cbn; lia|].
  rewrite loop_cons. pose proof (pass_counts l e) as P.
  destruct (fst (pass l e)) as [l'|l'|l']; cbn [snd]; try lia.
  rewrite !count_msg_app. specialize (IH l' final_on). lia.
Qed.

(** X17: in one call, the message [Error in detecting nozzle.] is sent at most
    once for every 26 [No circles found.] messages sent. *)
Theorem error_message_needs_26_misses (rd0 : Z) (evs : list FrameEvent)
  (final_on : bool) :
  (26 * count_msg msg_error (snd (analyzeFrame rd0 evs final_on))
   <= count_msg msg_none (snd (analyzeFrame rd0 evs final_on)))%nat.
Proof.
  pose proof (loop_counts evs (entry rd0) final_on) as H.
  cbn [entry nocircle] in H. unfold analyzeFrame. lia.
Qed.

End FrameMore.

(** ** [analyzeEndstop] *)

Module EndstopFacts.
Import Py Num Endstop.

Lemma max_area_from_spec (cs : list Contour) :
  forall best,
    In (max_area_from best cs) (best :: cs) /\
    forall c, In c (best :: cs) -> area c <= area (max_area_from best cs).
Proof.
  induction cs as [|c rest IH]; intros best; cbn [max_area_from].
  - split; [left; reflexivity|]. intros c [<-|[]]. apply Qle_refl.
  - destruct (Qle_bool (area c) (area best)) eqn:Le.
    + destruct (IH best) as (I & M). split.
      * destruct I as [E|I]; [left; exact E|right; right; exact I].
      * intros c' [<-|[<-|I']].
        -- apply M. left. reflexivity.
        -- apply Qle_bool_iff in Le. apply (Qle_trans _ _ _ Le).
           apply M. left. reflexivity.
        -- apply M. right. exact I'.
    + destruct (IH c) as (I & M). split.
      * right. exact I.
      * assert (Lt : area best <= area c).
        { apply Qlt_le_weak. apply Qnot_le_lt. intros A.
          apply Qle_bool_iff in A. congruence. }
        intros c' [<-|[<-|I']].
        -- apply (Qle_trans _ _ _ Lt). apply M. left. reflexivity.
        -- apply M. left. reflexivity.
        -- apply M. right. exact I'.
Qed.

(** X18: a centre returned by [analyzeEndstop] is the centroid, truncated to
    integers, of a contour of the frame that has a parent and whose area is
    the largest among the contours with a parent; the machine coordinates
    returned are the ones read in that same pass. *)
Theorem endstop_centre_is_largest_hole (evs : list EndstopEvent) :
  forall (centre : Z * Z) (c : Coords) (notes : list Note),
    analyzeEndstop evs = (Found centre c, notes) ->
    exists e blob,
      In e evs /\ ee_ret e = true /\ ee_coords e = Some c /\
      In blob (ee_contours e) /\ (-1 < parent blob)%Z /\
      (forall b, In b (ee_contours e) -> (-1 < parent b)%Z ->
                 area b <= area blob) /\
      ~ m00 blob == 0 /\
      centre = (trunc (m10 blob / m00 blob), trunc (m01 blob / m00 blob)).
Proof.
  induction evs as [|e rest IH]; intros centre c notes H; [discriminate|].
  cbn [analyzeEndstop] in H.
  assert (Rec : forall n, analyzeEndstop rest = (Found centre c, n) ->
            exists e0 blob,
              In e0 (e :: rest) /\ ee_ret e0 = true /\ ee_coords e0 = Some c /\
              In blob (ee_contours e0) /\ (-1 < parent blob)%Z /\
              (forall b, In b (ee_contours e0) -> (-1 < parent b)%Z ->
                         area b <= area blob) /\
              ~ m00 blob == 0 /\
              centre = (trunc (m10 blob / m00 blob),
                        trunc (m01 blob / m00 blob))).
  { intros n Hn. destruct (IH centre c n Hn) as (e0 & blob & I & R).
    exists e0, blob. split; [right; exact I|exact R]. }
  destruct (ee_ret e) eqn:Ret; cbn [negb] in H; [|apply (Rec _ H)].
  destruct (ee_contours e) as [|k ks] eqn:Cs.
  { destruct (analyzeEndstop rest) as [o n] eqn:A. inversion H; subst.
    apply (Rec n eq_refl). }
  rewrite <- Cs in H.
  destruct (filter has_parent (ee_contours e)) as [|c0 cs] eqn:F;
    [apply (Rec _ H)|].
  cbv zeta in H.
  destruct (max_area_from_spec cs c0) as (I & M).
  set (blob := max_area_from c0 cs) in *.
  destruct (0 <? npoints blob)%nat; [|apply (Rec _ H)].
  destruct (Qeq_bool (m00 blob) 0) eqn:Z0; [discriminate|].
  destruct (ee_coords e) as [c'|] eqn:Co; [|discriminate].
  inversion H; subst.
  assert (Fb : forall b, In b (c0 :: cs) <->
                         In b (ee_contours e) /\ has_parent b = true).
  { intros b. rewrite <- F. apply filter_In. }
  apply Fb in I. destruct I as (Ib & Pb).
  exists e, blob. split; [left; reflexivity|]. split; [exact Ret|].
  split; [exact Co|]. rewrite Cs in *. split; [exact Ib|].
  split; [apply Z.ltb_lt; exact Pb|]. split.
  - intros b Hb Pp. apply M. apply Fb. split; [exact Hb|].
    apply Z.ltb_lt. exact Pp.
  - split; [|reflexivity]. intros E. apply Qeq_bool_iff in E. congruence.
Qed.

End EndstopFacts.

(** ** Examples for [analyzeEndstop] *)

Module EndstopExamples.
Import Py Num Endstop.

Lemma endstop_centre_is_largest_hole_witness :
  exists e blob,
    In e [MoreInputs.hole_frame] /\ ee_ret e = true /\
    ee_coords e = Some Inputs.at_machine /\
    In blob (ee_contours e) /\ (-1 < parent blob)%Z /\
    (forall b, In b (ee_contours e) -> (-1 < parent b)%Z ->
               area b <= area blob) /\
    ~ m00 blob == 0 /\
    (100, 50)%Z = (trunc (m10 blob / m00 blob), trunc (m01 blob / m00 blob)).
Proof.
  apply (EndstopFacts.endstop_centre_is_largest_hole
           [MoreInputs.hole_frame] (100, 50)%Z Inputs.at_machine [Shown]).
  reflexivity.
Defined.

End EndstopExamples.

(** ** [calibrateTool], further properties *)

Module CalibMore.
Import Py Num Calib Stage Session Trace Handback CalibFacts.

Lemma results_app (a b : list Event) :
  results (a ++ b) = results a ++ results b.
Proof. unfold results. apply flat_map_app. Qed.

Lemma loads_app (a b : list Event) : loads (a ++ b) = loads a ++ loads b.
Proof. unfold loads. apply flat_map_app. Qed.

Lemma applied_app (a b : list Event) :
  applied (a ++ b) = applied a ++ applied b.
Proof. unfold applied. apply flat_map_app. Qed.

Ltac ev_tac := cbn [fst snd app]; repeat (constructor; try reflexivity).

Section Camera.

Variables W H : Z.
Variable sq : Q -> Q.
Variable ls : list (list Q) -> list (Q * Q) -> list (Q * Q) * list Q.

Lemma finish_inner (ctool : Tool) (rep : nat) (off : Coords) (s : Self) :
  Forall (fun e => of_calibrate e = true) (snd (finish ctool rep off s)).
Proof.
  unfold finish. destruct ctool; [|ev_tac].
  destruct (tool_coordinates s); [|ev_tac].
  destruct (mpp s); ev_tac.
Qed.

Lemma centering_inner (ctool : Tool) (rep : nat) (off : Coords) (s : Self) :
  Forall (fun e => of_calibrate e = true)
    (snd (centering W H ctool rep off s)).
Proof.
  unfold centering. cbv zeta.
  destruct (compute_offsets _ _ _ _) as [e|offsets]; [ev_tac|].
  set (offs := if is_endstop ctool then _ else offsets).
  destruct (is_zero (fst offs) && is_zero (snd offs)).
  - match goal with
    | |- context [finish ?t ?r ?o ?x] =>
        pose proof (finish_inner t r o x) as F;
        destruct (finish t r o x) as [c ev]
    end.
    cbn [fst snd] in *. apply Forall_app. split; [|exact F].
    destruct (is_endstop ctool); ev_tac.
  - destruct (is_endstop ctool); ev_tac.
Qed.

Lemma on_state_inner (ctool : Tool) (rep : nat) (off : Coords) (s : Self) :
  Forall (fun e => of_calibrate e = true)
    (snd (on_state W H sq ls ctool rep off s)).
Proof.
  unfold on_state.
  destruct (Nat.eqb (state s) 0).
  { unfold calib_init. cbv zeta. destruct (machine_xy _); ev_tac. }
  destruct (_ && _).
  { unfold calib_step. cbv zeta. destruct (machine_xy _); ev_tac. }
  destruct (Nat.eqb (state s) _).
  { unfold calib_finalize. cbv zeta. destruct (machine_xy _); [ev_tac|].
    destruct (transform_input_from _ _ _ _ _); [ev_tac|].
    destruct (matT_vec _ _); ev_tac. }
  destruct (Nat.eqb (state s) 200); [apply centering_inner|ev_tac].
Qed.

Lemma step_inner (ctool : Tool) (rep : nat) (off : Coords) (ph : Phase)
  (s : Self) (o : Outcome (option Reading)) :
  Forall (fun e => of_calibrate e = true)
    (snd (step W H sq ls ctool rep off ph s o)).
Proof.
  destruct ph; cbn [step].
  - rewrite (proj1 (at_top_spec s o)). ev_tac.
  - unfold at_validate. destruct (unpack o) as [rd|e|]; try ev_tac.
    cbv zeta.
    match goal with
    | |- context [on_state _ _ _ _ ?t ?r ?f ?x] =>
        pose proof (on_state_inner t r f x) as Q;
        destruct (on_state W H sq ls t r f x) as [c ev]
    end.
    cbn [fst snd] in *. constructor; [reflexivity|exact Q].
Qed.

Lemma drive_inner (ctool : Tool) (rep : nat) (off : Coords)
  (inp : list (Outcome (option Reading))) :
  forall (c : Config),
    Forall (fun e => of_calibrate e = true)
      (snd (fst (drive W H sq ls ctool rep off c inp))).
Proof.
  induction inp as [|o rest IH]; intros c.
  - destruct c; cbn; constructor.
  - destruct c as [ph s|v s|e s|s]; try (cbn; constructor).
    rewrite drive_cons. cbv zeta. cbn [fst snd].
    apply Forall_app. split; [apply step_inner|apply IH].
Qed.

(** X8: [calibrateTool] neither loads nor unloads a tool, nor asks for the
    status, nor writes an offset to the printer. *)
Lemma calibrateTool_inner (self : Self) (cp : Coords) (ctool : Tool)
  (rep : nat) (off : Coords) (inp : list (Outcome (option Reading))) :
  Forall (fun e => of_calibrate e = true)
    (snd (fst (calibrateTool W H sq ls self cp ctool rep off inp))).
Proof. unfold calibrateTool. apply drive_inner. Qed.

Lemma result_of_prepend (ctool : Tool) (rep : nat) (off cp : Coords)
  (s' : Self) (v : option CalResult) (pre tr : list Event) :
  results pre = [] ->
  result_of ctool rep off cp s' v tr ->
  result_of ctool rep off cp s' v (pre ++ tr).
Proof.
  intros P. unfold result_of. rewrite results_app, P. cbn [app]. auto.
Qed.

Lemma finish_result (ctool : Tool) (rep : nat) (off : Coords) (s : Self) :
  match fst (finish ctool rep off s) with
  | Returned v s' =>
      s' = s /\
      result_of ctool rep off (cp_coordinates s) s v
        (snd (finish ctool rep off s))
  | _ => results (snd (finish ctool rep off s)) = []
  end.
Proof.
  unfold finish, result_of. destruct ctool as [n|]; cbn; [|auto].
  destruct (tool_coordinates s) as [tc|] eqn:Tc; cbn; [|reflexivity].
  destruct (mpp s) as [m|]; cbn; [|reflexivity].
  split; [reflexivity|]. exists tc, m. auto.
Qed.

(** A pass of the alignment stage: the control point and the machine
    coordinates of the detection are kept, and a return carries the offset
    computed from them. *)
Lemma centering_result (ctool : Tool) (rep : nat) (off : Coords) (s : Self) :
  cp_coordinates (self_of (fst (centering W H ctool rep off s)))
  = cp_coordinates s /\
  match fst (centering W H ctool rep off s) with
  | Returned v s' =>
      tool_coordinates s' = tool_coordinates s /\
      result_of ctool rep off (cp_coordinates s) s' v
        (snd (centering W H ctool rep off s))
  | _ => results (snd (centering W H ctool rep off s)) = []
  end.
Proof.
  unfold centering. cbv zeta.
  destruct (compute_offsets _ _ _ _) as [e|offsets]; [cbn; auto|].
  set (offs := if is_endstop ctool then _ else offsets).
  destruct (is_zero (fst offs) && is_zero (snd offs)).
  - match goal with
    | |- context [finish ?t ?r ?o ?x] =>
        pose proof (finish_result t r o x) as F;
        destruct (finish_spec t r o x) as (_ & _ & S);
        destruct (finish t r o x) as [c ev]
    end.
    cbn [fst snd] in *. split; [rewrite S; reflexivity|].
    assert (M : results (if is_endstop ctool then []
                         else [LimitAxes;
                               MoveRelative 1000 (fst offs) (snd offs)])
                = []) by (destruct (is_endstop ctool); reflexivity).
    destruct c as [ph s'|v s'|e s'|s']; cbn [self_of] in *;
      try (rewrite results_app, M, F; reflexivity).
    destruct F as (-> & R). split; [reflexivity|].
    apply result_of_prepend; [exact M|exact R].
  - destruct (is_endstop ctool); cbn; auto.
Qed.

Lemma on_state_result (ctool : Tool) (rep : nat) (off : Coords) (s : Self) :
  cp_coordinates (self_of (fst (on_state W H sq ls ctool rep off s)))
  = cp_coordinates s /\
  match fst (on_state W H sq ls ctool rep off s) with
  | Returned v s' =>
      tool_coordinates s' = tool_coordinates s /\
      result_of ctool rep off (cp_coordinates s) s' v
        (snd (on_state W H sq ls ctool rep off s))
  | _ => results (snd (on_state W H sq ls ctool rep off s)) = []
  end.
Proof.
  unfold on_state.
  destruct (Nat.eqb (state s) 0).
  { unfold calib_init. cbv zeta. destruct (machine_xy _); cbn; auto. }
  destruct (_ && _).
  { unfold calib_step. cbv zeta.
    destruct (Nat.eqb (state s) 1); destruct (machine_xy _); cbn; auto. }
  destruct (Nat.eqb (state s) _).
  { unfold calib_finalize. cbv zeta. destruct (machine_xy _); [cbn; auto|].
    destruct (transform_input_from _ _ _ _ _); [cbn; auto|].
    destruct (matT_vec _ _); cbn; auto. }
  destruct (Nat.eqb (state s) 200); [apply centering_result|cbn; auto].
Qed.

Lemma step_result (ctool : Tool) (rep : nat) (off : Coords) (ph : Phase)
  (s : Self) (o : Outcome (option Reading)) :
  cp_coordinates (self_of (fst (step W H sq ls ctool rep off ph s o)))
  = cp_coordinates s /\
  match fst (step W H sq ls ctool rep off ph s o) with
  | Returned v s' =>
      (exists rd, o = Return (Some rd) /\ tool_coordinates s' = r_coords rd)
      /\
      result_of ctool rep off (cp_coordinates s) s' v
        (snd (step W H sq ls ctool rep off ph s o))
  | _ => results (snd (step W H sq ls ctool rep off ph s o)) = []
  end.
Proof.
  destruct ph; cbn [step].
  - unfold at_top.
    destruct (unpack o) as [rd|e|];
      [destruct (position_iterations <=? _)%nat| |]; cbn; auto.
  - unfold at_validate.
    destruct o as [[rd|]|e|]; cbn [unpack]; try (cbn; auto; fail).
    cbv zeta.
    match goal with
    | |- context [on_state _ _ _ _ ?t ?r ?f ?x] =>
        pose proof (on_state_result t r f x) as Q;
        destruct (on_state W H sq ls t r f x) as [c ev]
    end.
    cbn [fst snd] in *. destruct Q as (Cp & R). split; [exact Cp|].
    destruct c as [ph s'|v s'|e s'|s']; cbn [results flat_map app]; auto.
    destruct R as (Tc & R). split.
    + exists rd. split; [reflexivity|exact Tc].
    + apply (result_of_prepend ctool rep off _ s' v [Analyze]);
        [reflexivity|exact R].
Qed.

Lemma drive_result (ctool : Tool) (rep : nat) (off : Coords)
  (inp : list (Outcome (option Reading))) :
  forall (ph : Phase) (s : Self),
    match fst (fst (drive W H sq ls ctool rep off (Running ph s) inp)) with
    | Returned v s' =>
        result_of ctool rep off (cp_coordinates s) s' v
          (snd (fst (drive W H sq ls ctool rep off (Running ph s) inp))) /\
        exists pre rd,
          inp = pre ++ Return (Some rd)
                    :: snd (drive W H sq ls ctool rep off (Running ph s) inp)
          /\ tool_coordinates s' = r_coords rd
    | _ =>
        results (snd (fst (drive W H sq ls ctool rep off (Running ph s) inp)))
        = []
    end.
Proof.
  induction inp as [|o rest IH]; intros ph s; [reflexivity|].
  rewrite drive_cons. cbv zeta. cbn [fst snd].
  destruct (step_result ctool rep off ph s o) as (Cp & R).
  destruct (fst (step W H sq ls ctool rep off ph s o)) as [ph1 s1|v s1|e s1|s1]
    eqn:C.
  - specialize (IH ph1 s1). cbn [self_of] in Cp.
    destruct (fst (fst (drive W H sq ls ctool rep off (Running ph1 s1) rest)))
      as [ph2 s2|v s2|e s2|s2];
      try (rewrite results_app, R, IH; reflexivity).
    destruct IH as (Ro & pre & rd & E & Tc). split.
    + rewrite <- Cp. apply result_of_prepend; [exact R|exact Ro].
    + exists (o :: pre), rd. split; [|exact Tc].
      cbn [app]. f_equal. exact E.
  - rewrite drive_stop by reflexivity. cbn [fst snd].
    rewrite app_nil_r. destruct R as ((rd & -> & Tc) & R). split; [exact R|].
    exists [], rd. auto.
  - rewrite drive_stop by reflexivity. cbn [fst snd].
    rewrite app_nil_r. exact R.
  - rewrite drive_stop by reflexivity. cbn [fst snd].
    rewrite app_nil_r. exact R.
Qed.


(** X5: a result is sent only by a run for a tool that returns: a run for the
    endstop, and a run that fails or is still polling, send none. *)
Theorem result_only_on_tool_return (self : Self) (cp : Coords)
  (ctool : Tool) (rep : nat) (off : Coords)
  (inp : list (Outcome (option Reading))) :
  let r := calibrateTool W H sq ls self cp ctool rep off inp in
  results (snd (fst r)) = [] \/
  exists n v s', ctool = ToolNumber n /\ fst (fst r) = Returned (Some v) s'.
Proof.
  cbv zeta. unfold calibrateTool.
  pose proof (drive_result ctool rep off inp AtTop (enter self cp)) as R.
  destruct (fst (fst (drive W H sq ls ctool rep off
                        (Running AtTop (enter self cp)) inp)))
    as [ph s'|v s'|e s'|s']; try (left; exact R).
  destruct R as (R & _). destruct ctool as [n|].
  - destruct R as (tc & m & _ & -> & _). right. eexists _, _, _. eauto.
  - left. apply R.
Qed.

Lemma drive_warmup (ctool : Tool) (rep : nat) (off : Coords)
  (inp : list (Outcome (option Reading))) :
  forall (s : Self),
    (detect_count s + List.length inp <= 5)%nat ->
    Forall (fun e => is_analyze e = true)
      (snd (fst (drive W H sq ls ctool rep off (Running AtTop s) inp))).
Proof.
  induction inp as [|o rest IH]; intros s Hn; [constructor|].
  cbn [List.length] in Hn.
  rewrite drive_cons. cbv zeta. cbn [fst snd step].
  unfold at_top.
  destruct (unpack o) as [rd|e|].
  - cbv zeta.
    destruct (position_iterations <=? _)%nat eqn:Five; cbn [fst snd].
    + apply Nat.leb_le in Five. unfold position_iterations in Five.
      cbn in Five.
      assert (rest = []) as ->
        by (destruct rest; [reflexivity|cbn in Hn; lia]).
      repeat constructor.
    + constructor; [reflexivity|]. apply IH. cbn. lia.
  - cbn [fst snd]. rewrite drive_stop by reflexivity. repeat constructor.
  - cbn [fst snd]. rewrite drive_stop by reflexivity. repeat constructor.
Qed.

(** X6: nothing is sent to the printer before the sixth detection of a call:
    on at most five detections the trace of [calibrateTool] holds detections
    only. *)
Theorem no_command_before_sixth_detection (self : Self) (cp : Coords)
  (ctool : Tool) (rep : nat) (off : Coords)
  (inp : list (Outcome (option Reading))) :
  (List.length inp <= 5)%nat ->
  Forall (fun e => is_analyze e = true)
    (snd (fst (calibrateTool W H sq ls self cp ctool rep off inp))).
Proof.
  intros Hn. unfold calibrateTool. apply drive_warmup. cbn. exact Hn.
Qed.

End Camera.

End CalibMore.

(** ** Coordinates and offsets *)

Module GeometryFacts.
Import Py Num Calib NumFacts RoundFacts OffsetFacts.



(** X10: a pixel inside the frame is normalized into [-0.5, 0.5) on each
    axis, and the pixel is recovered from its normalized position. *)
Theorem normalize_coords_range (W H : Z) (x y : Z) :
  (0 <= x < W)%Z -> (0 <= y < H)%Z ->
  let c := normalize_coords W H (x, y) in
  - (1 # 2) <= fst c < 1 # 2 /\
  - (1 # 2) <= snd c < 1 # 2 /\
  (fst c + (1 # 2)) * inject_Z W == inject_Z x /\
  (snd c + (1 # 2)) * inject_Z H == inject_Z y.
Proof.
  intros Hx Hy. cbv zeta. unfold normalize_coords. cbn [fst snd].
  assert (PW : 0 < inject_Z W)
    by (change 0 with (inject_Z 0); rewrite <- Zlt_Qlt; lia).
  assert (PH : 0 < inject_Z H)
    by (change 0 with (inject_Z 0); rewrite <- Zlt_Qlt; lia).
  assert (X0 : 0 <= inject_Z x)
    by (change 0 with (inject_Z 0); rewrite <- Zle_Qle; lia).
  assert (Y0 : 0 <= inject_Z y)
    by (change 0 with (inject_Z 0); rewrite <- Zle_Qle; lia).
  assert (X1 : inject_Z x < inject_Z W) by (rewrite <- Zlt_Qlt; lia).
  assert (Y1 : inject_Z y < inject_Z H) by (rewrite <- Zlt_Qlt; lia).
  assert (Dx0 : 0 <= inject_Z x / inject_Z W)
    by (apply Qle_shift_div_l; [exact PW|lra]).
  assert (Dy0 : 0 <= inject_Z y / inject_Z H)
    by (apply Qle_shift_div_l; [exact PH|lra]).
  assert (Dx1 : inject_Z x / inject_Z W < 1)
    by (apply Qlt_shift_div_r; [exact PW|lra]).
  assert (Dy1 : inject_Z y / inject_Z H < 1)
    by (apply Qlt_shift_div_r; [exact PH|lra]).
  repeat split; try lra.
  - field. intros E. rewrite E in PW. apply (Qlt_irrefl 0 PW).
  - field. intros E. rewrite E in PH. apply (Qlt_irrefl 0 PH).
Qed.

Lemma normalize_coords_range_witness :
  let c := normalize_coords 640 480 (100, 100)%Z in
  - (1 # 2) <= fst c < 1 # 2 /\
  - (1 # 2) <= snd c < 1 # 2 /\
  (fst c + (1 # 2)) * inject_Z 640 == inject_Z 100 /\
  (snd c + (1 # 2)) * inject_Z 480 == inject_Z 100.
Proof.
  apply (normalize_coords_range 640 480 100 100); lia.
Defined.

(** X11: [getDistance] does not depend on the order of the two points,
    whatever [np.sqrt] is; so neither does the scale computed from it. *)
Theorem getDistance_symmetric (np_sqrt : Q -> Q) (x1 y1 x0 y0 : Z) :
  getDistance np_sqrt x1 y1 x0 y0 = getDistance np_sqrt x0 y0 x1 y1 /\
  mpp_of np_sqrt (x1, y1) (x0, y0) = mpp_of np_sqrt (x0, y0) (x1, y1).
Proof.
  assert (E : getDistance np_sqrt x1 y1 x0 y0
              = getDistance np_sqrt x0 y0 x1 y1).
  { unfold getDistance. cbv zeta. do 2 f_equal.
    unfold Qplus, Qmult, inject_Z. cbn [Qnum Qden]. f_equal. nia. }
  split; [exact E|]. unfold mpp_of. cbn [fst snd]. rewrite E. reflexivity.
Qed.

End GeometryFacts.

(** ** The alignment branch of [run], further properties *)

Module SessionMore.
Import Py Num Calib Stage Session Trace Handback CalibFacts CalibMore
  SessionFacts.

Lemma unloads_app (a b : list Event) :
  filter is_unload (a ++ b) = filter is_unload a ++ filter is_unload b.
Proof. apply filter_app. Qed.

(** What [calibrateTool] produces holds no tool change and no offset
    write. *)
Lemma inner_trace (tr : list Event) :
  Forall (fun e => of_calibrate e = true) tr ->
  loads tr = [] /\ applied tr = [] /\ filter is_unload tr = [].
Proof.
  induction 1 as [|e tr He _ IH]; [auto|].
  destruct IH as (L & A & U).
  destruct e; try discriminate; cbn; auto.
Qed.

Lemma status_trace (l : list string) :
  loads (map GetStatus l) = [] /\ results (map GetStatus l) = [] /\
  applied (map GetStatus l) = [] /\ filter is_unload (map GetStatus l) = [].
Proof. induction l; cbn; auto. Qed.

Lemma jobs_length (cycles : nat) (tools : list Z) :
  List.length (jobs cycles tools) = (cycles * List.length tools)%nat.
Proof.
  unfold jobs. generalize 0%nat as start.
  induction cycles as [|c IH]; intros start; [reflexivity|].
  cbn [seq flat_map]. rewrite length_app, length_map, IH. reflexivity.
Qed.

Lemma jobs_tools (cycles : nat) (tools : list Z) :
  map snd (jobs cycles tools) = List.concat (repeat tools cycles).
Proof.
  unfold jobs. generalize 0%nat as start.
  induction cycles as [|c IH]; intros start; [reflexivity|].
  cbn [seq flat_map repeat List.concat]. rewrite map_app, map_map.
  cbn [snd]. rewrite map_id, IH. reflexivity.
Qed.

Section Camera.

Variables W H : Z.
Variable sq : Q -> Q.
Variable ls : list (list Q) -> list (Q * Q) -> list (Q * Q) * list Q.
Variable cp : Coords.
Variable firmware : nat -> Z -> Coords.

(** The body of the loop for one tool: the tool is loaded once; when the
    body is done one result was sent and written to the printer with the
    same values; no tool is unloaded. *)
Lemma job_shape (self : Self) (rep : nat) (n : Z) (statuses : list string)
  (inp : list (Outcome (option Reading))) :
  let r := job W H sq ls cp firmware self rep n statuses inp in
  loads (snd r) = [n] /\
  filter is_unload (snd r) = [] /\
  match fst r with
  | JobDone _ _ _ =>
      exists x y,
        results (snd r) = [(n, rep, x, y)] /\ applied (snd r) = [(n, x, y)]
  | _ => True
  end.
Proof.
  cbv zeta. unfold job.
  destruct (wait_idle statuses) as [[polled unread]|] eqn:Wt.
  2: { cbn [fst snd]. destruct (status_trace statuses) as (L & _ & _ & U).
       rewrite loads_app, unloads_app, L, U. cbn. auto. }
  destruct (wait_idle_spec statuses polled unread Wt)
    as (busy & a & _ & -> & _ & _).
  pose proof (drive_inner W H sq ls (ToolNumber n) rep (firmware rep n) inp
                (Running AtTop (enter self cp))) as In.
  apply inner_trace in In. destruct In as (L & A & U).
  pose proof (drive_result W H sq ls (ToolNumber n) rep (firmware rep n) inp
                AtTop (enter self cp)) as R.
  unfold calibrateTool in *.
  destruct (drive W H sq ls (ToolNumber n) rep (firmware rep n)
              (Running AtTop (enter self cp)) inp) as [[c ev] inp0].
  cbn [fst snd] in *.
  destruct (status_trace busy) as (Lb & Rb & Ab & Ub).
  assert (Pre : forall tail,
            loads ((LoadTool n :: to_control_point cp)
                   ++ (map GetStatus busy ++ [GetStatus a]) ++ ev ++ tail)
            = n :: loads tail /\
            filter is_unload
              ((LoadTool n :: to_control_point cp)
               ++ (map GetStatus busy ++ [GetStatus a]) ++ ev ++ tail)
            = filter is_unload tail /\
            results ((LoadTool n :: to_control_point cp)
                     ++ (map GetStatus busy ++ [GetStatus a]) ++ ev ++ tail)
            = results ev ++ results tail /\
            applied ((LoadTool n :: to_control_point cp)
                     ++ (map GetStatus busy ++ [GetStatus a]) ++ ev ++ tail)
            = applied tail).
  { intros tail.
    rewrite !loads_app, !unloads_app, !results_app, !applied_app.
    rewrite L, A, U, Lb, Rb, Ab, Ub. cbn. auto. }
  destruct c as [ph s|[v|] s|e s|s]; cbn [fst snd].
  2: { destruct (Pre [SetToolOffsets n (res_X v) (res_Y v)])
         as (P1 & P2 & P3 & P4).
       rewrite P1, P2, P3, P4. split; [reflexivity|]. split; [reflexivity|].
       destruct R as ((tc & m & _ & V & Rs) & _).
       inversion V; subst. cbn [res_X res_Y].
       eexists _, _. rewrite Rs. split; reflexivity. }
  all: rewrite <- (app_nil_r ev); destruct (Pre []) as (P1 & P2 & _);
    rewrite P1, P2; auto.
Qed.

(** What the loop over the jobs leaves in the trace. *)
Lemma run_jobs_shape (js : list (nat * Z)) :
  forall (self : Self) (statuses : list string)
         (inp : list (Outcome (option Reading))),
    let r := run_jobs W H sq ls cp firmware js self statuses inp in
    if is_complete (fst r) then
      loads (snd r) = map snd js /\
      map key_of (results (snd r)) = js /\
      applied (snd r) = map written_of (results (snd r)) /\
      exists tr,
        snd r = tr ++ UnloadTools :: to_control_point cp /\
        filter is_unload tr = []
    else filter is_unload (snd r) = [].
Proof.
  induction js as [|[rep n] rest IH]; intros self statuses inp; cbv zeta.
  - cbn. repeat split. exists []. auto.
  - cbn [run_jobs].
    destruct (job_shape self rep n statuses inp) as (L & U & D).
    destruct (job W H sq ls cp firmware self rep n statuses inp) as [j ev].
    cbn [fst snd] in *.
    destruct j as [self' st' inp'|e self'|]; cbn [fst snd is_complete];
      try exact U.
    specialize (IH self' st' inp'). cbv zeta in IH.
    destruct (run_jobs W H sq ls cp firmware rest self' st' inp') as [e evs].
    cbn [fst snd] in *.
    destruct (is_complete e).
    + destruct IH as (L' & K' & A' & tr & E & U').
      destruct D as (x & y & Rs & Ap).
      rewrite loads_app, results_app, applied_app, L, Rs, Ap, L', A'.
      cbn [app map key_of written_of snd]. rewrite K'.
      repeat split. exists (ev ++ tr). rewrite E, app_assoc.
      split; [reflexivity|]. rewrite unloads_app, U, U'. reflexivity.
    + rewrite unloads_app, U, IH. reflexivity.
Qed.

(** X12: a session that completes loads the tools in the order of the list,
    once per cycle, cycle after cycle; it sends one result per tool and
    cycle, in that order, [cycles * len(tools)] in all; each result is
    written to the printer with the same X and Y; and the session ends by
    unloading the tool and moving to the control point, the only unload of
    the session. *)
Theorem completed_session_shape (self : Self) (cycles : nat)
  (tools : list Z) (statuses : list string)
  (inp : list (Outcome (option Reading))) :
  let r := run W H sq ls cp firmware self cycles tools statuses inp in
  is_complete (fst r) = true ->
  loads (snd r) = List.concat (repeat tools cycles) /\
  map key_of (results (snd r))
  = flat_map (fun rep => map (fun n => (rep, n)) tools) (seq 0 cycles) /\
  List.length (results (snd r)) = (cycles * List.length tools)%nat /\
  applied (snd r) = map written_of (results (snd r)) /\
  exists tr,
    snd r = tr ++ UnloadTools :: to_control_point cp /\
    filter is_unload tr = [].
Proof.
  cbv zeta. unfold run. intros C.
  pose proof (run_jobs_shape (jobs cycles tools) self statuses inp) as S.
  cbv zeta in S. rewrite C in S. destruct S as (L & K & A & T).
  split; [rewrite L; apply jobs_tools|].
  split; [exact K|]. split; [|split; [exact A|exact T]].
  rewrite <- (length_map key_of), K. apply jobs_length.
Qed.

(** X13: a session that does not complete, because a calibration raised or
    because the idle status or a detection never came, unloads no tool. *)
Theorem aborted_session_keeps_tool (self : Self) (cycles : nat)
  (tools : list Z) (statuses : list string)
  (inp : list (Outcome (option Reading))) :
  let r := run W H sq ls cp firmware self cycles tools statuses inp in
  is_complete (fst r) = false ->
  filter is_unload (snd r) = [].
Proof.
  cbv zeta. unfold run. intros C.
  pose proof (run_jobs_shape (jobs cycles tools) self statuses inp) as S.
  cbv zeta in S. rewrite C in S. exact S.
Qed.

End Camera.

End SessionMore.

(** ** The wait for the idle status *)

Module IdleFacts.
Import Py Calib Session Trace.

Lemma prefix_is_substring (a s : string) :
  String.prefix a s = true -> exists n, a = String.substring 0 n s.
Proof.
  intros P. exists (String.length a). symmetry.
  apply prefix_correct. exact P.
Qed.

Lemma str_in_idle (a : string) :
  str_in a "idle" = true <-> In a idle_words.
Proof.
  split.
  - cbn [str_in]. intros P.
    repeat (apply orb_true_iff in P; destruct P as [P|P]);
      try discriminate;
      apply prefix_is_substring in P; destruct P as (n & ->);
      do 5 (try (destruct n as [|n])); cbn; auto 15.
  - unfold idle_words. cbn [In].
    intros I. repeat (destruct I as [<-|I]; [reflexivity|]). destruct I.
Qed.

(** X14: the wait that precedes each calibration ends at the first status that
    is a substring of ['idle'] (one of 11 texts, the empty text among them),
    having asked once for each status up to that one; it does not end while
    no such status comes. *)
Theorem wait_ends_at_first_idle_word (answers : list string) :
  match wait_idle answers with
  | Some (polled, unread) =>
      exists busy a,
        answers = busy ++ a :: unread /\
        polled = map GetStatus (busy ++ [a]) /\
        In a idle_words /\
        Forall (fun b => ~ In b idle_words) busy
  | None => Forall (fun b => ~ In b idle_words) answers
  end.
Proof.
  induction answers as [|a rest IH]; cbn [wait_idle]; [constructor|].
  destruct (str_in a "idle") eqn:I.
  - exists [], a. repeat split; auto. apply str_in_idle. exact I.
  - assert (N : ~ In a idle_words).
    { intros C. apply str_in_idle in C. congruence. }
    destruct (wait_idle rest) as [[ev u]|].
    + destruct IH as (busy & b & -> & -> & Ib & Fb).
      exists (a :: busy), b. repeat split; auto.
    + constructor; assumption.
Qed.

End IdleFacts.

(** ** The moves of the camera calibration *)

Module PatternFacts.
Import Py Num Calib Stage Session Trace Pattern CalibFacts.

Lemma nbf_app (a b : list Event) :
  fits a = [] ->
  match net_before_fit (a ++ b) with
  | Some d' =>
      exists d, net_before_fit b = Some d /\
                fst d' == fst (net a) + fst d /\
                snd d' == snd (net a) + snd d
  | None => net_before_fit b = None
  end.
Proof.
  induction a as [|e a IH]; intros F.
  - cbn. destruct (net_before_fit b) as [d|]; [|reflexivity].
    exists d. repeat split; ring.
  - destruct e; cbn [app net_before_fit net fits flat_map] in *;
      try (apply IH; exact F); try discriminate.
    specialize (IH F).
    destruct (net_before_fit (a ++ b)) as [d'|]; [|exact IH].
    destruct IH as (d & -> & Ex & Ey). exists d. cbn [fst snd].
    repeat split; [rewrite Ex|rewrite Ey]; ring.
Qed.

Section Camera.

Variables W H : Z.
Variable sq : Q -> Q.
Variable ls : list (list Q) -> list (Q * Q) -> list (Q * Q) * list Q.

Lemma on_state_displaced (ctool : Tool) (rep : nat) (off : Coords)
  (s : Self) :
  displaced s ->
  (fits (snd (on_state W H sq ls ctool rep off s)) = [] /\
   match fst (on_state W H sq ls ctool rep off s) with
   | Running _ s' =>
       displaced s' /\
       fst (net (snd (on_state W H sq ls ctool rep off s)))
       + fst (displacement s) == fst (displacement s') /\
       snd (net (snd (on_state W H sq ls ctool rep off s)))
       + snd (displacement s) == snd (displacement s')
   | _ => True
   end)
  \/
  (exists i tail,
     snd (on_state W H sq ls ctool rep off s) = Fit i :: tail /\
     displacement s = pattern_at 9).
Proof.
  intros [S0|(R & Of)].
  - left.
    assert (E : on_state W H sq ls ctool rep off s = calib_init s)
      by (unfold on_state; rewrite S0; reflexivity).
    rewrite E. unfold calib_init, machine_xy. cbv zeta. cbn.
    destruct (tool_coordinates s); cbn; [|auto].
    split; [reflexivity|]. split.
    + right. cbn. split; [lia|reflexivity].
    + unfold displacement. rewrite S0. cbn. split; ring.
  - destruct (Nat.eq_dec (state s) 10) as [T|T].
    + assert (E : on_state W H sq ls ctool rep off s
                  = calib_finalize W H ls s)
        by (unfold on_state; rewrite T; reflexivity).
      rewrite E. unfold calib_finalize, machine_xy. cbv zeta.
      destruct (tool_coordinates _); [|left; cbn; auto].
      destruct (transform_input_from _ _ _ _ _); [left; cbn; auto|].
      right.
      destruct (matT_vec _ _); cbn [snd]; eexists _, _;
        (split; [reflexivity|]); unfold displacement; rewrite T; reflexivity.
    + left.
      assert (E : on_state W H sq ls ctool rep off s = calib_step sq s).
      { unfold on_state.
        destruct (Nat.eqb_spec (state s) 0) as [Z0|_]; [lia|].
        assert (C : ((1 <=? state s)%nat
                     && (state s <? List.length calibrationCoordinates)%nat)
                    = true).
        { apply andb_true_iff. split.
          - apply Nat.leb_le. lia.
          - apply Nat.ltb_lt. cbn. lia. }
        rewrite C. reflexivity. }
      rewrite E. unfold calib_step, machine_xy. cbv zeta.
      assert (D : displacement s = (offsetX s, offsetY s)).
      { unfold displacement. rewrite Of.
        destruct (state s) as [|k]; [lia|].
        cbn [Nat.sub]. rewrite Nat.sub_0_r. reflexivity. }
      repeat match goal with
             | |- context [nth (state ?x) calibrationCoordinates (0, 0)] =>
                 change (nth (state x) calibrationCoordinates (0, 0))
                   with (pattern_at (state s))
             end.
      destruct (Nat.eqb (state s) 1); cbn [tool_coordinates set_mpp
        set_oldxy]; destruct (tool_coordinates s); cbn [fst snd]; auto;
        (split; [reflexivity|]); (split;
        [ right; cbn -[pattern_at]; split; [lia|];
          rewrite Nat.sub_0_r; symmetry; apply surjective_pairing
        | rewrite D; unfold displacement; cbn -[pattern_at]; split;
          unfold pattern_at; cbn; ring ]).
Qed.

Lemma step_displaced (ctool : Tool) (rep : nat) (off : Coords) (ph : Phase)
  (s : Self) (o : Outcome (option Reading)) :
  displaced s ->
  (fits (snd (step W H sq ls ctool rep off ph s o)) = [] /\
   match fst (step W H sq ls ctool rep off ph s o) with
   | Running _ s' =>
       displaced s' /\
       fst (net (snd (step W H sq ls ctool rep off ph s o)))
       + fst (displacement s) == fst (displacement s') /\
       snd (net (snd (step W H sq ls ctool rep off ph s o)))
       + snd (displacement s) == snd (displacement s')
   | _ => True
   end)
  \/
  (exists i tail,
     snd (step W H sq ls ctool rep off ph s o) = Analyze :: Fit i :: tail /\
     displacement s = pattern_at 9).
Proof.
  intros D. destruct ph; cbn [step].
  - left. unfold at_top.
    destruct (unpack o) as [rd|e|];
      [destruct (position_iterations <=? _)%nat| |]; cbn [fst snd];
      (split; [reflexivity|]); auto;
      (split; [exact D|]); unfold displacement; cbn; split; ring.
  - unfold at_validate.
    destruct (unpack o) as [rd|e|]; try (left; cbn; auto; fail).
    cbv zeta.
    match goal with
    | |- context [on_state _ _ _ _ ?t ?r ?f ?x] =>
        assert (Dx : displaced x) by exact D;
        pose proof (on_state_displaced t r f x Dx) as Q;
        change (displacement x) with (displacement s) in Q;
        destruct (on_state W H sq ls t r f x) as [c ev]
    end.
    cbn [fst snd] in *.
    destruct Q as [(F & M)|(i & tail & -> & D9)].
    + left. split; [exact F|]. destruct c; auto.
    + right. exists i, tail. auto.
Qed.

Lemma drive_displaced (ctool : Tool) (rep : nat) (off : Coords)
  (inp : list (Outcome (option Reading))) :
  forall (ph : Phase) (s : Self),
    displaced s ->
    match net_before_fit
            (snd (fst (drive W H sq ls ctool rep off (Running ph s) inp)))
    with
    | Some d =>
        fst d + fst (displacement s) == fst (pattern_at 9) /\
        snd d + snd (displacement s) == snd (pattern_at 9)
    | None => True
    end.
Proof.
  induction inp as [|o rest IH]; intros ph s D; [exact I|].
  rewrite drive_cons. cbv zeta. cbn [fst snd].
  destruct (step_displaced ctool rep off ph s o D)
    as [(F & M)|(i & tail & E & D9)].
  - pose proof (nbf_app (snd (step W H sq ls ctool rep off ph s o))
                  (snd (fst (drive W H sq ls ctool rep off
                               (fst (step W H sq ls ctool rep off ph s o))
                               rest))) F) as N.
    destruct (net_before_fit _) as [d'|]; [|exact I].
    destruct N as (d & Nb & Ex & Ey).
    destruct (fst (step W H sq ls ctool rep off ph s o))
      as [ph1 s1|v s1|e s1|s1];
      try (rewrite drive_stop in Nb by reflexivity; discriminate).
    destruct M as (D1 & Mx & My). specialize (IH ph1 s1 D1).
    rewrite Nb in IH. destruct IH as (Ix & Iy).
    split; [rewrite Ex, <- Ix, <- Mx|rewrite Ey, <- Iy, <- My]; ring.
  - rewrite E. cbn [app net_before_fit]. rewrite D9. cbn [fst snd].
    split; ring.
Qed.

(** X7: in a call that starts with no transform held, the relative moves
    issued before the fit add up to the last point of the pattern,
    (-0.294, -0.405): each pattern move but the last has been undone before
    the next one. *)
Theorem pattern_moves_are_undone (self : Self) (cp : Coords) (ctool : Tool)
  (rep : nat) (off : Coords) (inp : list (Outcome (option Reading))) :
  (List.length (transform_matrix self) <= 1)%nat ->
  match net_before_fit
          (snd (fst (calibrateTool W H sq ls self cp ctool rep off inp)))
  with
  | Some d => fst d == - (294 # 1000) /\ snd d == - (405 # 1000)
  | None => True
  end.
Proof.
  intros Ln. unfold calibrateTool.
  destruct (enter_stage self cp) as [(Ln' & _)|(_ & Sm)]; [lia|].
  assert (S0 : state (enter self cp) = 0%nat).
  { unfold enter. cbn [state].
    destruct (Nat.ltb_spec 1 (List.length (transform_matrix self)));
      [lia|reflexivity]. }
  pose proof (drive_displaced ctool rep off inp AtTop (enter self cp)
                (or_introl S0)) as Dd.
  destruct (net_before_fit _) as [d|]; [|exact I].
  unfold displacement in Dd. rewrite S0 in Dd. cbn in Dd.
  destruct Dd as (Dx & Dy). split; [rewrite <- Dx|rewrite <- Dy]; ring.
Qed.

End Camera.

End PatternFacts.

(** ** [parseData] *)

Module StatsFacts.
Import Num Stats.

Lemma fold_max_spec (rest : list Z) :
  forall x,
    In (fold_left Z.max rest x) (x :: rest) /\
    forall y, In y (x :: rest) -> (y <= fold_left Z.max rest x)%Z.
Proof.
  induction rest as [|z rest IH]; intros x; cbn [fold_left].
  - split; [left; reflexivity|]. intros y [<-|[]]. lia.
  - destruct (IH (Z.max x z)) as (I & M). split.
    + destruct I as [E|I]; [|right; right; exact I].
      destruct (Z.max_spec x z) as [(_ & Em)|(_ & Em)];
        [right; left|left]; congruence.
    + intros y [Ey|[Ey|Iy]].
      * specialize (M (Z.max x z) (or_introl eq_refl)). lia.
      * specialize (M (Z.max x z) (or_introl eq_refl)). lia.
      * apply M. right. exact Iy.
Qed.

Lemma np_max_spec (l : list Z) (m : Z) :
  np_max l = Some m -> In m l /\ forall y, In y l -> (y <= m)%Z.
Proof.
  destruct l as [|x rest]; [discriminate|]. cbn [np_max].
  intros E. inversion E; subst. apply fold_max_spec.
Qed.

Lemma sum_shift (c : Q) (l : list Q) :
  fold_right Qplus 0 (map (fun v => v - c) l)
  == fold_right Qplus 0 l - inject_Z (Z.of_nat (List.length l)) * c.
Proof.
  induction l as [|v l IH].
  - cbn. ring.
  - cbn [map fold_right List.length]. rewrite IH.
    rewrite Nat2Z.inj_succ, <- Z.add_1_r, inject_Z_plus.
    change (inject_Z 1) with 1. ring.
Qed.

Lemma mean_shift (c : Q) (l : list Q) :
  l <> [] ->
  np_mean (map (fun v => v - c) l) == np_mean l - c.
Proof.
  intros Ne. unfold np_mean. rewrite sum_shift, length_map.
  assert (P : 0 < inject_Z (Z.of_nat (List.length l))).
  { change 0 with (inject_Z 0). rewrite <- Zlt_Qlt.
    destruct l; [congruence|]. cbn [List.length]. lia. }
  field. intros E. rewrite E in P. apply (Qlt_irrefl 0 P).
Qed.

Lemma per_tool_centred (rawData : list Line) (i : Z) (p : list Q * list Q) :
  per_tool rawData i = Some p -> centred rawData i p.
Proof.
  unfold per_tool, centred, column, lines_of. cbv zeta.
  set (sel := filter (fun l => Z.eqb (tool l) i) rawData).
  assert (Lx : List.length (map lineX sel) = List.length sel)
    by apply length_map.
  assert (Ly : List.length (map lineY sel) = List.length sel)
    by apply length_map.
  destruct (map lineX sel) as [|x0 xs] eqn:Ex; [discriminate|].
  cbv beta iota. remember (x0 :: xs) as X eqn:HX.
  intros [= <-]. cbn [fst snd]. rewrite !length_map.
  assert (Nx : X <> []) by (subst X; discriminate).
  assert (Ny : map lineY sel <> []).
  { intros E. rewrite E in Ly. rewrite <- Lx in Ly. subst X. discriminate. }
  assert (L1 : (1 <= List.length sel)%nat).
  { rewrite <- Lx. subst X. cbn [List.length]. lia. }
  split; [exact L1|]. split; [exact Lx|]. split; [reflexivity|].
  rewrite (mean_shift _ X Nx), (mean_shift _ (map lineY sel) Ny).
  pose proof (RoundFacts.around3_near (np_mean X)) as Bx.
  pose proof (RoundFacts.around3_near (np_mean (map lineY sel))) as By.
  split; split; lra.
Qed.

Lemma all_tools_spec (rawData : list Line) (tools : list Z) :
  forall d,
    all_tools rawData tools = Some d ->
    Forall2 (centred rawData) tools d.
Proof.
  induction tools as [|i rest IH]; intros d E; cbn [all_tools] in E.
  - inversion E. constructor.
  - destruct (per_tool rawData i) as [p|] eqn:P; [|discriminate].
    destruct (all_tools rawData rest) as [d'|]; [|discriminate].
    inversion E; subst. constructor; [|apply IH; reflexivity].
    apply per_tool_centred. exact P.
Qed.

Lemma all_tools_gap (rawData : list Line) (i : Z) (tools : list Z) :
  In i tools -> lines_of i rawData = 0%nat ->
  all_tools rawData tools = None.
Proof.
  intros I Z0. induction tools as [|j rest IH]; [destruct I|].
  cbn [all_tools]. destruct I as [->|I].
  - unfold per_tool, column. unfold lines_of in Z0.
    apply length_zero_iff_nil in Z0. rewrite Z0. reflexivity.
  - destruct (per_tool rawData j); [|reflexivity].
    rewrite (IH I). reflexivity.
Qed.

Lemma In_range (n i : Z) : In i (range n) <-> (0 <= i < n)%Z.
Proof.
  unfold range. rewrite in_map_iff. split.
  - intros (k & <- & Hk). apply in_seq in Hk. lia.
  - intros Hi. exists (Z.to_nat i). split; [lia|]. apply in_seq. lia.
Qed.

(** X19: when [parseData] returns, the number of tools it reports is the
    largest tool number of the data plus one, the number of cycles is the
    largest cycle number, and for each tool from 0 up to that number, in
    order, it returns as many X and Y values as the tool has lines (at least
    one), each axis shifted so that its mean is within 0.0005 of zero. *)
Theorem parseData_shape (rawData : list Line) (n c : Z)
  (d : list (list Q * list Q)) :
  parseData rawData = Some (n, c, d) ->
  In (n - 1)%Z (map tool rawData) /\
  (forall l, In l rawData -> (tool l < n)%Z /\ (cycle l <= c)%Z) /\
  In c (map cycle rawData) /\
  Forall2 (centred rawData) (range n) d.
Proof.
  unfold parseData. intros E.
  destruct (np_max (map tool rawData)) as [mt|] eqn:Mt; [|discriminate].
  destruct (np_max (map cycle rawData)) as [mc|] eqn:Mc; [|discriminate].
  cbv zeta in E.
  destruct (all_tools rawData (range (mt + 1))) as [d'|] eqn:A;
    [|discriminate].
  inversion E; subst.
  apply np_max_spec in Mt. apply np_max_spec in Mc.
  destruct Mt as (It & Ut). destruct Mc as (Ic & Uc).
  replace (mt + 1 - 1)%Z with mt by lia.
  split; [exact It|]. split.
  - intros l Hl. split.
    + specialize (Ut (tool l) (in_map tool _ _ Hl)). lia.
    + apply Uc. apply in_map. exact Hl.
  - split; [exact Ic|]. apply all_tools_spec. exact A.
Qed.

(** X20: [parseData] raises [ValueError] on empty data, and on data in which
    some tool number below the largest one has no line. *)
Theorem parseData_needs_every_tool (rawData : list Line) (i : Z) :
  rawData = [] \/
  ((0 <= i)%Z /\ (exists l, In l rawData /\ (i < tool l)%Z) /\
   lines_of i rawData = 0%nat) ->
  parseData rawData = None.
Proof.
  intros [->|(I0 & (l & Hl & Lt) & Z0)]; [reflexivity|].
  unfold parseData.
  destruct (np_max (map tool rawData)) as [mt|] eqn:Mt; [|reflexivity].
  destruct (np_max (map cycle rawData)) as [mc|]; [|reflexivity].
  cbv zeta. apply np_max_spec in Mt. destruct Mt as (_ & Ut).
  specialize (Ut (tool l) (in_map tool _ _ Hl)).
  rewrite (all_tools_gap rawData i); auto.
  apply In_range. lia.
Qed.

End StatsFacts.

(** ** [sanitizeURL] *)

Module UrlFacts.
Import Url.

(** X21: [sanitizeURL] answers code 0 exactly when the scheme is [http] in
    any letter case and the network location is not empty, and the URL is
    then the scheme, [://] and the location; in every other case the URL is
    [http://localhost]; an [https] scheme gets code 1, and code 3 is never
    answered. *)
Theorem sanitizeURL_codes (scheme netlocation : string) :
  let r := sanitizeURL scheme netlocation in
  fst (fst r) <> 3%nat /\
  (fst (fst r) = 0%nat <->
   lower scheme = "http"%string /\ netlocation <> EmptyString) /\
  (fst (fst r) = 0%nat ->
   snd r = (scheme ++ "://" ++ netlocation)%string) /\
  (fst (fst r) <> 0%nat -> snd r = "http://localhost"%string) /\
  (lower scheme = "https"%string -> fst (fst r) = 1%nat).
Proof.
  cbv zeta. unfold sanitizeURL, in_list. cbn [existsb].
  rewrite !orb_false_r.
  assert (L : forall s, String.length (lower s) = String.length s).
  { induction s as [|c s IH]; cbn; congruence. }
  destruct (String.eqb_spec (lower scheme) "http") as [Eh|Nh].
  - assert (L4 : (String.length scheme <? 4)%nat = false).
    { apply Nat.ltb_ge. rewrite <- L, Eh. cbn. lia. }
    rewrite L4. cbn [negb orb].
    destruct (String.eqb_spec (lower scheme) "https") as [Es|_];
      [rewrite Eh in Es; discriminate|].
    destruct netlocation as [|a rest]; cbn [String.length Nat.ltb Nat.leb];
      cbn [fst snd]; repeat split; try discriminate; try congruence; auto;
      try (intros (_ & N); congruence); try (intros N; congruence).
  - rewrite orb_true_r. cbn [fst snd].
    repeat split; try discriminate; try congruence; auto;
      try (intros (E & _); congruence).
Qed.

End UrlFacts.

(** ** Further runs on concrete inputs *)

Module MoreScenarios.
Import Py Num Calib Stage Session Trace Inputs MoreInputs.


Lemma no_command_before_sixth_detection_witness :
  Forall (fun e => is_analyze e = true)
    (snd (fst (calibrateTool 640 480 sqrt0 fit0 fresh control_point
                 (ToolNumber 0) 0 no_offset (at_centre 5)))).
Proof.
  apply (CalibMore.no_command_before_sixth_detection 640 480 sqrt0 fit0
           fresh control_point (ToolNumber 0) 0 no_offset (at_centre 5)).
  vm_compute. lia.
Defined.

Lemma completed_session_shape_witness :
  loads (snd (run 640 480 sqrt0 fit0 control_point firmware0 fresh 1
                [0; 1]%Z ["idle"; "idle"]%string (at_centre 34)))
  = [0; 1]%Z /\
  List.length
    (results (snd (run 640 480 sqrt0 fit0 control_point firmware0 fresh 1
                     [0; 1]%Z ["idle"; "idle"]%string (at_centre 34))))
  = 2%nat.
Proof.
  destruct (SessionMore.completed_session_shape 640 480 sqrt0 fit0
              control_point firmware0 fresh 1 [0; 1]%Z
              ["idle"; "idle"]%string (at_centre 34) eq_refl)
    as (L & _ & N & _).
  split; [exact L|exact N].
Defined.

Lemma aborted_session_keeps_tool_witness :
  filter is_unload
    (snd (run 640 480 sqrt0 fit0 control_point firmware0 fresh 1 [0; 1]%Z
            ["idle"; "idle"]%string (at_centre 3 ++ [Return None])))
  = [].
Proof.
  apply (SessionMore.aborted_session_keeps_tool 640 480 sqrt0 fit0
           control_point firmware0 fresh 1 [0; 1]%Z
           ["idle"; "idle"]%string (at_centre 3 ++ [Return None])).
  reflexivity.
Defined.

Lemma pattern_moves_are_undone_witness :
  exists d,
    net_before_fit
      (snd (fst (calibrateTool 640 480 sqrt0 fit0 fresh control_point
                   (ToolNumber 0) 0 no_offset (at_centre 28))))
    = Some d /\
    fst d == - (294 # 1000) /\ snd d == - (405 # 1000).
Proof.
  pose proof (PatternFacts.pattern_moves_are_undone 640 480 sqrt0 fit0 fresh
                control_point (ToolNumber 0) 0 no_offset (at_centre 28)) as P.
  destruct (net_before_fit _) as [d|] eqn:E.
  - exists d. split; [reflexivity|]. apply P. vm_compute. lia.
  - vm_compute in E. discriminate E.
Defined.

Lemma parseData_shape_witness :
  exists n c d,
    Stats.parseData two_tools = Some (n, c, d) /\
    Forall2 (Stats.centred two_tools) (Stats.range n) d.
Proof.
  pose proof (StatsFacts.parseData_shape two_tools) as P.
  destruct (Stats.parseData two_tools) as [[[n c] d]|] eqn:E.
  - exists n, c, d. split; [reflexivity|]. apply (P n c d eq_refl).
  - vm_compute in E. discriminate E.
Defined.

Lemma parseData_needs_every_tool_witness :
  Stats.parseData tools_0_and_2 = None.
Proof.
  apply (StatsFacts.parseData_needs_every_tool tools_0_and_2 1).
  right. split; [lia|]. split; [|reflexivity].
  eexists. split; [right; left; reflexivity|]. cbn. lia.
Defined.

Lemma centering_tool_moves_witness :
  (exists ev,
     snd (centering 640 480 (ToolNumber 0) 0 no_offset off_centre)
     = LimitAxes
       :: MoveRelative 1000 (around3 (1891 # 1000)) (around3 (1604 # 1000))
       :: ev /\
     Forall (fun e => is_relative_move e = false) ev /\
     ev = if is_zero (around3 (1891 # 1000))
             && is_zero (around3 (1604 # 1000))
          then snd (finish (ToolNumber 0) 0 no_offset off_centre)
          else []) /\
  is_running (fst (centering 640 480 (ToolNumber 0) 0 no_offset off_centre))
  = negb (is_zero (around3 (1891 # 1000))
          && is_zero (around3 (1604 # 1000))).
Proof.
  apply (CalibFacts.centering_tool_moves 640 480 0 0 no_offset off_centre).
  exact OffsetFacts.offsets_off_centre.
Defined.

Lemma centering_endstop_stops_witness :
  is_running (fst (centering 640 480 Endstop 1 no_offset off_centre))
  = negb (abs_lt_005 (around3 (1891 # 1000))
          && abs_lt_005 (around3 (1604 # 1000))).
Proof.
  apply (CalibFacts.centering_endstop_stops 640 480 1 no_offset off_centre).
  exact OffsetFacts.offsets_off_centre.
Defined.

End MoreScenarios.
